(** * cashflow-universal: the statement pipeline of [main.py]

    A shallow embedding of the data pipeline of [main.py]: statement
    parsing ([parse_bank_data]), rule and amount-bucket grouping
    ([auto_categorize_transactions]), recurrence detection
    ([detect_frequency]), the move-transactions review operation, the
    day-by-day forecast ([get_forecast]) and the weekly trend
    classification ([get_trends]).

    Modelling conventions.
    - Text is ASCII: a Python [str] is a [string] of bytes, and the
      character classes of [str.strip], [str.upper] and the [re] module
      are the ASCII ones.
    - A Python [float] is the rational it denotes ([Q]); a Python
      number is a [pynum], which keeps the [int]/[float] distinction
      because string formatting and [round] observe it.  [float(s)]
      reads the binary64 number nearest to the decimal, and the
      products of the trend analysis, on which its thresholds turn, are
      rounded to binary64 as the code rounds them ([PyNum.binary64]);
      sums, differences, quotients and [round] are taken in exact
      arithmetic.  The non-finite literals ([inf], [nan]) are not
      numbers of the model.
    - The process-wide dictionaries are [gmap]s keyed by company id; a
      failing dictionary access is an explicit [Uncaught] outcome.
    - [datetime.now()] is an explicit argument [today].  A date stands
      for its ISO text; the calendar ends on 9999-12-31
      ([Cal.add_timedelta]), and the text of a year below 1000 is one
      that [strptime] does not read back ([Cal.readable]). *)

From Stdlib Require Import ZArith QArith Qround Qabs Qpower String Ascii List Lia Bool.
From Stdlib Require Import DecimalString Lqa.
From Stdlib Require DecimalNat DecimalFacts.
From stdpp Require Import gmap strings list fin_maps.
Import ListNotations.

Open Scope string_scope.
Open Scope list_scope.
Open Scope Z_scope.

(** ** Python strings *)

Module PyStr.

Definition code (c : ascii) : nat := nat_of_ascii c.

(** The ASCII characters for which [str.isspace] holds; they are also
    the ASCII characters matched by the regex class [\s]. *)
Definition is_space (c : ascii) : bool :=
  ((9 <=? code c) && (code c <=? 13) || (28 <=? code c) && (code c <=? 32))%nat.

Definition is_tab (c : ascii) : bool := (code c =? 9)%nat.

Definition is_digit (c : ascii) : bool :=
  ((48 <=? code c) && (code c <=? 57))%nat.

(** [[A-Z]] under [re.IGNORECASE]. *)
Definition is_alpha (c : ascii) : bool :=
  ((65 <=? code c) && (code c <=? 90) || (97 <=? code c) && (code c <=? 122))%nat.

Definition upper_char (c : ascii) : ascii :=
  if ((97 <=? code c) && (code c <=? 122))%nat
  then ascii_of_nat (code c - 32) else c.

(** [s.upper()] *)
Fixpoint upper (s : string) : string :=
  match s with
  | EmptyString => EmptyString
  | String c r => String (upper_char c) (upper r)
  end.

Definition is_empty (s : string) : bool :=
  match s with EmptyString => true | _ => false end.

Fixpoint lstrip (s : string) : string :=
  match s with
  | EmptyString => EmptyString
  | String c r => if is_space c then lstrip r else s
  end.

Fixpoint rstrip (s : string) : string :=
  match s with
  | EmptyString => EmptyString
  | String c r =>
      let r' := rstrip r in
      if is_space c && is_empty r' then EmptyString else String c r'
  end.

(** [s.strip()] *)
Definition strip (s : string) : string := rstrip (lstrip s).

(** [needle in hay] *)
Fixpoint contains (needle hay : string) : bool :=
  String.prefix needle hay
  || match hay with
     | EmptyString => false
     | String _ r => contains needle r
     end.

Definition cons_head (c : ascii) (parts : list string) : list string :=
  match parts with
  | p :: q => String c p :: q
  | [] => [String c EmptyString]
  end.

(** [s.split(sep)] for a one-character separator. *)
Fixpoint split_char (sep : ascii) (s : string) : list string :=
  match s with
  | EmptyString => [EmptyString]
  | String c r =>
      if Ascii.eqb c sep then EmptyString :: split_char sep r
      else cons_head c (split_char sep r)
  end.

(** [re.sub(r'[$,]', '', s)] *)
Fixpoint remove_dollar_comma (s : string) : string :=
  match s with
  | EmptyString => EmptyString
  | String c r =>
      if Ascii.eqb c "$" || Ascii.eqb c ","
      then remove_dollar_comma r
      else String c (remove_dollar_comma r)
  end.

(** [re.split(r'\t+|\s{2,}', s)].  The scanner is in [InTabs] while it
    consumes a match of [\t+], in [InSpaces] while it consumes a match
    of [\s{2,}], and in [Normal] inside a field.  The head of the
    result is the field under construction. *)
Inductive split_mode := Normal | InTabs | InSpaces.

Fixpoint re_split_fields (m : split_mode) (s : string) : list string :=
  match s with
  | EmptyString => [EmptyString]
  | String c r =>
      let next_is_space :=
        match r with String d _ => is_space d | EmptyString => false end in
      let in_field :=
        if is_tab c then EmptyString :: re_split_fields InTabs r
        else if is_space c && next_is_space
             then EmptyString :: re_split_fields InSpaces r
             else cons_head c (re_split_fields Normal r) in
      match m with
      | Normal => in_field
      | InTabs => if is_tab c then re_split_fields InTabs r else in_field
      | InSpaces => if is_space c then re_split_fields InSpaces r else in_field
      end
  end.

Definition re_split (s : string) : list string := re_split_fields Normal s.

Definition digit_val (c : ascii) : Z := Z.of_nat (code c - 48).

Fixpoint int_acc (acc : Z) (s : string) : Z :=
  match s with
  | EmptyString => acc
  | String c r => int_acc (10 * acc + digit_val c) r
  end.

(** [int(s)] for a string of decimal digits (surrounding blanks are
    stripped, as [int] does). *)
Definition int_of (s : string) : Z := int_acc 0 (strip s).

Fixpoint all_digits (s : string) : bool :=
  match s with
  | EmptyString => true
  | String c r => is_digit c && all_digits r
  end.

(** [str(n)] for a natural number. *)
Definition of_nat (n : nat) : string :=
  DecimalString.NilZero.string_of_uint (Nat.to_uint n).

End PyStr.

(** ** Python numbers *)

Inductive pynum :=
| PyInt (z : Z)
| PyFloat (q : Q).

Module PyNum.

Definition val (n : pynum) : Q :=
  match n with
  | PyInt z => inject_Z z
  | PyFloat q => q
  end.

Definition Qlt_bool (a b : Q) : bool := negb (Qle_bool b a).

(** [a > b], [a < b], [a <= b] on numbers *)
Definition gt (a b : pynum) : bool := Qlt_bool (val b) (val a).
Definition lt (a b : pynum) : bool := Qlt_bool (val a) (val b).
Definition le (a b : pynum) : bool := Qle_bool (val a) (val b).

(** truth value of a number: non-zero *)
Definition truthy (a : pynum) : bool := negb (Qeq_bool (val a) 0).

Definition add (a b : pynum) : pynum :=
  match a, b with
  | PyInt x, PyInt y => PyInt (x + y)
  | _, _ => PyFloat (val a + val b)%Q
  end.

Definition sub (a b : pynum) : pynum :=
  match a, b with
  | PyInt x, PyInt y => PyInt (x - y)
  | _, _ => PyFloat (val a - val b)%Q
  end.

Definition neg (a : pynum) : pynum :=
  match a with
  | PyInt x => PyInt (- x)
  | PyFloat q => PyFloat (- q)%Q
  end.

Definition abs (a : pynum) : pynum :=
  match a with
  | PyInt x => PyInt (Z.abs x)
  | PyFloat q => PyFloat (Qabs q)
  end.

(** [a / n]: true division always yields a float.
    Division by zero is handled by the callers, as in the source. *)
Definition truediv (a : pynum) (n : Z) : pynum := PyFloat (val a / inject_Z n)%Q.

(** [sum(xs)]: starts from the int [0]. *)
Definition sum (xs : list pynum) : pynum := fold_left add xs (PyInt 0).

(** equality of the printed forms of two numbers: the int [0] prints
    as [0], the float [0.0] as [0.0]. *)
Definition same_repr (a b : pynum) : bool :=
  match a, b with
  | PyInt x, PyInt y => x =? y
  | PyFloat p, PyFloat q => Qeq_bool p q
  | _, _ => false
  end.

(** Rounding to the nearest integer, ties to the even neighbour. *)
Definition round_half_even (q : Q) : Z :=
  let f := Qfloor q in
  match ((q - inject_Z f) ?= (1 # 2))%Q with
  | Lt => f
  | Gt => f + 1
  | Eq => if Z.even f then f else f + 1
  end.

Definition pow10 (k : Z) : Q := ((10 # 1) ^ k)%Q.

(** [round(a, ndigits)] *)
Definition round (a : pynum) (ndigits : Z) : pynum :=
  match a with
  | PyFloat q =>
      PyFloat (inject_Z (round_half_even (q * pow10 ndigits)) / pow10 ndigits)%Q
  | PyInt z =>
      if 0 <=? ndigits then PyInt z
      else let p := 10 ^ (- ndigits) in
           PyInt (round_half_even (z # Z.to_pos p) * p)
  end.

(** *** Binary floating point

    The sums, differences and quotients above are taken in exact
    arithmetic.  Where [float] reads a number from text, and where the
    trend analysis multiplies, the result is rounded as the code rounds
    it: a float is the rational it denotes, and the result is the
    nearest IEEE 754 binary64 number, that is, the nearest [m * 2^u]
    with [|m| <= 2^53] and [u >= -1074], ties going to the even [m].
    The overflow to infinity beyond about 1.8e308 is outside the
    model. *)

(** [floor (log2 q)] for a positive [q] *)
Definition ilog2 (q : Q) : Z :=
  let e := Z.log2 (Qnum q) - Z.log2 (Zpos (Qden q)) in
  if Qle_bool (2 ^ e) q then e else e - 1.

(** The exponent of the unit in the last place at [q]. *)
Definition ulp_exponent (q : Q) : Z := Z.max (ilog2 (Qabs q) - 52) (-1074).

(** The binary64 number nearest to [q]. *)
Definition binary64 (q : Q) : Q :=
  let u := ulp_exponent q in
  (inject_Z (round_half_even (q / 2 ^ u)) * 2 ^ u)%Q.

(** [float(a)] as the arithmetic applies it to an operand. *)
Definition to_float (a : pynum) : Q :=
  match a with
  | PyInt z => binary64 (inject_Z z)
  | PyFloat q => q
  end.

(** [a * f] for a float [f]: the binary64 product. *)
Definition mul_float (a : pynum) (f : Q) : pynum := PyFloat (binary64 (to_float a * f))%Q.

(** *** [float(s)]

    The text is stripped and read as
    [[sign] (digitpart ["." [digitpart]] | "." digitpart) [exponent]];
    anything else is the [ValueError] of [float], here [None].  The value
    is the binary64 number nearest to the decimal value.  The literals
    [inf], [infinity] and [nan], which [float] also accepts, and
    exponents so large that the float overflows, are outside the model:
    a statement with such a field is not an input of the embedding.

    [digitpart] reads [digit (["_"] digit)*]: the digits are accumulated
    into [acc] and counted in [cnt]; the unread rest is returned. *)
Fixpoint digitpart (acc : Z) (cnt : nat) (s : string) {struct s} : Z * nat * string :=
  match s with
  | EmptyString => (acc, cnt, s)
  | String c r =>
      if PyStr.is_digit c
      then digitpart (10 * acc + PyStr.digit_val c) (S cnt) r
      else if Ascii.eqb c "_" && (0 <? cnt)%nat
      then match r with
           | String d r' =>
               if PyStr.is_digit d
               then digitpart (10 * acc + PyStr.digit_val d) (S cnt) r'
               else (acc, cnt, s)
           | EmptyString => (acc, cnt, s)
           end
      else (acc, cnt, s)
  end.

Definition take_sign (s : string) : bool * string :=
  match s with
  | String c r =>
      if Ascii.eqb c "-" then (true, r)
      else if Ascii.eqb c "+" then (false, r)
      else (false, s)
  | EmptyString => (false, s)
  end.

(** [("e" | "E") [sign] digitpart], or nothing; [None] when an
    exponent marker is not followed by a well-formed exponent or when
    text remains. *)
Definition exponent (s : string) : option Z :=
  match s with
  | EmptyString => Some 0
  | String c r =>
      if Ascii.eqb c "e" || Ascii.eqb c "E" then
        let '(negative, r1) := take_sign r in
        let '(e, cnt, rest) := digitpart 0 0 r1 in
        if (0 <? cnt)%nat && PyStr.is_empty rest
        then Some (if negative then - e else e)
        else None
      else None
  end.

Definition py_float (s : string) : option Q :=
  let '(negative, s1) := take_sign (PyStr.strip s) in
  let '(ip, icnt, s2) := digitpart 0 0 s1 in
  let '(m, fcnt, s3) :=
    match s2 with
    | String c r => if Ascii.eqb c "." then digitpart ip 0 r else (ip, 0%nat, s2)
    | EmptyString => (ip, 0%nat, s2)
    end in
  if (0 <? icnt + fcnt)%nat then
    match exponent s3 with
    | Some e =>
        let v := (inject_Z m * pow10 (e - Z.of_nat fcnt))%Q in
        Some (binary64 (if negative then (- v)%Q else v))
    | None => None
    end
  else None.

End PyNum.

(** ** Calendar dates ([datetime]) *)

Module Cal.

Record date := mkdate { year : Z; month : Z; day : Z }.

Definition is_leap (y : Z) : bool :=
  (y mod 4 =? 0) && (negb (y mod 100 =? 0) || (y mod 400 =? 0)).

Definition DAYS_IN_MONTH : list Z :=
  [-1; 31; 28; 31; 30; 31; 30; 31; 31; 30; 31; 30; 31].

Definition DAYS_BEFORE_MONTH : list Z :=
  [-1; 0; 31; 59; 90; 120; 151; 181; 212; 243; 273; 304; 334].

Definition days_in_month (y m : Z) : Z :=
  if (m =? 2) && is_leap y then 29 else nth (Z.to_nat m) DAYS_IN_MONTH 0.

Definition days_before_month (y m : Z) : Z :=
  nth (Z.to_nat m) DAYS_BEFORE_MONTH 0
  + (if (2 <? m) && is_leap y then 1 else 0).

Definition days_before_year (year : Z) : Z :=
  let y := year - 1 in
  y * 365 + y / 4 - y / 100 + y / 400.

Definition ymd2ord (y m d : Z) : Z :=
  days_before_year y + days_before_month y m + d.

(** [d.toordinal()]: 0001-01-01 is day 1. *)
Definition toordinal (d : date) : Z := ymd2ord (year d) (month d) (day d).

Definition valid (y m d : Z) : bool :=
  (1 <=? y) && (y <=? 9999) && (1 <=? m) && (m <=? 12)
  && (1 <=? d) && (d <=? days_in_month y m).

(** [datetime(y, m, d)]; [None] stands for the [ValueError] raised on
    an impossible date. *)
Definition datetime (y m d : Z) : option date :=
  if valid y m d then Some (mkdate y m d) else None.

(** [date.fromordinal(n)] *)
Definition ord2ymd (ordinal : Z) : date :=
  let n := ordinal - 1 in
  let n400 := n / 146097 in
  let n := n mod 146097 in
  let n100 := n / 36524 in
  let n := n mod 36524 in
  let n4 := n / 1461 in
  let n := n mod 1461 in
  let n1 := n / 365 in
  let n := n mod 365 in
  let y := n400 * 400 + 1 + n100 * 100 + n4 * 4 + n1 in
  if (n1 =? 4) || (n100 =? 4) then mkdate (y - 1) 12 31
  else
    let leapyear := (n1 =? 3) && (negb (n4 =? 24) || (n100 =? 3)) in
    let m := Z.shiftr (n + 50) 5 in
    let preceding :=
      nth (Z.to_nat m) DAYS_BEFORE_MONTH 0
      + (if (2 <? m) && leapyear then 1 else 0) in
    if n <? preceding then
      let m' := m - 1 in
      let preceding' :=
        preceding - (nth (Z.to_nat m') DAYS_IN_MONTH 0
                     + (if (m' =? 2) && leapyear then 1 else 0)) in
      mkdate y m' (n - preceding' + 1)
    else mkdate y m (n - preceding + 1).

(** The date [k] days after [d]. *)
Definition add_days (d : date) (k : Z) : date := ord2ymd (toordinal d + k).

(** The ordinal of [date.max], 9999-12-31. *)
Definition MAXORDINAL : Z := 3652059.

(** [d + timedelta(days=k)]: [None] stands for the [OverflowError] that
    [timedelta] raises beyond 999999999 days and that the sum raises
    when it leaves 0001-01-01 .. 9999-12-31. *)
Definition add_timedelta (d : date) (k : Z) : option date :=
  if (Z.abs k <=? 999999999) && (1 <=? toordinal d + k) && (toordinal d + k <=? MAXORDINAL)
  then Some (add_days d k)
  else None.

(** [d.weekday()]: Monday is 0. *)
Definition weekday (d : date) : Z := (toordinal d + 6) mod 7.

(** [d.strftime("%A")] *)
Definition day_name (d : date) : string :=
  nth (Z.to_nat (weekday d))
      ["Monday"; "Tuesday"; "Wednesday"; "Thursday"; "Friday"; "Saturday"; "Sunday"]
      "".

Definition isoweek1monday (y : Z) : Z :=
  let firstday := ymd2ord y 1 1 in
  let firstweekday := (firstday + 6) mod 7 in
  let week1monday := firstday - firstweekday in
  if 3 <? firstweekday then week1monday + 7 else week1monday.

(** [d.isocalendar()[1]] *)
Definition isoweek (d : date) : Z :=
  let y := year d in
  let today := toordinal d in
  let week := (today - isoweek1monday y) / 7 in
  if week <? 0 then (today - isoweek1monday (y - 1)) / 7 + 1
  else if (52 <=? week) && (isoweek1monday (y + 1) <=? today) then 1
  else week + 1.

(** *** [datetime.strptime] for the two formats of the parser

    The format is turned into a regular expression that has to match
    the whole text: a month is [1[0-2]|0[1-9]|[1-9]], a day is
    [3[0-1]|[1-2]\d|0[1-9]|[1-9]| [1-9]] and a year is four digits.
    None of them can contain the separator, so the text splits at the
    separators into exactly the three fields. *)
Definition month_field (s : string) : bool :=
  PyStr.all_digits s
  && ((String.length s =? 1) || (String.length s =? 2))%nat
  && (1 <=? PyStr.int_acc 0 s) && (PyStr.int_acc 0 s <=? 12).

Definition day_field (s : string) : bool :=
  PyStr.all_digits s
  && ((String.length s =? 1) || (String.length s =? 2))%nat
  && (1 <=? PyStr.int_acc 0 s) && (PyStr.int_acc 0 s <=? 31)
  || match s with
     | String c (String d EmptyString) =>
         Ascii.eqb c " " && PyStr.is_digit d && negb (Ascii.eqb d "0")
     | _ => false
     end.

Definition year_field (s : string) : bool :=
  PyStr.all_digits s && (String.length s =? 4)%nat.

(** [datetime.strptime(s, "%m/%d/%Y")] *)
Definition strptime_mdY (s : string) : option date :=
  match PyStr.split_char "/" s with
  | [m; d; y] =>
      if month_field m && day_field d && year_field y
      then datetime (PyStr.int_of y) (PyStr.int_of m) (PyStr.int_of d)
      else None
  | _ => None
  end.

(** [datetime.strptime(s, "%Y-%m-%d")] *)
Definition strptime_Ymd (s : string) : option date :=
  match PyStr.split_char "-" s with
  | [y; m; d] =>
      if year_field y && month_field m && day_field d
      then datetime (PyStr.int_of y) (PyStr.int_of m) (PyStr.int_of d)
      else None
  | _ => None
  end.

(** Whether [strptime(text, "%Y-%m-%d")] reads the text that
    [strftime("%Y-%m-%d")] wrote for [d]: a year below 1000 is written
    without its leading zeros, and [%Y] reads four digits. *)
Definition readable (d : date) : bool := 1000 <=? year d.

End Cal.

(** ** Data model *)

(** A transaction dictionary.  [t_date] stands for the text
    [strftime("%Y-%m-%d")] writes, which [strptime] reads back when the
    date is [Cal.readable]. *)
Record Txn := mkTxn {
  t_id : Z;
  t_date : Cal.date;
  t_description : string;
  t_amount : pynum;
  t_type : string;
  t_group_id : option string;
  t_category_id : string
}.

Record Group := mkGroup {
  g_id : string;
  g_name : string;
  g_category_id : string;
  g_frequency : string;
  g_avg_amount : pynum;
  g_transaction_count : Z;
  g_transaction_ids : list Z;
  g_confirmed : bool
}.

Record Category := mkCategory {
  c_id : string;
  c_name : string;
  c_frequency : string
}.

(** The icons of the table are display data and are left out. *)
Definition DEFAULT_CATEGORIES : list Category :=
  [ mkCategory "payroll" "Payroll" "semi-monthly";
    mkCategory "payroll_tax" "Payroll Taxes & Benefits" "semi-monthly";
    mkCategory "rent" "Rent" "monthly";
    mkCategory "utilities" "Utilities (Phone, Internet, Electric)" "monthly";
    mkCategory "insurance" "Insurance" "monthly";
    mkCategory "credit_card" "Credit Card Payments" "monthly";
    mkCategory "loan" "Loan Payments" "monthly";
    mkCategory "cogs" "Inventory / Cost of Goods" "varies";
    mkCategory "sales_revenue" "Sales Revenue" "daily";
    mkCategory "other_revenue" "Other Revenue" "varies";
    mkCategory "distributions" "Owner Distributions" "uncommon";
    mkCategory "taxes" "Taxes" "quarterly";
    mkCategory "legal_accounting" "Legal & Accounting" "monthly";
    mkCategory "marketing" "Marketing & Advertising" "varies";
    mkCategory "subscriptions" "Software & Subscriptions" "monthly";
    mkCategory "daily_ops" "Daily Operations" "daily";
    mkCategory "refunds" "Refunds" "daily";
    mkCategory "unassigned" "Unassigned" "unknown" ].

Record FrequencyOption := mkFrequencyOption {
  f_id : string;
  f_name : string;
  f_multiplier : Q
}.

Definition FREQUENCY_OPTIONS : list FrequencyOption :=
  [ mkFrequencyOption "daily" "Daily (most business days)" 22;
    mkFrequencyOption "weekly" "Weekly" 4.33;
    mkFrequencyOption "semi-monthly" "Twice per Month" 2;
    mkFrequencyOption "monthly" "Monthly" 1;
    mkFrequencyOption "quarterly" "Quarterly" 0.33;
    mkFrequencyOption "uncommon" "Uncommon / One-time" 0;
    mkFrequencyOption "varies" "Varies" 1 ]%Q.

(** ** Statement parsing: [parse_bank_data] *)

Definition take_digits4 (s : string) : option string :=
  match s with
  | String a (String b (String c (String d _))) =>
      if PyStr.is_digit a && PyStr.is_digit b && PyStr.is_digit c && PyStr.is_digit d
      then Some (String a (String b (String c (String d EmptyString))))
      else None
  | _ => None
  end.

Definition take_digits2 (s : string) : option (string * string) :=
  match s with
  | String a (String b r) =>
      if PyStr.is_digit a && PyStr.is_digit b
      then Some (String a (String b EmptyString), r)
      else None
  | _ => None
  end.

(** [,?\s*(\d{4})] *)
Definition comma_blank_year (s : string) : option string :=
  match s with
  | String c r =>
      if Ascii.eqb c "," then take_digits4 (PyStr.lstrip r)
      else take_digits4 (PyStr.lstrip s)
  | EmptyString => None
  end.

(** [^([A-Z]{3})\s+(\d{1,2}),?\s*(\d{4})], ignoring case.  The greedy
    [\d{1,2}] first takes two digits and gives one back when the rest
    does not match. *)
Definition match_month_name (line : string) : option (string * string * string) :=
  match line with
  | String a (String b (String c (String w r))) =>
      if PyStr.is_alpha a && PyStr.is_alpha b && PyStr.is_alpha c && PyStr.is_space w
      then
        let name := String a (String b (String c EmptyString)) in
        match PyStr.lstrip r with
        | String d1 r1 =>
            if PyStr.is_digit d1 then
              let one := String d1 EmptyString in
              let with_one :=
                match comma_blank_year r1 with
                | Some y => Some (name, one, y)
                | None => None
                end in
              match r1 with
              | String d2 r2 =>
                  if PyStr.is_digit d2 then
                    match comma_blank_year r2 with
                    | Some y => Some (name, String d1 (String d2 EmptyString), y)
                    | None => with_one
                    end
                  else with_one
              | EmptyString => with_one
              end
            else None
        | EmptyString => None
        end
      else None
  | _ => None
  end.

(** [(\d{1,2})/]: one or two digits followed by a slash. *)
Definition digits12_slash (s : string) : option (string * string) :=
  match s with
  | String a (String b (String c r)) =>
      if PyStr.is_digit a && PyStr.is_digit b && Ascii.eqb c "/"
      then Some (String a (String b EmptyString), r)
      else if PyStr.is_digit a && Ascii.eqb b "/"
      then Some (String a EmptyString, String c r)
      else None
  | String a (String b r) =>
      if PyStr.is_digit a && Ascii.eqb b "/"
      then Some (String a EmptyString, r)
      else None
  | _ => None
  end.

(** [^(\d{1,2})/(\d{1,2})/(\d{4})] *)
Definition match_slashes (line : string) : option (string * string * string) :=
  match digits12_slash line with
  | Some (g1, r1) =>
      match digits12_slash r1 with
      | Some (g2, r2) =>
          match take_digits4 r2 with
          | Some g3 => Some (g1, g2, g3)
          | None => None
          end
      | None => None
      end
  | None => None
  end.

(** [^(\d{4})-(\d{2})-(\d{2})] *)
Definition match_iso (line : string) : option (string * string * string) :=
  match take_digits4 line with
  | Some g1 =>
      match line with
      | String _ (String _ (String _ (String _ (String h1 r1)))) =>
          if Ascii.eqb h1 "-" then
            match take_digits2 r1 with
            | Some (g2, String h2 r2) =>
                if Ascii.eqb h2 "-" then
                  match take_digits2 r2 with
                  | Some (g3, _) => Some (g1, g2, g3)
                  | None => None
                  end
                else None
            | _ => None
            end
          else None
      | _ => None
      end
  | None => None
  end.

Definition date_patterns : list (string -> option (string * string * string)) :=
  [ match_month_name; match_slashes; match_iso ].

(** The first pattern of [date_patterns] that matches the line. *)
Fixpoint first_match (ps : list (string -> option (string * string * string)))
    (line : string) : option (string * string * string) :=
  match ps with
  | [] => None
  | p :: rest =>
      match p line with
      | Some g => Some g
      | None => first_match rest line
      end
  end.

Definition months : list (string * Z) :=
  [ ("JAN", 1); ("FEB", 2); ("MAR", 3); ("APR", 4); ("MAY", 5); ("JUN", 6);
    ("JUL", 7); ("AUG", 8); ("SEP", 9); ("OCT", 10); ("NOV", 11); ("DEC", 12) ].

(** [months.get(k, default)] *)
Fixpoint months_get (tbl : list (string * Z)) (k : string) (default : Z) : Z :=
  match tbl with
  | [] => default
  | (k', v) :: rest => if String.eqb k k' then v else months_get rest k default
  end.

(** The body of the [try] that follows a date-header match.  [None]
    stands for an exception, which the bare [except] discards. *)
Definition header_date (line : string) (g : string * string * string) : option Cal.date :=
  let '(g1, g2, g3) := g in
  if PyStr.contains "JAN" (PyStr.upper line) || PyStr.contains "FEB" (PyStr.upper line)
  then
    let month_name := PyStr.upper g1 in
    let day := PyStr.int_of g2 in
    let year := PyStr.int_of g3 in
    Cal.datetime year (months_get months month_name 1) day
  else if PyStr.contains "/" line
  then Cal.strptime_mdY (g1 ++ "/" ++ g2 ++ "/" ++ g3)
  else Cal.strptime_Ymd (g1 ++ "-" ++ g2 ++ "-" ++ g3).

Record ParseState := mkParseState {
  current_date : option Cal.date;
  parsed : list Txn
}.

(** The amounts of a line: every field that [float] accepts once [$]
    and [,] are removed. *)
Fixpoint find_amounts (parts : list string) : list Q :=
  match parts with
  | [] => []
  | part :: rest =>
      match PyNum.py_float (PyStr.remove_dollar_comma part) with
      | Some amt => amt :: find_amounts rest
      | None => find_amounts rest
      end
  end.

(** Two amount columns: the first is the debit, the second the credit. *)
Definition signed_amount (amounts : list Q) : option pynum :=
  match amounts with
  | [] => None
  | a0 :: [] => Some (PyFloat a0)
  | a0 :: a1 :: _ =>
      let debit := if PyNum.gt (PyFloat a0) (PyInt 0) then PyFloat a0 else PyInt 0 in
      let credit := if PyNum.gt (PyFloat a1) (PyInt 0) then PyFloat a1 else PyInt 0 in
      Some (if PyNum.truthy credit then PyNum.sub credit debit else PyNum.neg debit)
  end.

Definition pick_description (parts : list string) : string :=
  match parts with
  | p0 :: rest =>
      if (5 <? String.length p0)%nat then p0
      else match rest with
           | p1 :: _ => p1
           | [] => p0
           end
  | [] => EmptyString
  end.

(** One iteration of the loop over the lines. *)
Definition parse_line (today : Cal.date) (st : ParseState) (raw_line : string) : ParseState :=
  let line := PyStr.strip raw_line in
  if PyStr.is_empty line then st
  else
    match first_match date_patterns line with
    | Some g =>
        match header_date line g with
        | Some d => mkParseState (Some d) (parsed st)
        | None => st
        end
    | None =>
        let parts := PyStr.re_split line in
        if (3 <=? length parts)%nat then
          match signed_amount (find_amounts parts) with
          | Some amount =>
              let txn :=
                {| t_id := Z.of_nat (length (parsed st)) + 1;
                   t_date := match current_date st with
                             | Some d => d
                             | None => today
                             end;
                   t_description := PyStr.strip (pick_description parts);
                   t_amount := amount;
                   t_type := if PyNum.gt amount (PyInt 0) then "credit" else "debit";
                   t_group_id := None;
                   t_category_id := "unassigned" |} in
              mkParseState (current_date st) (parsed st ++ [txn])
          | None => st
          end
        else st
    end.

Record ParseResult := mkParseResult {
  r_transactions : list Txn;
  r_start_date : option Cal.date;
  r_end_date : option Cal.date
}.

(** [min(dates)] and [max(dates)]: the first of the smallest, resp.
    largest, dates.  The source compares the ISO texts, which for years
    of four digits are ordered as the dates are. *)
Fixpoint extreme_date (better : Z -> Z -> bool) (ds : list Cal.date) : option Cal.date :=
  match ds with
  | [] => None
  | d :: rest =>
      match extreme_date better rest with
      | Some e => if better (Cal.toordinal e) (Cal.toordinal d) then Some e else Some d
      | None => Some d
      end
  end.

Definition newline : ascii := "010"%char.

Definition parse_bank_data (today : Cal.date) (raw_data : string) : ParseResult :=
  let lines := PyStr.split_char newline (PyStr.strip raw_data) in
  let st := fold_left (parse_line today) lines (mkParseState None []) in
  let dates := map t_date (parsed st) in
  mkParseResult (parsed st) (extreme_date Z.ltb dates) (extreme_date Z.gtb dates).

(** ** Recurrence detection: [detect_frequency] *)

Fixpoint insert_sorted (x : Z) (l : list Z) : list Z :=
  match l with
  | [] => [x]
  | y :: r => if x <=? y then x :: l else y :: insert_sorted x r
  end.

(** [sorted(l)] *)
Definition sorted (l : list Z) : list Z := fold_right insert_sorted [] l.

(** [[ds[i+1] - ds[i] for i in range(len(ds) - 1)]] *)
Fixpoint gaps_of (ds : list Z) : list Z :=
  match ds with
  | a :: ((b :: _) as r) => (b - a) :: gaps_of r
  | _ => []
  end.

Definition sum_Z (l : list Z) : Z := fold_left Z.add l 0.

Definition avg_gap (txns : list Txn) : Q :=
  let dates := sorted (map (fun t => Cal.toordinal (t_date t)) txns) in
  let gaps := gaps_of dates in
  match gaps with
  | [] => 30
  | _ => inject_Z (sum_Z gaps) / inject_Z (Z.of_nat (length gaps))
  end%Q.

Definition frequency_of_gap (avg : Q) : string :=
  if Qle_bool avg 2 then "daily"
  else if Qle_bool avg 8 then "weekly"
  else if Qle_bool avg 17 then "semi-monthly"
  else if Qle_bool avg 35 then "monthly"
  else if Qle_bool avg 100 then "quarterly"
  else "uncommon".

Definition detect_frequency (txns : list Txn) : string :=
  if (length txns <? 2)%nat then "uncommon"
  else frequency_of_gap (avg_gap txns).

(** ** Grouping: [auto_categorize_transactions] *)

(** The rules, in order.  Every regular expression of the source is an
    alternation of literal texts, kept here as the list of its
    alternatives. *)
Definition patterns : list (list string * string * string) :=
  [ (["PAYROLL"; "PAYCHEX"; "ADP"; "GUSTO"], "payroll", "Payroll");
    (["401K"; "RETIREMENT"; "PENSION"], "payroll_tax", "Payroll Taxes & Benefits");
    (["RENT"; "LEASE"], "rent", "Rent");
    (["ELECTRIC"; "GAS"; "WATER"; "UTILITY"; "PG&E"; "EDISON"], "utilities", "Utilities");
    (["INSURANCE"; "GEICO"; "STATE FARM"; "BLUE CROSS"; "BLUE SHIELD"], "insurance", "Insurance");
    (["AMEX"; "VISA"; "MASTERCARD"; "DISCOVER"; "CHASE CARD"], "credit_card", "Credit Card");
    (["LOAN"; "MORTGAGE"; "LENDING"], "loan", "Loan Payment");
    (["AMAZON"; "OFFICE DEPOT"; "STAPLES"; "SUPPLY"], "daily_ops", "Office & Supplies");
    (["REFUND"; "RETURN"], "refunds", "Refunds");
    (["DEPOSIT"; "MERCHANT"; "STRIPE"; "SQUARE"; "AUTHORIZE"], "sales_revenue", "Sales Revenue");
    (["TRANSFER"; "WIRE"; "ACH"], "other_revenue", "Bank Transfers");
    (["TAX"; "IRS"; "FTB"; "FRANCHISE"], "taxes", "Taxes");
    (["ATTORNEY"; "LAWYER"; "CPA"; "ACCOUNTANT"], "legal_accounting", "Legal & Accounting");
    (["GOOGLE ADS"; "FACEBOOK"; "META"; "MARKETING"; "ADVERTIS"], "marketing", "Marketing");
    (["QUICKBOOKS"; "SLACK"; "ZOOM"; "ADOBE"; "MICROSOFT"; "SUBSCRIPTION"], "subscriptions", "Software") ].

(** [re.search(pattern, desc)] for an alternation of literals. *)
Definition re_search (alternatives : list string) (desc : string) : bool :=
  existsb (fun a => PyStr.contains a desc) alternatives.

(** The first rule whose pattern occurs in the description. *)
Fixpoint match_rule (ps : list (list string * string * string)) (desc : string)
    : option (string * string) :=
  match ps with
  | [] => None
  | (alternatives, cat_id, cat_name) :: rest =>
      if re_search alternatives desc then Some (cat_id, cat_name)
      else match_rule rest desc
  end.

(** The keys of [grouped_txns].  A rule key stands for the text
    [f"{cat_id}_{cat_name}"], an amount key for
    [f"amount_{rounded_amt}_{type}"]; the rule keys are fifteen distinct
    texts, none of which starts with [amount_], and the printed form of
    a number has no underscore, so two keys are the same text exactly
    when [key_eqb] holds. *)
Inductive BucketKey :=
| RuleKey (cat_id cat_name : string)
| AmountKey (rounded_amt : pynum) (type : string).

Definition key_eqb (a b : BucketKey) : bool :=
  match a, b with
  | RuleKey i n, RuleKey i' n' => String.eqb i i' && String.eqb n n'
  | AmountKey r t, AmountKey r' t' => PyNum.same_repr r r' && String.eqb t t'
  | _, _ => false
  end.

(** [grouped_txns]: an insertion-ordered dictionary of lists.  The
    members of a bucket are the transaction objects themselves; they
    are referred to by their position in [txns]. *)
Definition Buckets : Type := list (BucketKey * list nat).

(** [grouped_txns[key].append(txn)] *)
Fixpoint bucket_append (key : BucketKey) (i : nat) (b : Buckets) : Buckets :=
  match b with
  | [] => [(key, [i])]
  | (k, members) :: rest =>
      if key_eqb key k then (k, members ++ [i]) :: rest
      else (k, members) :: bucket_append key i rest
  end.

Definition set_category (cat_id : string) (t : Txn) : Txn :=
  {| t_id := t_id t; t_date := t_date t; t_description := t_description t;
     t_amount := t_amount t; t_type := t_type t; t_group_id := t_group_id t;
     t_category_id := cat_id |}.

Definition set_group (gid : option string) (t : Txn) : Txn :=
  {| t_id := t_id t; t_date := t_date t; t_description := t_description t;
     t_amount := t_amount t; t_type := t_type t; t_group_id := gid;
     t_category_id := t_category_id t |}.

(** The body of the first loop for one transaction: the transaction as
    it is left, and the key of the bucket it joins. *)
Definition classify (txn : Txn) : Txn * BucketKey :=
  let desc := PyStr.upper (t_description txn) in
  let amount := t_amount txn in
  match match_rule patterns desc with
  | Some (cat_id, cat_name) => (set_category cat_id txn, RuleKey cat_id cat_name)
  | None =>
      let rounded_amt := PyNum.round (PyNum.abs amount) (-1) in
      (txn, AmountKey rounded_amt (t_type txn))
  end.

(** The first loop, over the transactions from position [i] on. *)
Fixpoint classify_all (i : nat) (txns : list Txn) (b : Buckets) : list Txn * Buckets :=
  match txns with
  | [] => ([], b)
  | txn :: rest =>
      let '(txn', key) := classify txn in
      let '(rest', b') := classify_all (S i) rest (bucket_append key i b) in
      (txn' :: rest', b')
  end.

Fixpoint category_name (cats : list Category) (cat_id : string) : string :=
  match cats with
  | [] => "Unassigned"
  | c :: rest => if String.eqb (c_id c) cat_id then c_name c else category_name rest cat_id
  end.

(** The objects a bucket holds, read from the store. *)
Definition members_of (store : list Txn) (idxs : list nat) : list Txn :=
  omap (fun i => store !! i) idxs.

(** The body of the second loop for one bucket. *)
Definition materialize (st : list Txn * list Group) (bucket : BucketKey * list nat)
    : list Txn * list Group :=
  let '(store, groups) := st in
  let txn_list := members_of store (snd bucket) in
  if (2 <=? length txn_list)%nat then
    let avg_amount :=
      PyNum.truediv (PyNum.sum (map t_amount txn_list)) (Z.of_nat (length txn_list)) in
    let frequency := detect_frequency txn_list in
    let cat_id :=
      match txn_list with
      | t :: _ => t_category_id t
      | [] => "unassigned"
      end in
    let cat_name := category_name DEFAULT_CATEGORIES cat_id in
    let number := PyStr.of_nat (length groups + 1) in
    let group :=
      {| g_id := "grp_" ++ number;
         g_name := if String.eqb cat_id "unassigned" then "Group " ++ number else cat_name;
         g_category_id := cat_id;
         g_frequency := frequency;
         g_avg_amount := avg_amount;
         g_transaction_count := Z.of_nat (length txn_list);
         g_transaction_ids := map t_id txn_list;
         g_confirmed := false |} in
    (fold_left (fun s i => alter (set_group (Some (g_id group))) i s) (snd bucket) store,
     groups ++ [group])
  else st.

(** The transactions as the call leaves them, and the groups returned. *)
Definition auto_categorize_transactions (txns : list Txn) : list Txn * list Group :=
  let '(store, grouped_txns) := classify_all 0 txns [] in
  fold_left materialize grouped_txns (store, []).

(** The second loop as far as it gets.  For a bucket of two or more,
    [detect_frequency] reads the date text of every member; on a text
    it cannot read, [strptime] raises a [ValueError] that nothing
    catches.  The call then ends with the transactions as the earlier
    buckets left them and returns no groups ([None]). *)
Fixpoint materialize_all (buckets : Buckets) (st : list Txn * list Group)
    : list Txn * option (list Group) :=
  match buckets with
  | [] => (fst st, Some (snd st))
  | bucket :: rest =>
      let txn_list := members_of (fst st) (snd bucket) in
      if (2 <=? length txn_list)%nat
         && negb (forallb (fun t => Cal.readable (t_date t)) txn_list)
      then (fst st, None)
      else materialize_all rest (materialize st bucket)
  end.

(** [auto_categorize_transactions] with its [ValueError]. *)
Definition auto_categorize_checked (txns : list Txn) : list Txn * option (list Group) :=
  let '(store, grouped_txns) := classify_all 0 txns [] in
  materialize_all grouped_txns (store, []).

(** ** The tenant store and the outcome of an operation *)

Record Company := mkCompany {
  co_id : string;
  co_name : string;
  co_setup_step : string;
  co_current_balance : option pynum
}.

(** The dictionaries [companies], [transactions] and [groups]. *)
Record Store := mkStore {
  companies : gmap string Company;
  transactions : gmap string (list Txn);
  groups : gmap string (list Group)
}.

(** How a request handler ends: with a response body, with an
    [HTTPException] it raised, or with an exception nothing catches. *)
Inductive Outcome (A : Type) :=
| Ok (body : A)
| HTTPException (status_code : Z) (detail : string)
| Uncaught (exn : string).

Arguments Ok {A} body.
Arguments HTTPException {A} status_code detail.
Arguments Uncaught {A} exn.

(** ** The review operation [move_transactions] *)

Record MoveRequest := mkMoveRequest {
  m_transaction_ids : list Z;
  m_target_group_id : option string;
  m_new_group_name : option string;
  m_category_id : option string;
  m_frequency : option string
}.

Record MoveResponse := mkMoveResponse {
  m_success : bool;
  m_moved : Z
}.

(** truth value of an optional text: present and not empty *)
Definition truthy_str (s : option string) : bool :=
  match s with
  | Some v => negb (PyStr.is_empty v)
  | None => false
  end.

(** [x in l] *)
Definition mem_Z (x : Z) (l : list Z) : bool := existsb (Z.eqb x) l.

(** [l.remove(x)]: the first occurrence goes. *)
Fixpoint remove_first (x : Z) (l : list Z) : list Z :=
  match l with
  | [] => []
  | y :: r => if y =? x then r else y :: remove_first x r
  end.

(** The position of [next((g for g in gs if g["id"] == gid), None)]. *)
Fixpoint find_group (gs : list Group) (gid : option string) : option nat :=
  match gs with
  | [] => None
  | g :: rest =>
      if bool_decide (Some (g_id g) = gid) then Some 0%nat
      else match find_group rest gid with
           | Some i => Some (S i)
           | None => None
           end
  end.

Definition drop_member (tid : Z) (g : Group) : Group :=
  {| g_id := g_id g; g_name := g_name g; g_category_id := g_category_id g;
     g_frequency := g_frequency g; g_avg_amount := g_avg_amount g;
     g_transaction_count := g_transaction_count g - 1;
     g_transaction_ids := remove_first tid (g_transaction_ids g);
     g_confirmed := g_confirmed g |}.

Definition add_member (tid : Z) (g : Group) : Group :=
  {| g_id := g_id g; g_name := g_name g; g_category_id := g_category_id g;
     g_frequency := g_frequency g; g_avg_amount := g_avg_amount g;
     g_transaction_count := g_transaction_count g + 1;
     g_transaction_ids := g_transaction_ids g ++ [tid];
     g_confirmed := g_confirmed g |}.

Definition set_avg (avg : pynum) (g : Group) : Group :=
  {| g_id := g_id g; g_name := g_name g; g_category_id := g_category_id g;
     g_frequency := g_frequency g; g_avg_amount := avg;
     g_transaction_count := g_transaction_count g;
     g_transaction_ids := g_transaction_ids g;
     g_confirmed := g_confirmed g |}.

(** "Update old group" *)
Definition update_old_group (old_group_id : option string) (tid : Z) (gs : list Group)
    : list Group :=
  if truthy_str old_group_id then
    match find_group gs old_group_id with
    | Some i =>
        match gs !! i with
        | Some old_group =>
            if mem_Z tid (g_transaction_ids old_group)
            then alter (drop_member tid) i gs
            else gs
        | None => gs
        end
    | None => gs
    end
  else gs.

(** "Update new group" *)
Definition update_new_group (target_group_id : option string) (tid : Z) (gs : list Group)
    : list Group :=
  match find_group gs target_group_id with
  | Some j => alter (add_member tid) j gs
  | None => gs
  end.

(** The loop "Move transactions": the transactions and the groups as
    the loop leaves them, and the counter [moved]. *)
Fixpoint move_loop (txn_ids : list Z) (target_group_id : option string)
    (txns : list Txn) (gs : list Group) (moved : Z) : list Txn * list Group * Z :=
  match txns with
  | [] => ([], gs, moved)
  | txn :: rest =>
      if mem_Z (t_id txn) txn_ids then
        let old_group_id := t_group_id txn in
        let gs1 := update_old_group old_group_id (t_id txn) gs in
        let gs2 := update_new_group target_group_id (t_id txn) gs1 in
        let '(rest', gs', moved') := move_loop txn_ids target_group_id rest gs2 (moved + 1) in
        (set_group target_group_id txn :: rest', gs', moved')
      else
        let '(rest', gs', moved') := move_loop txn_ids target_group_id rest gs moved in
        (txn :: rest', gs', moved')
  end.

(** [[t for t in txns if t["group_id"] == grp["id"]]] *)
Definition assigned_to (txns : list Txn) (grp : Group) : list Txn :=
  List.filter (fun t => bool_decide (t_group_id t = Some (g_id grp))) txns.

(** The body of the loop "Recalculate averages". *)
Definition recalculate (txns : list Txn) (grp : Group) : Group :=
  match assigned_to txns grp with
  | [] => grp
  | grp_txns =>
      set_avg (PyNum.truediv (PyNum.sum (map t_amount grp_txns))
                             (Z.of_nat (length grp_txns))) grp
  end.

(** The group created when the request names a new group. *)
Definition new_group_of (req : MoveRequest) (name : string) (gs : list Group) : Group :=
  {| g_id := "grp_" ++ PyStr.of_nat (length gs + 1);
     g_name := name;
     g_category_id := default "unassigned" (m_category_id req);
     g_frequency := default "varies" (m_frequency req);
     g_avg_amount := PyInt 0;
     g_transaction_count := 0;
     g_transaction_ids := [];
     g_confirmed := false |}.

(** The first transaction the loop would move, marked as moved: the
    state in which the loop stops when [groups] has no entry for the
    company. *)
Fixpoint mark_first (txn_ids : list Z) (target_group_id : option string)
    (txns : list Txn) : option (list Txn) :=
  match txns with
  | [] => None
  | txn :: rest =>
      if mem_Z (t_id txn) txn_ids then Some (set_group target_group_id txn :: rest)
      else match mark_first txn_ids target_group_id rest with
           | Some rest' => Some (txn :: rest')
           | None => None
           end
  end.

Definition with_groups (st : Store) (cid : string) (gs : list Group) : Store :=
  mkStore (companies st) (transactions st) (<[cid := gs]> (groups st)).

Definition with_transactions (st : Store) (cid : string) (ts : list Txn) : Store :=
  mkStore (companies st) (<[cid := ts]> (transactions st)) (groups st).

Definition move_transactions (st : Store) (company_id : string) (req : MoveRequest)
    : Store * Outcome MoveResponse :=
  let txn_ids := m_transaction_ids req in
  (* if new_group_name: create the group, which becomes the target *)
  let created :=
    if truthy_str (m_new_group_name req) then
      match groups st !! company_id with
      | Some gs =>
          let new_group := new_group_of req (default "" (m_new_group_name req)) gs in
          Some (with_groups st company_id (gs ++ [new_group]), Some (g_id new_group))
      | None => None
      end
    else Some (st, m_target_group_id req) in
  match created with
  | None => (st, Uncaught "KeyError")
  | Some (st1, target_group_id) =>
      match transactions st1 !! company_id with
      | None => (st1, Uncaught "KeyError")
      | Some txns =>
          match groups st1 !! company_id with
          | None =>
              match mark_first txn_ids target_group_id txns with
              | Some txns' => (with_transactions st1 company_id txns', Uncaught "KeyError")
              | None => (st1, Uncaught "KeyError")
              end
          | Some gs =>
              let '(txns', gs', moved) := move_loop txn_ids target_group_id txns gs 0 in
              let gs'' := map (recalculate txns') gs' in
              (with_groups (with_transactions st1 company_id txns') company_id gs'',
               Ok (mkMoveResponse true moved))
          end
      end
  end.

(** ** The forecast: [get_forecast] *)

Record ForecastEntry := mkForecastEntry {
  e_name : string;
  e_amount : pynum;
  e_type : string
}.

Record ForecastRow := mkForecastRow {
  row_date : Cal.date;
  row_day_name : string;
  row_balance : pynum;
  row_credits : pynum;
  row_debits : pynum;
  row_transactions : list ForecastEntry
}.

Record ForecastPoint := mkForecastPoint {
  p_balance : pynum;
  p_date : Cal.date
}.

Record ForecastSummary := mkForecastSummary {
  s_current_balance : pynum;
  s_low_point : ForecastPoint;
  s_high_point : ForecastPoint
}.

(** The two bodies the handler returns: the dictionary with the single
    key [error], and the forecast with its summary. *)
Inductive ForecastBody :=
| ErrorBody (error : string)
| ForecastOf (forecast : list ForecastRow) (summary : ForecastSummary).

(** The calendar rule of one group on one day. *)
Definition should_apply (freq : string) (current_date : Cal.date) : bool :=
  let day_name := Cal.day_name current_date in
  let is_weekend := String.eqb day_name "Saturday" || String.eqb day_name "Sunday" in
  if String.eqb freq "daily" && negb is_weekend then true
  else if String.eqb freq "weekly" && (Cal.weekday current_date =? 0) then true
  else if String.eqb freq "semi-monthly"
          && ((Cal.day current_date =? 1) || (Cal.day current_date =? 15)) then true
  else if String.eqb freq "monthly" && (Cal.day current_date =? 1) then true
  else if String.eqb freq "quarterly" && (Cal.day current_date =? 1)
          && existsb (Z.eqb (Cal.month current_date)) [1; 4; 7; 10] then true
  else false.

(** The state of the loop over the groups of one day. *)
Record DayTotals := mkDayTotals {
  daily_credits : pynum;
  daily_debits : pynum;
  transactions_today : list ForecastEntry
}.

Definition apply_group (current_date : Cal.date) (acc : DayTotals) (grp : Group) : DayTotals :=
  if negb (g_confirmed grp) then acc
  else
    let freq := g_frequency grp in
    let avg := g_avg_amount grp in
    if should_apply freq current_date then
      let entry :=
        mkForecastEntry (g_name grp) avg
          (if PyNum.gt avg (PyInt 0) then "credit" else "debit") in
      if PyNum.gt avg (PyInt 0)
      then mkDayTotals (PyNum.add (daily_credits acc) avg) (daily_debits acc)
                       (transactions_today acc ++ [entry])
      else mkDayTotals (daily_credits acc) (PyNum.add (daily_debits acc) (PyNum.abs avg))
                       (transactions_today acc ++ [entry])
    else acc.

(** The body of the loop over the days for the date of the day: the
    balance carried on, and the rows so far. *)
Definition forecast_day (gs : list Group) (st : pynum * list ForecastRow)
    (current_date : Cal.date) : pynum * list ForecastRow :=
  let '(balance, forecast_rows) := st in
  let totals := fold_left (apply_group current_date) gs (mkDayTotals (PyInt 0) (PyInt 0) []) in
  let balance' := PyNum.sub (PyNum.add balance (daily_credits totals)) (daily_debits totals) in
  (balance',
   forecast_rows ++
     [ mkForecastRow current_date (Cal.day_name current_date)
         (PyNum.round balance' 2)
         (PyNum.round (daily_credits totals) 2)
         (PyNum.round (daily_debits totals) 2)
         (transactions_today totals) ]).

(** One iteration of the loop over the days; [None] is the
    [OverflowError] of [today + timedelta(days=day_offset)], which ends
    the loop. *)
Definition simulate_day (today : Cal.date) (gs : list Group)
    (st : option (pynum * list ForecastRow)) (day_offset : Z)
    : option (pynum * list ForecastRow) :=
  match st with
  | None => None
  | Some s =>
      match Cal.add_timedelta today day_offset with
      | Some current_date => Some (forecast_day gs s current_date)
      | None => None
      end
  end.

(** [range(n)] *)
Definition range (n : Z) : list Z := map Z.of_nat (seq 0 (Z.to_nat n)).

(** [rows[balances.index(best(balances))]]: the first row whose balance
    no other row beats; [None] stands for the [ValueError] of [min] and
    [max] on an empty list. *)
Fixpoint first_extreme (beats : pynum -> pynum -> bool) (rows : list ForecastRow)
    : option ForecastRow :=
  match rows with
  | [] => None
  | r :: rest =>
      match first_extreme beats rest with
      | Some e => if beats (row_balance e) (row_balance r) then Some e else Some r
      | None => Some r
      end
  end.

Definition no_groups_message : string :=
  "No transaction groups defined. Complete categorization first.".

Definition get_forecast (today : Cal.date) (st : Store) (company_id : string) (days : Z)
    : Outcome ForecastBody :=
  match companies st !! company_id with
  | None => HTTPException 404 "Company not found"
  | Some company =>
      match groups st !! company_id with
      | None | Some [] => Ok (ErrorBody no_groups_message)
      | Some gs =>
          let balance := default (PyInt 0) (co_current_balance company) in
          match fold_left (simulate_day today gs) (range days) (Some (balance, [])) with
          | None => Uncaught "OverflowError"
          | Some (_, forecast_rows) =>
              match first_extreme PyNum.lt forecast_rows,
                    first_extreme PyNum.gt forecast_rows with
              | Some low, Some high =>
                  Ok (ForecastOf forecast_rows
                        (mkForecastSummary balance
                           (mkForecastPoint (row_balance low) (row_date low))
                           (mkForecastPoint (row_balance high) (row_date high))))
              | _, _ => Uncaught "ValueError"
              end
          end
      end
  end.

(** ** Trends: [get_trends] *)

Record WeekTotals := mkWeekTotals {
  w_credits : pynum;
  w_debits : pynum
}.

(** [weekly_totals]: a dictionary from week numbers to totals, whose
    missing entries read as zero totals. *)
Definition WeeklyTotals : Type := list (Z * WeekTotals).

Definition zero_totals : WeekTotals := mkWeekTotals (PyInt 0) (PyInt 0).

Fixpoint week_update (week : Z) (f : WeekTotals -> WeekTotals) (wt : WeeklyTotals)
    : WeeklyTotals :=
  match wt with
  | [] => [(week, f zero_totals)]
  | (w, tot) :: rest =>
      if w =? week then (w, f tot) :: rest
      else (w, tot) :: week_update week f rest
  end.

Fixpoint week_get (wt : WeeklyTotals) (week : Z) : WeekTotals :=
  match wt with
  | [] => zero_totals
  | (w, tot) :: rest => if w =? week then tot else week_get rest week
  end.

Definition add_txn (wt : WeeklyTotals) (txn : Txn) : WeeklyTotals :=
  let week := Cal.isoweek (t_date txn) in
  if PyNum.gt (t_amount txn) (PyInt 0)
  then week_update week
         (fun tot => mkWeekTotals (PyNum.add (w_credits tot) (t_amount txn)) (w_debits tot)) wt
  else week_update week
         (fun tot => mkWeekTotals (w_credits tot)
                       (PyNum.add (w_debits tot) (PyNum.abs (t_amount txn)))) wt.

(** The float literals [1.1] and [0.9] of the source: the binary64
    numbers nearest to the decimals. *)
Definition float_1_1 : Q := PyNum.binary64 (11 # 10).
Definition float_0_9 : Q := PyNum.binary64 (9 # 10).

(** The comparison of the two halves. *)
Definition classify_trend (first_half second_half : pynum) : string :=
  if PyNum.gt second_half (PyNum.mul_float first_half float_1_1) then "increasing"
  else if PyNum.lt second_half (PyNum.mul_float first_half float_0_9) then "decreasing"
  else "stable".

Record Trends := mkTrends {
  tr_weekly_data : list (Z * WeekTotals);
  tr_revenue : string;
  tr_expenses : string
}.

Definition weekly_totals_of (txns : list Txn) : WeeklyTotals :=
  fold_left add_txn txns [].

(** [sorted(weekly_totals.keys())] *)
Definition weeks_of (txns : list Txn) : list Z :=
  sorted (map fst (weekly_totals_of txns)).

(** [weeks[:len(weeks)//2]] and [weeks[len(weeks)//2:]] *)
Definition first_half (weeks : list Z) : list Z := take (length weeks / 2) weeks.
Definition second_half (weeks : list Z) : list Z := drop (length weeks / 2) weeks.

(** [sum(weekly_totals[w][field] for w in ws)] *)
Definition half_sum (field : WeekTotals -> pynum) (wt : WeeklyTotals) (ws : list Z) : pynum :=
  PyNum.sum (map (fun w => field (week_get wt w)) ws).

Definition first_half_credits (txns : list Txn) : pynum :=
  half_sum w_credits (weekly_totals_of txns) (first_half (weeks_of txns)).
Definition second_half_credits (txns : list Txn) : pynum :=
  half_sum w_credits (weekly_totals_of txns) (second_half (weeks_of txns)).
Definition first_half_debits (txns : list Txn) : pynum :=
  half_sum w_debits (weekly_totals_of txns) (first_half (weeks_of txns)).
Definition second_half_debits (txns : list Txn) : pynum :=
  half_sum w_debits (weekly_totals_of txns) (second_half (weeks_of txns)).

(** The analysis of the transactions of one company. *)
Definition analyze_trends (txns : list Txn) : Trends :=
  let weekly_totals := weekly_totals_of txns in
  let weeks := weeks_of txns in
  let credit_trend :=
    if (4 <=? length weeks)%nat
    then classify_trend (first_half_credits txns) (second_half_credits txns)
    else "stable" in
  let debit_trend :=
    if (4 <=? length weeks)%nat
    then classify_trend (first_half_debits txns) (second_half_debits txns)
    else "stable" in
  mkTrends (map (fun w => (w, week_get weekly_totals w)) weeks) credit_trend debit_trend.

Definition get_trends (st : Store) (company_id : string) : Outcome Trends :=
  match transactions st !! company_id with
  | None => HTTPException 404 "Company not found"
  | Some txns => Ok (analyze_trends txns)
  end.

(** ** Import and group update *)

Record ImportResponse := mkImportResponse {
  i_transactions_imported : nat;
  i_groups_detected : nat;
  i_start : option Cal.date;
  i_end : option Cal.date
}.

Definition set_setup_step (step : string) (c : Company) : Company :=
  mkCompany (co_id c) (co_name c) step (co_current_balance c).

(** [import_data]: the stored transactions are the parsed objects, so
    they carry what the grouping wrote into them.  When the grouping
    ends in its [ValueError], the transactions are stored already, and
    the groups and the setup step are as they were. *)
Definition import_data (today : Cal.date) (st : Store) (company_id raw_data : string)
    : Store * Outcome ImportResponse :=
  match companies st !! company_id with
  | None => (st, HTTPException 404 "Company not found")
  | Some _ =>
      let parsed := parse_bank_data today raw_data in
      match auto_categorize_checked (r_transactions parsed) with
      | (txns, None) =>
          (mkStore (companies st) (<[company_id := txns]> (transactions st)) (groups st),
           Uncaught "ValueError")
      | (txns, Some auto_groups) =>
          (mkStore (alter (set_setup_step "categorization") company_id (companies st))
                   (<[company_id := txns]> (transactions st))
                   (<[company_id := auto_groups]> (groups st)),
           Ok (mkImportResponse (length txns) (length auto_groups)
                 (r_start_date parsed) (r_end_date parsed)))
      end
  end.

Record UpdateRequest := mkUpdateRequest {
  u_name : option string;
  u_category_id : option string;
  u_frequency : option string;
  u_confirmed : option bool
}.

Definition apply_update (req : UpdateRequest) (g : Group) : Group :=
  {| g_id := g_id g;
     g_name := default (g_name g) (u_name req);
     g_category_id := default (g_category_id g) (u_category_id req);
     g_frequency := default (g_frequency g) (u_frequency req);
     g_avg_amount := g_avg_amount g;
     g_transaction_count := g_transaction_count g;
     g_transaction_ids := g_transaction_ids g;
     g_confirmed := default (g_confirmed g) (u_confirmed req) |}.

Definition update_group (st : Store) (company_id group_id : string) (req : UpdateRequest)
    : Store * Outcome Group :=
  match groups st !! company_id with
  | None => (st, Uncaught "KeyError")
  | Some gs =>
      match find_group gs (Some group_id) with
      | Some i =>
          match gs !! i with
          | Some g =>
              (with_groups st company_id (alter (apply_update req) i gs),
               Ok (apply_update req g))
          | None => (st, HTTPException 404 "Group not found")
          end
      | None => (st, HTTPException 404 "Group not found")
      end
  end.


(** ** Company profile, balance and group detail *)

Record CreateResponse := mkCreateResponse {
  cr_success : bool;
  cr_company_id : string;
  cr_access_code : string
}.

Definition lower_char (c : ascii) : ascii :=
  if ((65 <=? PyStr.code c) && (PyStr.code c <=? 90))%nat
  then ascii_of_nat (PyStr.code c + 32) else c.

(** [s.lower()] *)
Fixpoint lower (s : string) : string :=
  match s with
  | EmptyString => EmptyString
  | String c r => String (lower_char c) (lower r)
  end.

(** [s.replace(" ", "_")] *)
Fixpoint spaces_to_underscores (s : string) : string :=
  match s with
  | EmptyString => EmptyString
  | String c r =>
      String (if Ascii.eqb c " " then "_"%char else c) (spaces_to_underscores r)
  end.

(** [s[:n]] *)
Definition prefix_of (n : nat) (s : string) : string := String.substring 0 n s.

(** The identifier [create_company] derives from the name of the
    request, [None] standing for a request without a name. *)
Definition company_id_of (name : option string) (existing : nat) : string :=
  let from_name := prefix_of 20 (spaces_to_underscores (lower (default "" name))) in
  if PyStr.is_empty from_name then "co_" ++ PyStr.of_nat (existing + 1) else from_name.

(** [create_company].  The branding fields and the creation time of the
    profile, which no handler reads, are left out of [Company]. *)
Definition create_company (st : Store) (name : option string) : Store * Outcome CreateResponse :=
  let company_id := company_id_of name (size (companies st)) in
  (mkStore
     (<[company_id := mkCompany company_id (default "My Company" name) "data_upload" None]>
        (companies st))
     (<[company_id := []]> (transactions st))
     (<[company_id := []]> (groups st)),
   Ok (mkCreateResponse true company_id (prefix_of 6 company_id))).

(** [get_company] *)
Definition get_company (st : Store) (company_id : string) : Outcome Company :=
  match companies st !! company_id with
  | None => HTTPException 404 "Company not found"
  | Some c => Ok c
  end.

Definition set_current_balance (balance : pynum) (c : Company) : Company :=
  mkCompany (co_id c) (co_name c) (co_setup_step c) (Some balance).

(** [set_balance]; [balance] is the number under the key [balance] of
    the request, [None] when the key is missing. *)
Definition set_balance (st : Store) (company_id : string) (balance : option pynum)
    : Store * Outcome bool :=
  match companies st !! company_id with
  | None => (st, Uncaught "KeyError")
  | Some c =>
      (mkStore (<[company_id := set_current_balance (default (PyInt 0) balance) c]>
                  (companies st))
               (transactions st) (groups st),
       Ok true)
  end.

(** [get_groups]: the groups of the listing (the two constant tables
    that go with them are [DEFAULT_CATEGORIES] and [FREQUENCY_OPTIONS]). *)
Definition get_groups (st : Store) (company_id : string) : Outcome (list Group) :=
  match companies st !! company_id with
  | None => HTTPException 404 "Company not found"
  | Some _ => Ok (default [] (groups st !! company_id))
  end.

(** [get_group_detail] *)
Definition get_group_detail (st : Store) (company_id group_id : string)
    : Outcome (Group * list Txn) :=
  match groups st !! company_id with
  | None => HTTPException 404 "Company not found"
  | Some gs =>
      match find_group gs (Some group_id) with
      | Some i =>
          match gs !! i with
          | Some group =>
              match transactions st !! company_id with
              | Some txns =>
                  Ok (group,
                      List.filter (fun t => bool_decide (t_group_id t = Some group_id)) txns)
              | None => Uncaught "KeyError"
              end
          | None => HTTPException 404 "Group not found"
          end
      | None => HTTPException 404 "Group not found"
      end
  end.

(** * Properties *)

(** ** Example inputs *)

Definition on_day (d : Cal.date) : Txn :=
  mkTxn 1 d "CHECK" (PyFloat (-20)) "debit" None "unassigned".

Definition jan1 : Cal.date := Cal.mkdate 2026 1 1.

(** Two transactions [g] days apart. *)
Definition two_dates (g : Z) : list Txn := [on_day jan1; on_day (Cal.add_days jan1 g)].

Definition detected_labels : list string :=
  [ "daily"; "weekly"; "semi-monthly"; "monthly"; "quarterly"; "uncommon" ].

Definition coffee (i : Z) (amount : Q) : Txn :=
  mkTxn i jan1 "COFFEE SHOP" (PyFloat amount) "debit" None "unassigned".




(** The iteration of the forecast for an offset inside the calendar. *)
Definition simulate_within (today : Cal.date) (gs : list Group)
    (st : pynum * list ForecastRow) (day_offset : Z) : pynum * list ForecastRow :=
  forecast_day gs st (Cal.add_days today day_offset).

(** A horizon whose days all have a date: today is a date of the
    calendar and the last day is 9999-12-31 at the latest. *)
Definition horizon_in_calendar (today : Cal.date) (days : Z) : Prop :=
  1 <= Cal.toordinal today /\ Cal.toordinal today + days - 1 <= Cal.MAXORDINAL.

(** A tenant whose only group awaits confirmation. *)
Definition acme : Company := mkCompany "acme" "Acme" "categorization" (Some (PyFloat 1000)).

Definition unconfirmed_group : Group :=
  mkGroup "grp_1" "Payroll" "payroll" "daily" (PyFloat 5000) 2 [1; 2] false.

Definition unconfirmed_store : Store :=
  mkStore {[ "acme" := acme ]} {[ "acme" := [] ]} {[ "acme" := [unconfirmed_group] ]}.

(** A row of a day on which no group fired. *)
Definition quiet_row (r : ForecastRow) : Prop :=
  row_credits r = PyInt 0 /\ row_debits r = PyInt 0 /\ row_transactions r = [].

(** The exact arithmetic mean of a list of amounts. *)
Definition total (xs : list Q) : Q := fold_right Qplus 0%Q xs.

Definition exact_mean (xs : list Q) : Q :=
  (total xs / inject_Z (Z.of_nat (length xs)))%Q.

Definition signed_amounts (txns : list Txn) : list Q :=
  map (fun t => PyNum.val (t_amount t)) txns.

(** The average of a group is current when it is the exact mean of the
    transactions assigned to the group; the average of a group without
    transactions is read as zero, the value a new group starts with. *)
Definition average_is_current (txns : list Txn) (g : Group) : Prop :=
  match assigned_to txns g with
  | [] => (PyNum.val (g_avg_amount g) == 0)%Q
  | members => (PyNum.val (g_avg_amount g) == exact_mean (signed_amounts members))%Q
  end.

(** The group list a move works on: the stored list, followed by the
    new group when the request names one. *)
Definition groups_before_move (st : Store) (company_id : string) (req : MoveRequest)
    : list Group :=
  match groups st !! company_id with
  | Some gs =>
      if truthy_str (m_new_group_name req)
      then gs ++ [new_group_of req (default "" (m_new_group_name req)) gs]
      else gs
  | None => []
  end.

(** A tenant under review: two debits in a first group, one in a second. *)
Definition review_store : Store :=
  mkStore {[ "acme" := acme ]}
    {[ "acme" :=
         [ mkTxn 1 jan1 "COFFEE SHOP" (PyFloat (-42)) "debit" (Some "grp_1") "unassigned";
           mkTxn 2 jan1 "COFFEE SHOP" (PyFloat (-48)) "debit" (Some "grp_1") "unassigned";
           mkTxn 3 jan1 "BAKERY" (PyFloat (-10)) "debit" (Some "grp_2") "unassigned" ] ]}
    {[ "acme" :=
         [ mkGroup "grp_1" "Group 1" "unassigned" "daily" (PyFloat (-45)) 2 [1; 2] false;
           mkGroup "grp_2" "Group 2" "unassigned" "uncommon" (PyFloat (-10)) 1 [3] false ] ]}.

(** A tenant whose first group is about to be emptied: the amounts
    and their means, -45 and -40, are exact as floats. *)
Definition emptying_store : Store :=
  mkStore {[ "acme" := acme ]}
    {[ "acme" :=
         [ mkTxn 1 jan1 "COFFEE SHOP" (PyFloat (-42)) "debit" (Some "grp_1") "unassigned";
           mkTxn 2 jan1 "COFFEE SHOP" (PyFloat (-48)) "debit" (Some "grp_1") "unassigned";
           mkTxn 3 jan1 "BAKERY" (PyFloat (-30)) "debit" (Some "grp_2") "unassigned" ] ]}
    {[ "acme" :=
         [ mkGroup "grp_1" "Group 1" "unassigned" "daily" (PyFloat (-45)) 2 [1; 2] false;
           mkGroup "grp_2" "Group 2" "unassigned" "uncommon" (PyFloat (-30)) 1 [3] false ] ]}.

Definition move_all_to_second : MoveRequest :=
  mkMoveRequest [1; 2] (Some "grp_2") None None None.

Definition move_to_unknown : MoveRequest :=
  mkMoveRequest [1] (Some "grp_99") None None None.

(** A transaction no rule matches, and a transaction whose amount is
    the float of a given value. *)
Definition unmatched (t : Txn) : Prop :=
  match_rule patterns (PyStr.upper (t_description t)) = None.

Definition float_amount (t : Txn) (q : Q) : Prop :=
  exists a : Q, t_amount t = PyFloat a /\ (a == q)%Q.

(** Three unmatched debits of one day. *)
Definition three_debits : list Txn := [coffee 1 (-42); coffee 2 (-48); coffee 3 (-100)].

(** Statement texts. *)
Definition payroll_two_fields : string :=
  "01/15/2026" ++ String newline "PAYROLL DEPOSIT   5000.00".

Definition payroll_three_fields : string :=
  "01/15/2026" ++ String newline "PAYROLL DEPOSIT   REF 1001   5000.00".

Definition statement_under (header : string) : string :=
  header ++ String newline "ACME HARDWARE   CHK 101   25.00".


(** A date of the calendar. *)
Definition real_date (d : Cal.date) : Prop :=
  Cal.valid (Cal.year d) (Cal.month d) (Cal.day d) = true.

(** A transaction as the parser emits it: without group, of category
    unassigned, typed by the sign of its amount. *)
Definition as_parsed (today : Cal.date) (t : Txn) : Prop :=
  t_group_id t = None
  /\ t_category_id t = "unassigned"
  /\ (t_type t = "credit" /\ (0 < PyNum.val (t_amount t))%Q
      \/ t_type t = "debit" /\ (PyNum.val (t_amount t) <= 0)%Q)
  /\ (t_date t = today \/ real_date (t_date t)).

Definition date_context_ok (c : option Cal.date) : Prop :=
  match c with
  | Some d => real_date d
  | None => True
  end.

(** A statement with two dated sections. *)
Definition two_sections : string :=
  "JAN 5, 2026" ++ String newline
  ("OFFICE RENT   CHK 2001   1,200.00" ++ String newline
  ("02/10/2026" ++ String newline
  ("CLIENT PAYMENT   WIRE IN   0.00   $2,500.00" ++ String newline
   "no amount here"))).

(** Transactions numbered 1, 2, 3, ... *)
Definition numbered (txns : list Txn) : Prop :=
  map t_id txns = map Z.of_nat (seq 1 (length txns)).

(** The invariant of the loop over the lines. *)
Definition parser_invariant (today : Cal.date) (st : ParseState) : Prop :=
  numbered (parsed st)
  /\ Forall (as_parsed today) (parsed st)
  /\ date_context_ok (current_date st).




(** The ordinals of the dates of a list of transactions. *)
Definition ordinals (txns : list Txn) : list Z :=
  map (fun t => Cal.toordinal (t_date t)) txns.

(** A list in ascending order. *)
Fixpoint ascending (l : list Z) : Prop :=
  match l with
  | a :: ((b :: _) as r) => a <= b /\ ascending r
  | _ => True
  end.

(** Three payments, two weeks apart each. *)
Definition fortnightly : list Txn :=
  [ on_day (Cal.mkdate 2026 1 29); on_day (Cal.mkdate 2026 1 1);
    on_day (Cal.mkdate 2026 1 15) ].

(** A row whose day name is that of its date. *)
Definition well_named (r : ForecastRow) : Prop :=
  row_day_name r = Cal.day_name (row_date r).

(** The frequencies the calendar rule of the forecast knows. *)
Definition firing_labels : list string :=
  [ "daily"; "weekly"; "semi-monthly"; "monthly"; "quarterly" ].

(** A group the forecast never applies: not confirmed, or of a
    frequency without a calendar rule (uncommon, varies, ...). *)
Definition silent (g : Group) : Prop :=
  g_confirmed g = false \/ ~ In (g_frequency g) firing_labels.

(** Two numbers of the same kind and value. *)
Definition same_num (a b : pynum) : Prop :=
  match a, b with
  | PyInt x, PyInt y => x = y
  | PyFloat p, PyFloat q => (p == q)%Q
  | _, _ => False
  end.

(** A tenant with a confirmed daily income and a confirmed weekly cost. *)
Definition busy_store : Store :=
  mkStore {[ "acme" := acme ]} {[ "acme" := [] ]}
    {[ "acme" :=
         [ mkGroup "grp_1" "Sales" "sales_revenue" "daily" (PyFloat 100) 2 [1; 2] true;
           mkGroup "grp_2" "Supplies" "daily_ops" "weekly" (PyFloat (-250)) 2 [3; 4] true ] ]}.

(** A tenant whose groups are an unconfirmed one and a confirmed
    one-time one. *)
Definition silent_store : Store :=
  mkStore {[ "acme" := acme ]} {[ "acme" := [] ]}
    {[ "acme" :=
         [ unconfirmed_group;
           mkGroup "grp_2" "Equipment" "cogs" "uncommon" (PyFloat (-900)) 2 [3; 4] true ] ]}.

(** What a transaction adds to the credits, resp. the debits, of its
    week. *)
Definition credit_part (t : Txn) : Q :=
  if PyNum.gt (t_amount t) (PyInt 0) then PyNum.val (t_amount t) else 0%Q.

Definition debit_part (t : Txn) : Q :=
  if PyNum.gt (t_amount t) (PyInt 0) then 0%Q else PyNum.val (PyNum.abs (t_amount t)).

Definition week_credits (e : Z * WeekTotals) : Q := PyNum.val (w_credits (snd e)).
Definition week_debits (e : Z * WeekTotals) : Q := PyNum.val (w_debits (snd e)).

(** A store without any company. *)
Definition empty_store : Store := mkStore ∅ ∅ ∅.

(** The target of a move: the new group when the request names one,
    else the target of the request. *)
Definition move_target (st : Store) (company_id : string) (req : MoveRequest)
    : option string :=
  if truthy_str (m_new_group_name req)
  then Some (g_id (new_group_of req (default "" (m_new_group_name req))
                     (default [] (groups st !! company_id))))
  else m_target_group_id req.

(** The transaction as a move leaves it. *)
Definition moved_txn (txn_ids : list Z) (target : option string) (t : Txn) : Txn :=
  if mem_Z (t_id t) txn_ids then set_group target t else t.

(** A group whose count is the length of its member list. *)
Definition counted (g : Group) : Prop :=
  g_transaction_count g = Z.of_nat (length (g_transaction_ids g)).

(** What a review of the membership leaves alone. *)
Definition profile (g : Group) : string * string * string * string * bool :=
  (g_id g, g_name g, g_category_id g, g_frequency g, g_confirmed g).

(** What a group update leaves alone. *)
Definition membership (g : Group) : string * pynum * Z * list Z :=
  (g_id g, g_avg_amount g, g_transaction_count g, g_transaction_ids g).

Definition move_third_to_new : MoveRequest :=
  mkMoveRequest [3] None (Some "Bakery") (Some "daily_ops") None.

(** The id of the [k]-th group. *)
Definition group_name_of (k : nat) : string := "grp_" ++ PyStr.of_nat k.

(** A transaction that belongs to a group. *)
Definition has_group (t : Txn) : bool :=
  match t_group_id t with
  | Some _ => true
  | None => false
  end.

(** What the grouping never writes: everything but the category and
    the group of a transaction. *)
Definition core (t : Txn) : Z * Cal.date * string * pynum * string :=
  (t_id t, t_date t, t_description t, t_amount t, t_type t).

(** [f] applied to the elements at the positions [idxs]. *)
Definition alter_all {A : Type} (f : A -> A) (idxs : list nat) (l : list A) : list A :=
  fold_left (fun s i => alter f i s) idxs l.

(** The number of members of all groups together. *)
Definition member_total (gs : list Group) : nat :=
  list_sum (map (fun g => length (g_transaction_ids g)) gs).

(** The state of transactions and groups in which every reference is
    matched: the groups are numbered in order, every group lists the
    transactions assigned to it, counts them, and carries their exact
    mean; every group id on a transaction is the id of a group. *)
Record grouping_ok (store : list Txn) (gs : list Group) : Prop := mk_grouping_ok {
  ok_ids : map g_id gs = map group_name_of (seq 1 (length gs));
  ok_members : forall g, In g gs ->
    Permutation (g_transaction_ids g) (map t_id (assigned_to store g));
  ok_average : forall g, In g gs ->
    (PyNum.val (g_avg_amount g) == exact_mean (signed_amounts (assigned_to store g)))%Q;
  ok_shape : forall g, In g gs ->
    counted g /\ (2 <= length (g_transaction_ids g))%nat /\ g_confirmed g = false;
  ok_refs : forall t gid, In t store -> t_group_id t = Some gid ->
    exists g, In g gs /\ g_id g = gid;
  ok_partition : length (List.filter has_group store) = member_total gs
}.

(** Transactions without a group. *)
Definition ungrouped (txns : list Txn) : Prop :=
  Forall (fun t => t_group_id t = None) txns.

(** A group as the grouping creates it. *)
Definition auto_group (g : Group) : Prop :=
  counted g /\ (2 <= length (g_transaction_ids g))%nat /\ g_confirmed g = false.

(** Five payments: two payroll deposits, two card payments of similar
    size, one cheque. *)
Definition five_payments : list Txn :=
  [ mkTxn 1 (Cal.mkdate 2026 1 15) "PAYROLL DEPOSIT" (PyFloat 5000) "credit" None "unassigned";
    mkTxn 2 (Cal.mkdate 2026 1 16) "CORNER CAFE" (PyFloat (-12)) "debit" None "unassigned";
    mkTxn 3 (Cal.mkdate 2026 1 30) "Gusto payroll" (PyFloat 5200) "credit" None "unassigned";
    mkTxn 4 (Cal.mkdate 2026 1 31) "CHEQUE 118" (PyFloat (-300)) "debit" None "unassigned";
    mkTxn 5 (Cal.mkdate 2026 2 2) "CORNER CAFE" (PyFloat (-14)) "debit" None "unassigned" ].

(** A statement with two payroll deposits. *)
Definition payroll_statement : string :=
  "01/15/2026" ++ String newline
  ("PAYROLL DEPOSIT   REF 1001   5000.00" ++ String newline
  ("01/29/2026" ++ String newline
   "PAYROLL DEPOSIT   REF 1002   5200.00")).

(** A company right after its creation. *)
Definition new_company : Company := mkCompany "acme" "Acme" "data_upload" None.

Definition new_store : Store :=
  mkStore {[ "acme" := new_company ]} {[ "acme" := [] ]} {[ "acme" := [] ]}.

(** Rows without movement: nothing fires and the balance stays. *)
Definition flat (rows : list ForecastRow) : Prop :=
  Forall quiet_row rows
  /\ forall r r', In r rows -> In r' rows -> row_balance r = row_balance r'.

(** Transactions whose date text [strptime] reads back. *)
Definition dates_readable (txns : list Txn) : bool :=
  forallb (fun t => Cal.readable (t_date t)) txns.





(** The characters of a company id made from a name: no blank and no
    capital letter. *)
Definition id_char (c : ascii) : bool :=
  negb (Ascii.eqb c " ")
  && negb ((65 <=? PyStr.code c) && (PyStr.code c <=? 90))%nat.

Definition id_shaped (s : string) : Prop :=
  (String.length s <= 20)%nat
  /\ Forall (fun c => id_char c = true) (list_ascii_of_string s).

(** What [lower] and then [replace] make of one character. *)
Definition id_char_of (c : ascii) : ascii :=
  if Ascii.eqb (lower_char c) " " then "_"%char else lower_char c.

(** ** Comparisons on rationals *)

Lemma Qle_bool_false (a b : Q) : Qle_bool a b = false <-> (b < a)%Q.
Proof.
  rewrite <- not_true_iff_false, Qle_bool_iff. split; intros H; lra.
Qed.

Lemma Qlt_bool_true (a b : Q) : PyNum.Qlt_bool a b = true <-> (a < b)%Q.
Proof.
  unfold PyNum.Qlt_bool. rewrite negb_true_iff. apply Qle_bool_false.
Qed.

Lemma Qlt_bool_false (a b : Q) : PyNum.Qlt_bool a b = false <-> (b <= a)%Q.
Proof.
  unfold PyNum.Qlt_bool. rewrite negb_false_iff. apply Qle_bool_iff.
Qed.

(** Turns the boolean tests of the hypotheses into inequalities. *)
Ltac reflect_Q :=
  repeat match goal with
         | H : Qle_bool _ _ = true |- _ => apply Qle_bool_iff in H
         | H : Qle_bool _ _ = false |- _ => apply Qle_bool_false in H
         | H : PyNum.Qlt_bool _ _ = true |- _ => apply Qlt_bool_true in H
         | H : PyNum.Qlt_bool _ _ = false |- _ => apply Qlt_bool_false in H
         end.

(** ** Binary floating point *)

Section BinaryFloat.

Lemma round_half_even_compat (a b : Q) :
  (a == b)%Q -> PyNum.round_half_even a = PyNum.round_half_even b.
Proof.
  intros E. unfold PyNum.round_half_even.
  rewrite (Qfloor_comp a b E).
  assert (C : ((a - inject_Z (Qfloor b)) ?= (1 # 2))%Q
              = ((b - inject_Z (Qfloor b)) ?= (1 # 2))%Q).
  { apply Qcompare_comp; [rewrite E|]; reflexivity. }
  rewrite C. reflexivity.
Qed.


















(** The nearest binary64 numbers of 0.1 and of 93.6, and the binary64
    product of 104 and the float 0.9, which is the number above 93.6
    that prints as 93.60000000000001. *)
Lemma binary64_samples :
  (PyNum.binary64 (1 # 10) == 3602879701896397 # 36028797018963968)%Q
  /\ (PyNum.binary64 (936 # 10) == 3293257227514675 # 35184372088832)%Q
  /\ (PyNum.binary64 (104 * float_0_9) == 6586514455029351 # 70368744177664)%Q.
Proof. repeat split; vm_compute; reflexivity. Qed.




End BinaryFloat.

(** ** Recurrence detection *)

Section FrequencyDetector.

Lemma frequency_of_gap_cases (a : Q) :
  ((a <= 2)%Q -> frequency_of_gap a = "daily")
  /\ ((2 < a <= 8)%Q -> frequency_of_gap a = "weekly")
  /\ ((8 < a <= 17)%Q -> frequency_of_gap a = "semi-monthly")
  /\ ((17 < a <= 35)%Q -> frequency_of_gap a = "monthly")
  /\ ((35 < a <= 100)%Q -> frequency_of_gap a = "quarterly")
  /\ ((100 < a)%Q -> frequency_of_gap a = "uncommon").
Proof.
  unfold frequency_of_gap.
  destruct (Qle_bool a 2) eqn:E2, (Qle_bool a 8) eqn:E8, (Qle_bool a 17) eqn:E17,
           (Qle_bool a 35) eqn:E35, (Qle_bool a 100) eqn:E100;
    reflect_Q; repeat split; intros; try reflexivity; exfalso; lra.
Qed.

Lemma detect_frequency_two_or_more (txns : list Txn) :
  (2 <= length txns)%nat -> detect_frequency txns = frequency_of_gap (avg_gap txns).
Proof.
  intros H. unfold detect_frequency.
  destruct (length txns <? 2)%nat eqn:E; [|reflexivity].
  apply Nat.ltb_lt in E. lia.
Qed.

(** C7.  With two or more transactions the label is decided by the
    average gap through thresholds that are inclusive upper bounds:
    at most 2 days is daily, at most 8 weekly, at most 17 semi-monthly,
    at most 35 monthly, at most 100 quarterly, anything above
    uncommon.  In particular average gaps of exactly 2, 3, 8, 9, 17,
    18, 35, 36, 100 and 101 days give daily, weekly, weekly,
    semi-monthly, semi-monthly, monthly, monthly, quarterly, quarterly
    and uncommon.  A single transaction gives uncommon. *)
Theorem detect_frequency_boundaries :
  (forall txns : list Txn, (2 <= length txns)%nat ->
     ((avg_gap txns <= 2)%Q -> detect_frequency txns = "daily")
     /\ ((2 < avg_gap txns <= 8)%Q -> detect_frequency txns = "weekly")
     /\ ((8 < avg_gap txns <= 17)%Q -> detect_frequency txns = "semi-monthly")
     /\ ((17 < avg_gap txns <= 35)%Q -> detect_frequency txns = "monthly")
     /\ ((35 < avg_gap txns <= 100)%Q -> detect_frequency txns = "quarterly")
     /\ ((100 < avg_gap txns)%Q -> detect_frequency txns = "uncommon"))
  /\ (forall (txns : list Txn) (gap : Q) (label : string),
        (2 <= length txns)%nat ->
        (avg_gap txns == gap)%Q ->
        In (gap, label)
           [ (2, "daily"); (3, "weekly"); (8, "weekly"); (9, "semi-monthly");
             (17, "semi-monthly"); (18, "monthly"); (35, "monthly");
             (36, "quarterly"); (100, "quarterly"); (101, "uncommon") ]%Q ->
        detect_frequency txns = label)
  /\ (forall txn : Txn, detect_frequency [txn] = "uncommon").
Proof.
  split; [|split].
  - intros txns H. rewrite (detect_frequency_two_or_more txns H).
    apply frequency_of_gap_cases.
  - intros txns gap label H E Hin.
    rewrite (detect_frequency_two_or_more txns H).
    pose proof (frequency_of_gap_cases (avg_gap txns)) as (C1 & C2 & C3 & C4 & C5 & C6).
    simpl in Hin.
    repeat (destruct Hin as [Hin | Hin];
            [ injection Hin as <- <-;
              first [ apply C1; lra | apply C2; lra | apply C3; lra
                    | apply C4; lra | apply C5; lra | apply C6; lra ] | ]).
    destruct Hin.
  - intros txn. reflexivity.
Qed.

Lemma detect_frequency_boundaries_witness :
  map (fun g => detect_frequency (two_dates g)) [2; 3; 8; 9; 17; 18; 35; 36; 100; 101]
  = [ "daily"; "weekly"; "weekly"; "semi-monthly"; "semi-monthly"; "monthly";
      "monthly"; "quarterly"; "quarterly"; "uncommon" ].
Proof.
  pose proof (proj1 (proj2 detect_frequency_boundaries)) as B.
  cbn [map].
  rewrite (B (two_dates 2) 2%Q "daily"), (B (two_dates 3) 3%Q "weekly"),
    (B (two_dates 8) 8%Q "weekly"), (B (two_dates 9) 9%Q "semi-monthly"),
    (B (two_dates 17) 17%Q "semi-monthly"), (B (two_dates 18) 18%Q "monthly"),
    (B (two_dates 35) 35%Q "monthly"), (B (two_dates 36) 36%Q "quarterly"),
    (B (two_dates 100) 100%Q "quarterly"), (B (two_dates 101) 101%Q "uncommon");
    try reflexivity; try (simpl; lia); try (simpl; tauto).
Defined.

End FrequencyDetector.

(** ** The labels the detector can return *)

Section DetectedLabels.

Lemma frequency_of_gap_label (a : Q) : In (frequency_of_gap a) detected_labels.
Proof.
  unfold frequency_of_gap, detected_labels.
  repeat match goal with
         | |- context [if ?b then _ else _] => destruct b
         end; simpl; tauto.
Qed.

Lemma detect_frequency_label (txns : list Txn) : In (detect_frequency txns) detected_labels.
Proof.
  unfold detect_frequency. destruct (length txns <? 2)%nat.
  - simpl; tauto.
  - apply frequency_of_gap_label.
Qed.

Lemma detected_label_not_varies (s : string) : In s detected_labels -> s <> "varies".
Proof.
  unfold detected_labels. simpl. intros H E. subst s.
  repeat (destruct H as [H | H]; [discriminate H |]). exact H.
Qed.

(** Every group the second loop appends carries the label the detector
    gave for its members. *)
Lemma materialize_labels (st : list Txn * list Group) (bucket : BucketKey * list nat) :
  Forall (fun g => In (g_frequency g) detected_labels) (snd st) ->
  Forall (fun g => In (g_frequency g) detected_labels) (snd (materialize st bucket)).
Proof.
  intros H. destruct st as [store gs]. unfold materialize.
  destruct (2 <=? length (members_of store (snd bucket)))%nat; [|exact H].
  simpl in *. apply Forall_app. split; [exact H|].
  constructor; [|constructor]. simpl. apply detect_frequency_label.
Qed.

Lemma materialize_all_labels (buckets : Buckets) (st : list Txn * list Group) :
  Forall (fun g => In (g_frequency g) detected_labels) (snd st) ->
  Forall (fun g => In (g_frequency g) detected_labels)
         (snd (fold_left materialize buckets st)).
Proof.
  revert st. induction buckets as [|b rest IH]; intros st H; simpl.
  - exact H.
  - apply IH, materialize_labels, H.
Qed.

(** C10.  [detect_frequency] returns one of daily, weekly, semi-monthly,
    monthly, quarterly and uncommon, never varies; hence no group that
    [auto_categorize_transactions] creates has the frequency varies.
    Varies is nevertheless one of the frequency options, and it is the
    frequency a move to a new group gives when the request names none,
    and one a group update can set. *)
Theorem detect_frequency_never_varies :
  (forall txns : list Txn,
     In (detect_frequency txns) detected_labels /\ detect_frequency txns <> "varies")
  /\ (forall (txns : list Txn) (g : Group),
        In g (snd (auto_categorize_transactions txns)) ->
        In (g_frequency g) detected_labels /\ g_frequency g <> "varies")
  /\ In "varies" (map f_id FREQUENCY_OPTIONS)
  /\ (forall (req : MoveRequest) (name : string) (gs : list Group),
        m_frequency req = None -> g_frequency (new_group_of req name gs) = "varies")
  /\ (forall (req : UpdateRequest) (g : Group),
        u_frequency req = Some "varies" -> g_frequency (apply_update req g) = "varies").
Proof.
  split; [|split; [|split; [|split]]].
  - intros txns. split; [apply detect_frequency_label|].
    apply detected_label_not_varies, detect_frequency_label.
  - intros txns g Hin.
    assert (L : In (g_frequency g) detected_labels).
    { unfold auto_categorize_transactions in Hin.
      destruct (classify_all 0 txns []) as [store buckets].
      assert (F : Forall (fun g => In (g_frequency g) detected_labels)
                         (snd (fold_left materialize buckets (store, [])))).
      { apply materialize_all_labels. constructor. }
      rewrite List.Forall_forall in F. apply F, Hin. }
    split; [exact L | apply detected_label_not_varies, L].
  - simpl. tauto.
  - intros req name gs E. simpl. rewrite E. reflexivity.
  - intros req g E. simpl. rewrite E. reflexivity.
Qed.

Lemma detect_frequency_never_varies_witness :
  exists g : Group,
    In g (snd (auto_categorize_transactions [coffee 1 (-42); coffee 2 (-44)]))
    /\ g_frequency g = "daily"
    /\ g_frequency g <> "varies"
    /\ g_frequency (new_group_of (mkMoveRequest [] None (Some "New") None None) "New" [])
       = "varies".
Proof.
  eexists. split; [vm_compute; left; reflexivity|].
  split; [reflexivity|]. split.
  - apply (proj1 (proj2 detect_frequency_never_varies)
             [coffee 1 (-42); coffee 2 (-44)]).
    vm_compute. left. reflexivity.
  - apply (proj1 (proj2 (proj2 (proj2 detect_frequency_never_varies)))). reflexivity.
Defined.

End DetectedLabels.

(** ** Trends *)

Section TrendAnalyzer.

Lemma val_add (a b : pynum) : (PyNum.val (PyNum.add a b) == PyNum.val a + PyNum.val b)%Q.
Proof.
  destruct a, b; simpl; try reflexivity. rewrite inject_Z_plus. reflexivity.
Qed.










(** *** The weeks of a transaction list *)

Lemma week_update_keys (week : Z) (f : WeekTotals -> WeekTotals) (wt : WeeklyTotals) (w : Z) :
  In w (map fst (week_update week f wt)) <-> w = week \/ In w (map fst wt).
Proof.
  induction wt as [|[w0 tot] rest IH]; simpl.
  - intuition.
  - destruct (w0 =? week) eqn:E; simpl.
    + apply Z.eqb_eq in E. subst w0. intuition.
    + rewrite IH. intuition.
Qed.

Lemma week_update_distinct (week : Z) (f : WeekTotals -> WeekTotals) (wt : WeeklyTotals) :
  List.NoDup (map fst wt) -> List.NoDup (map fst (week_update week f wt)).
Proof.
  induction wt as [|[w0 tot] rest IH]; simpl; intros H.
  - constructor; [intros [] | constructor].
  - inversion H as [|? ? Hnotin Hrest]; subst.
    destruct (w0 =? week) eqn:E; simpl.
    + constructor; assumption.
    + constructor; [|apply IH; assumption].
      rewrite week_update_keys. intros [-> | Hin]; [|contradiction].
      rewrite Z.eqb_refl in E. discriminate.
Qed.

Lemma add_txn_keys (wt : WeeklyTotals) (txn : Txn) (w : Z) :
  In w (map fst (add_txn wt txn)) <-> w = Cal.isoweek (t_date txn) \/ In w (map fst wt).
Proof.
  unfold add_txn. destruct (PyNum.gt (t_amount txn) (PyInt 0)); apply week_update_keys.
Qed.

Lemma add_txn_distinct (wt : WeeklyTotals) (txn : Txn) :
  List.NoDup (map fst wt) -> List.NoDup (map fst (add_txn wt txn)).
Proof.
  unfold add_txn. destruct (PyNum.gt (t_amount txn) (PyInt 0)); apply week_update_distinct.
Qed.

Lemma fold_add_txn_keys (txns : list Txn) (wt : WeeklyTotals) (w : Z) :
  In w (map fst (fold_left add_txn txns wt))
  <-> In w (map fst wt) \/ exists txn, In txn txns /\ Cal.isoweek (t_date txn) = w.
Proof.
  revert wt. induction txns as [|t rest IH]; intros wt; simpl.
  - split; [tauto | intros [H | (x & [] & _)]; exact H].
  - rewrite IH, add_txn_keys. split.
    + intros [[-> | H] | (x & Hx & E)]; eauto.
    + intros [H | (x & [-> | Hx] & E)]; eauto.
Qed.

Lemma fold_add_txn_distinct (txns : list Txn) (wt : WeeklyTotals) :
  List.NoDup (map fst wt) -> List.NoDup (map fst (fold_left add_txn txns wt)).
Proof.
  revert wt. induction txns as [|t rest IH]; intros wt H; simpl; [exact H|].
  apply IH, add_txn_distinct, H.
Qed.

Lemma insert_sorted_perm (x : Z) (l : list Z) : Permutation (insert_sorted x l) (x :: l).
Proof.
  induction l as [|y r IH]; simpl; [reflexivity|].
  destruct (x <=? y); [reflexivity|].
  rewrite IH. apply perm_swap.
Qed.

Lemma sorted_perm (l : list Z) : Permutation (sorted l) l.
Proof.
  unfold sorted. induction l as [|x r IH]; simpl; [reflexivity|].
  rewrite insert_sorted_perm, IH. reflexivity.
Qed.

(** The weeks are the ISO week numbers of the transactions, each
    listed once. *)
Lemma weeks_of_spec (txns : list Txn) :
  List.NoDup (weeks_of txns)
  /\ forall w, In w (weeks_of txns)
               <-> exists txn, In txn txns /\ Cal.isoweek (t_date txn) = w.
Proof.
  unfold weeks_of, weekly_totals_of. split.
  - eapply Permutation_NoDup; [symmetry; apply sorted_perm|].
    apply fold_add_txn_distinct. constructor.
  - intros w. split.
    + intros H. eapply Permutation_in in H; [|apply sorted_perm].
      apply fold_add_txn_keys in H. destruct H as [[] | H]. exact H.
    + intros H. eapply Permutation_in; [symmetry; apply sorted_perm|].
      apply fold_add_txn_keys. right. exact H.
Qed.




End TrendAnalyzer.

(** ** The forecast *)

Section ForecastEngine.

Lemma apply_unconfirmed (d : Cal.date) (gs : list Group) (acc : DayTotals) :
  Forall (fun g => g_confirmed g = false) gs ->
  fold_left (apply_group d) gs acc = acc.
Proof.
  induction 1 as [|g rest Hg _ IH]; simpl; [reflexivity|].
  unfold apply_group at 2. rewrite Hg. simpl. exact IH.
Qed.

Lemma simulate_within_unconfirmed (today : Cal.date) (gs : list Group)
    (balance : pynum) (rows : list ForecastRow) (k : Z) :
  Forall (fun g => g_confirmed g = false) gs ->
  exists balance' r,
    simulate_within today gs (balance, rows) k = (balance', rows ++ [r]) /\ quiet_row r.
Proof.
  intros Hgs. unfold simulate_within, forecast_day. rewrite (apply_unconfirmed _ gs _ Hgs).
  eexists _, _. split; [reflexivity|]. repeat split.
Qed.

Lemma simulate_unconfirmed (today : Cal.date) (gs : list Group) (offsets : list Z) :
  Forall (fun g => g_confirmed g = false) gs ->
  forall (balance : pynum) (rows : list ForecastRow),
    Forall quiet_row rows ->
    Forall quiet_row (snd (fold_left (simulate_within today gs) offsets (balance, rows)))
    /\ length (snd (fold_left (simulate_within today gs) offsets (balance, rows)))
       = (length rows + length offsets)%nat.
Proof.
  intros Hgs. induction offsets as [|k rest IH]; intros balance rows Hrows;
    cbn [fold_left length].
  - split; [exact Hrows | simpl; lia].
  - destruct (simulate_within_unconfirmed today gs balance rows k Hgs) as (b & r & -> & Hr).
    destruct (IH b (rows ++ [r])) as [Q L].
    + apply Forall_app. split; [exact Hrows|]. constructor; [exact Hr | constructor].
    + split; [exact Q|]. rewrite L, length_app. simpl. lia.
Qed.

Lemma first_extreme_some (beats : pynum -> pynum -> bool) (rows : list ForecastRow) :
  rows <> [] -> exists r, first_extreme beats rows = Some r.
Proof.
  destruct rows as [|r rest]; [congruence|]. intros _. simpl.
  destruct (first_extreme beats rest) as [e|]; [|eauto].
  destruct (beats (row_balance e) (row_balance r)); eauto.
Qed.

Lemma range_length (n : Z) : length (range n) = Z.to_nat n.
Proof. unfold range. rewrite length_map, length_seq. reflexivity. Qed.

Lemma range_nonpositive (n : Z) : n <= 0 -> range n = [].
Proof.
  intros H. unfold range. replace (Z.to_nat n) with 0%nat by lia. reflexivity.
Qed.

Lemma range_in (n k : Z) : In k (range n) -> 0 <= k < n.
Proof.
  unfold range. intros H. apply in_map_iff in H. destruct H as (i & <- & Hi).
  apply in_seq in Hi. lia.
Qed.

(** Inside the calendar the sum of a date and an offset is a date. *)
Lemma add_timedelta_within (today : Cal.date) (k : Z) :
  1 <= Cal.toordinal today -> 0 <= k -> Cal.toordinal today + k <= Cal.MAXORDINAL ->
  Cal.add_timedelta today k = Some (Cal.add_days today k).
Proof.
  intros H1 H2 H3. unfold Cal.add_timedelta, Cal.MAXORDINAL in *.
  replace (Z.abs k <=? 999999999) with true by (symmetry; apply Z.leb_le; lia).
  replace (1 <=? Cal.toordinal today + k) with true by (symmetry; apply Z.leb_le; lia).
  replace (Cal.toordinal today + k <=? 3652059) with true by (symmetry; apply Z.leb_le; lia).
  reflexivity.
Qed.

(** Beyond the calendar it is the [OverflowError]. *)
Lemma add_timedelta_beyond (today : Cal.date) (k : Z) :
  Cal.MAXORDINAL < Cal.toordinal today + k -> Cal.add_timedelta today k = None.
Proof.
  intros H. unfold Cal.add_timedelta.
  replace (Cal.toordinal today + k <=? Cal.MAXORDINAL) with false
    by (symmetry; apply Z.leb_gt; exact H).
  rewrite andb_false_r. reflexivity.
Qed.

(** The loop over days that all have a date never raises. *)
Lemma simulate_in_calendar (today : Cal.date) (gs : list Group) (offsets : list Z) :
  1 <= Cal.toordinal today ->
  Forall (fun k => 0 <= k /\ Cal.toordinal today + k <= Cal.MAXORDINAL) offsets ->
  forall s : pynum * list ForecastRow,
    fold_left (simulate_day today gs) offsets (Some s)
    = Some (fold_left (simulate_within today gs) offsets s).
Proof.
  intros H1. induction 1 as [|k rest [Hk Hm] _ IH]; intros s; cbn [fold_left];
    [reflexivity|].
  unfold simulate_day at 2. rewrite (add_timedelta_within today k H1 Hk Hm). apply IH.
Qed.

Lemma simulate_horizon (today : Cal.date) (gs : list Group) (days : Z)
    (s : pynum * list ForecastRow) :
  horizon_in_calendar today days ->
  fold_left (simulate_day today gs) (range days) (Some s)
  = Some (fold_left (simulate_within today gs) (range days) s).
Proof.
  intros [H1 H2]. apply simulate_in_calendar; [exact H1|].
  apply List.Forall_forall. intros k Hk. apply range_in in Hk. lia.
Qed.

(** A horizon below one day, for a tenant that has groups: the loop
    over the days does not run and [min] fails on the empty list. *)
Lemma forecast_empty_horizon (today : Cal.date) (st : Store) (company_id : string)
    (days : Z) (company : Company) (g : Group) (gs : list Group) :
  companies st !! company_id = Some company ->
  groups st !! company_id = Some (g :: gs) ->
  days <= 0 ->
  get_forecast today st company_id days = Uncaught "ValueError".
Proof.
  intros Hc Hg Hd. unfold get_forecast. rewrite Hc, Hg, (range_nonpositive days Hd).
  reflexivity.
Qed.

(** C1, amended.  The not-ready result is returned exactly when the
    tenant has no group at all.  With a non-empty group list that holds
    no confirmed group, and a horizon of at least one day whose days
    all have a date (the last one is 9999-12-31 at the latest), the
    forecast runs over every day of the horizon; no group fires, so
    every row has zero credits, zero debits and no transaction. *)
Theorem forecast_not_ready_without_groups (today : Cal.date) (st : Store)
    (company_id : string) (days : Z) (company : Company) :
  companies st !! company_id = Some company ->
  ((groups st !! company_id = None \/ groups st !! company_id = Some []) ->
   get_forecast today st company_id days = Ok (ErrorBody no_groups_message))
  /\ (forall gs : list Group,
        groups st !! company_id = Some gs ->
        gs <> [] ->
        Forall (fun g => g_confirmed g = false) gs ->
        1 <= days ->
        horizon_in_calendar today days ->
        exists rows summary,
          get_forecast today st company_id days = Ok (ForecastOf rows summary)
          /\ length rows = Z.to_nat days
          /\ Forall quiet_row rows).
Proof.
  intros Hc. split.
  - intros [Hg | Hg]; unfold get_forecast; rewrite Hc, Hg; reflexivity.
  - intros gs Hg Hne Hun Hd Hcal. unfold get_forecast. rewrite Hc, Hg.
    destruct gs as [|g gs']; [congruence|].
    set (balance := default (PyInt 0) (co_current_balance company)).
    rewrite (simulate_horizon today (g :: gs') days (balance, []) Hcal).
    destruct (simulate_unconfirmed today (g :: gs') (range days) Hun balance [])
      as [Q L]; [constructor|].
    destruct (fold_left (simulate_within today (g :: gs')) (range days) (balance, []))
      as [final rows] eqn:E.
    simpl in Q, L. rewrite range_length in L.
    assert (Hrows : rows <> []).
    { intros ->. simpl in L. lia. }
    destruct (first_extreme_some PyNum.lt rows Hrows) as [low ->].
    destruct (first_extreme_some PyNum.gt rows Hrows) as [high ->].
    eexists _, _. split; [reflexivity|]. split; [exact L | exact Q].
Qed.

Lemma forecast_not_ready_without_groups_witness :
  exists rows summary,
    get_forecast jan1 unconfirmed_store "acme" 30 = Ok (ForecastOf rows summary)
    /\ length rows = 30%nat
    /\ Forall quiet_row rows.
Proof.
  assert (Hc : companies unconfirmed_store !! "acme" = Some acme) by reflexivity.
  apply (proj2 (forecast_not_ready_without_groups jan1 unconfirmed_store "acme" 30 acme Hc)
               [unconfirmed_group]).
  - reflexivity.
  - discriminate.
  - constructor; [reflexivity | constructor].
  - lia.
  - split; vm_compute; discriminate.
Defined.

(** C1 as stated fails: the tenant's only group is unconfirmed, and
    the forecast simulates its thirty days instead of reporting that it
    is not ready. *)
Lemma forecast_unconfirmed_counterexample :
  groups unconfirmed_store !! "acme" = Some [unconfirmed_group]
  /\ g_confirmed unconfirmed_group = false
  /\ (exists rows summary,
        get_forecast jan1 unconfirmed_store "acme" 30 = Ok (ForecastOf rows summary)
        /\ length rows = 30%nat)
  /\ ~ (exists message,
          get_forecast jan1 unconfirmed_store "acme" 30 = Ok (ErrorBody message)).
Proof.
  split; [reflexivity|]. split; [reflexivity|].
  assert (E : exists rows summary,
             get_forecast jan1 unconfirmed_store "acme" 30 = Ok (ForecastOf rows summary)
             /\ length rows = 30%nat).
  { eexists _, _. split; [vm_compute; reflexivity | reflexivity]. }
  split; [exact E|].
  destruct E as (rows & summary & E & _). intros (message & M).
  rewrite E in M. discriminate M.
Qed.

(** C9 fails on the code: for a tenant that has groups, a horizon of
    zero or fewer days is neither validated nor rejected; the handler
    ends in the [ValueError] that [min] raises on the empty row list. *)
Theorem forecast_bad_horizon_unhandled :
  forall (today : Cal.date) (company : Company) (g : Group) (gs : list Group) (k : nat),
    get_forecast today
      (mkStore {[ "acme" := company ]} ∅ {[ "acme" := g :: gs ]}) "acme" (- Z.of_nat k)
    = Uncaught "ValueError".
Proof.
  intros today company g gs k.
  apply (forecast_empty_horizon _ _ _ _ company g gs).
  - apply lookup_singleton_eq.
  - apply lookup_singleton_eq.
  - lia.
Qed.

End ForecastEngine.

(** ** Moving transactions *)

Section MoveTransactions.

Lemma val_sum_from (xs : list pynum) (a : pynum) :
  (PyNum.val (fold_left PyNum.add xs a) == PyNum.val a + total (map PyNum.val xs))%Q.
Proof.
  revert a. induction xs as [|x xs IH]; intros a; simpl.
  - ring.
  - rewrite IH, val_add. ring.
Qed.

Lemma val_sum (xs : list pynum) : (PyNum.val (PyNum.sum xs) == total (map PyNum.val xs))%Q.
Proof.
  unfold PyNum.sum. rewrite val_sum_from. simpl. ring.
Qed.

(** The average the recalculation writes is the exact mean. *)
Lemma recalculated_average (txns : list Txn) :
  (PyNum.val (PyNum.truediv (PyNum.sum (map t_amount txns)) (Z.of_nat (length txns)))
   == exact_mean (signed_amounts txns))%Q.
Proof.
  unfold PyNum.truediv, exact_mean, signed_amounts. cbn [PyNum.val].
  rewrite val_sum, map_map, length_map. reflexivity.
Qed.

Lemma alter_keeps {A B : Type} (p : A -> B) (f : A -> A) (i : nat) (l : list A) :
  (forall x, p (f x) = p x) -> map p (alter f i l) = map p l.
Proof.
  intros H. revert i. induction l as [|x l IH]; intros i; [reflexivity|].
  destruct i as [|i]; simpl; [rewrite H; reflexivity|].
  f_equal. apply IH.
Qed.

(** C3 fails on the code.  Both transactions of the first group move
    to the second.  The second group, which now holds all three
    transactions, has its average recalculated to their mean, -40.  The
    first group is left with no transaction, an empty member list and a
    count of zero, and still shows -45, the mean of the two
    transactions that left it: the recalculation skips a group without
    transactions. *)
Theorem move_leaves_stale_average :
  exists (st' : Store) (txns : list Txn) (emptied target : Group),
    move_transactions emptying_store "acme" move_all_to_second
    = (st', Ok (mkMoveResponse true 2))
    /\ transactions st' !! "acme" = Some txns
    /\ groups st' !! "acme" = Some [emptied; target]
    /\ map t_group_id txns = [Some "grp_2"; Some "grp_2"; Some "grp_2"]
    /\ g_id emptied = "grp_1"
    /\ assigned_to txns emptied = []
    /\ g_transaction_ids emptied = []
    /\ g_transaction_count emptied = 0
    /\ g_avg_amount emptied = PyFloat (-45)
    /\ ~ average_is_current txns emptied
    /\ g_id target = "grp_2"
    /\ g_transaction_ids target = [3; 1; 2]
    /\ (PyNum.val (g_avg_amount target) == -40)%Q.
Proof.
  eexists _, _, _, _.
  split; [vm_compute; reflexivity|].
  split; [vm_compute; reflexivity|].
  split; [vm_compute; reflexivity|].
  repeat (split; [reflexivity|]).
  split; [|repeat split].
  unfold average_is_current. simpl. intros E. discriminate E.
Qed.

(** C6 fails on the code: a move to a group id that no group of the
    tenant has is reported as a success; the transaction is left with
    that id although the tenant still has no such group. *)
Theorem move_to_unknown_group_succeeds :
  exists (st' : Store) (txns : list Txn) (gs : list Group),
    find_group (default [] (groups review_store !! "acme")) (Some "grp_99") = None
    /\ move_transactions review_store "acme" move_to_unknown
       = (st', Ok (mkMoveResponse true 1))
    /\ transactions st' !! "acme" = Some txns
    /\ groups st' !! "acme" = Some gs
    /\ map t_group_id txns = [Some "grp_99"; Some "grp_1"; Some "grp_2"]
    /\ map g_id gs = ["grp_1"; "grp_2"]
    /\ find_group gs (Some "grp_99") = None.
Proof.
  eexists _, _, _.
  split; [vm_compute; reflexivity|].
  split; [vm_compute; reflexivity|].
  split; [vm_compute; reflexivity|].
  split; [vm_compute; reflexivity|].
  repeat split.
Qed.

End MoveTransactions.

(** ** Fallback buckets *)

Section FallbackBuckets.

(** The bucket amount of a float depends on its value only. *)
Lemma bucket_amount_compat (a q : Q) :
  (a == q)%Q ->
  PyNum.round (PyNum.abs (PyFloat a)) (-1) = PyNum.round (PyNum.abs (PyFloat q)) (-1).
Proof.
  intros E. unfold PyNum.round, PyNum.abs.
  rewrite (round_half_even_compat (Qabs a * PyNum.pow10 (-1)) (Qabs q * PyNum.pow10 (-1)));
    [reflexivity|].
  rewrite E. reflexivity.
Qed.

Lemma classify_unmatched (t : Txn) (q : Q) :
  unmatched t -> float_amount t q ->
  classify t = (t, AmountKey (PyNum.round (PyNum.abs (PyFloat q)) (-1)) (t_type t)).
Proof.
  intros U (a & Ha & E). unfold classify. rewrite U, Ha.
  rewrite (bucket_amount_compat a q E). reflexivity.
Qed.

(** C4, amended.  Of three unmatched debits of -42.00, -48.00 and -100,
    the first rounds to 40 and the second to 50: the three fall into
    three buckets of one member each, no fallback group is formed and
    the three transactions are left as they were, without a group.  Two
    unmatched debits that do round to the same multiple of ten, such as
    -42.00 and -44.00, form one fallback group of size 2 whose average
    is their mean, -43.00, and the debit of -100 is left without a
    group. *)
Theorem fallback_buckets_round_to_nearest_ten (t1 t2 t3 : Txn) :
  unmatched t1 -> unmatched t2 -> unmatched t3 ->
  t_type t1 = "debit" -> t_type t2 = "debit" -> t_type t3 = "debit" ->
  float_amount t1 (-42) -> float_amount t3 (-100) ->
  (float_amount t2 (-48) ->
   PyNum.round (PyNum.abs (PyFloat (-42))) (-1) = PyFloat 40
   /\ PyNum.round (PyNum.abs (PyFloat (-48))) (-1) = PyFloat 50
   /\ auto_categorize_transactions [t1; t2; t3] = ([t1; t2; t3], []))
  /\ (float_amount t2 (-44) ->
      exists g : Group,
        auto_categorize_transactions [t1; t2; t3]
        = ([set_group (Some "grp_1") t1; set_group (Some "grp_1") t2; t3], [g])
        /\ g_id g = "grp_1"
        /\ g_transaction_count g = 2
        /\ g_transaction_ids g = [t_id t1; t_id t2]
        /\ (PyNum.val (g_avg_amount g) == -43)%Q).
Proof.
  intros U1 U2 U3 D1 D2 D3 A1 A3. split; intros A2.
  - split; [reflexivity|]. split; [reflexivity|].
    unfold auto_categorize_transactions. cbn [classify_all].
    rewrite (classify_unmatched t1 _ U1 A1), (classify_unmatched t2 _ U2 A2),
      (classify_unmatched t3 _ U3 A3), D1, D2, D3.
    match goal with
    | |- fold_left materialize ?b _ = _ =>
        let b' := eval vm_compute in b in change b with b'
    end.
    reflexivity.
  - unfold auto_categorize_transactions. cbn [classify_all].
    rewrite (classify_unmatched t1 _ U1 A1), (classify_unmatched t2 _ U2 A2),
      (classify_unmatched t3 _ U3 A3), D1, D2, D3.
    match goal with
    | |- context [fold_left materialize ?b _] =>
        let b' := eval vm_compute in b in change b with b'
    end.
    eexists. split; [reflexivity|].
    repeat (split; [reflexivity|]).
    destruct A1 as (a1 & Ha1 & E1), A2 as (a2 & Ha2 & E2).
    cbn [g_avg_amount]. unfold PyNum.truediv. cbn [PyNum.val].
    rewrite val_sum. simpl. rewrite Ha1, Ha2. simpl. rewrite E1, E2. reflexivity.
Qed.

Lemma fallback_buckets_round_to_nearest_ten_witness :
  auto_categorize_transactions three_debits = (three_debits, [])
  /\ exists g : Group,
       auto_categorize_transactions [coffee 1 (-42); coffee 2 (-44); coffee 3 (-100)]
       = ([ set_group (Some "grp_1") (coffee 1 (-42));
            set_group (Some "grp_1") (coffee 2 (-44)); coffee 3 (-100) ], [g])
       /\ g_id g = "grp_1"
       /\ g_transaction_count g = 2
       /\ g_transaction_ids g = [1; 2]
       /\ (PyNum.val (g_avg_amount g) == -43)%Q.
Proof.
  assert (U : forall i q, unmatched (coffee i q)) by (intros; reflexivity).
  assert (F : forall i q, float_amount (coffee i q) q).
  { intros i q. exists q. split; reflexivity. }
  split.
  - apply (proj1 (fallback_buckets_round_to_nearest_ten
                    (coffee 1 (-42)) (coffee 2 (-48)) (coffee 3 (-100))
                    (U _ _) (U _ _) (U _ _) eq_refl eq_refl eq_refl (F _ _) (F _ _))).
    apply F.
  - apply (proj2 (fallback_buckets_round_to_nearest_ten
                    (coffee 1 (-42)) (coffee 2 (-44)) (coffee 3 (-100))
                    (U _ _) (U _ _) (U _ _) eq_refl eq_refl eq_refl (F _ _) (F _ _))).
    apply F.
Defined.

(** C4 as stated fails: for the three debits of -42.00, -48.00 and
    -100 no group is formed at all, so there is no group of size 2 with
    average -45.00; the first two transactions stay without a group. *)
Lemma fallback_42_48_counterexample :
  snd (auto_categorize_transactions three_debits) = []
  /\ map t_group_id (fst (auto_categorize_transactions three_debits)) = [None; None; None]
  /\ ~ (exists g : Group,
          In g (snd (auto_categorize_transactions three_debits))
          /\ g_transaction_count g = 2
          /\ (PyNum.val (g_avg_amount g) == -45)%Q).
Proof.
  split; [reflexivity|]. split; [reflexivity|].
  intros (g & Hin & _). exact Hin.
Qed.

End FallbackBuckets.

(** ** Statement parsing *)

Section StatementParser.

Lemma alpha_char (a : ascii) :
  PyStr.is_alpha a = true ->
  PyStr.is_digit a = false /\ Ascii.eqb a "-" = false /\ Ascii.eqb a "/" = false.
Proof.
  destruct a as [[] [] [] [] [] [] [] []]; vm_compute; intros H;
    try discriminate H; repeat split.
Qed.

Lemma split_char_head (sep a : ascii) (s : string) :
  Ascii.eqb a sep = false ->
  exists p q, PyStr.split_char sep (String a s) = String a p :: q.
Proof.
  intros H. simpl. rewrite H.
  destruct (PyStr.split_char sep s) as [|p q]; simpl; eauto.
Qed.

(** Neither format of [strptime] reads a text that starts with a letter. *)
Lemma strptime_letter (a : ascii) (s : string) :
  PyStr.is_alpha a = true ->
  Cal.strptime_mdY (String a s) = None /\ Cal.strptime_Ymd (String a s) = None.
Proof.
  intros H. destruct (alpha_char a H) as (D & M & S).
  unfold Cal.strptime_mdY, Cal.strptime_Ymd.
  destruct (split_char_head "/" a s S) as (p & q & ->).
  destruct (split_char_head "-" a s M) as (p' & q' & ->).
  split.
  - destruct q as [|d [|y [|]]]; try reflexivity.
    unfold Cal.month_field. simpl. rewrite D. reflexivity.
  - destruct q' as [|m [|d [|]]]; try reflexivity.
    unfold Cal.year_field. simpl. rewrite D. reflexivity.
Qed.

(** The first group of the month-name pattern is three letters. *)
Lemma match_month_name_letters (line g1 g2 g3 : string) :
  match_month_name line = Some (g1, g2, g3) ->
  exists a b c, g1 = String a (String b (String c EmptyString)) /\ PyStr.is_alpha a = true.
Proof.
  unfold match_month_name. intros H.
  destruct line as [|a [|b [|c [|w r]]]]; try discriminate H.
  destruct (PyStr.is_alpha a) eqn:A; [|discriminate H].
  exists a, b, c. split; [|exact A].
  repeat match type of H with
         | (if ?x then _ else _) = _ => destruct x; try discriminate H
         | match ?x with _ => _ end = _ => destruct x; try discriminate H
         end;
    injection H as <- _ _; reflexivity.
Qed.

(** A line that a date pattern matches is never read as a transaction. *)
Lemma date_header_never_a_transaction (today : Cal.date) (st : ParseState)
    (line : string) (g : string * string * string) :
  first_match date_patterns (PyStr.strip line) = Some g ->
  parsed (parse_line today st line) = parsed st.
Proof.
  intros H. unfold parse_line.
  destruct (PyStr.is_empty (PyStr.strip line)); [reflexivity|].
  rewrite H. destruct (header_date (PyStr.strip line) g); reflexivity.
Qed.

(** A month-name header that contains neither JAN nor FEB leaves the
    parser state as it was, whatever its month. *)
Lemma month_header_without_jan_feb (today : Cal.date) (st : ParseState)
    (line : string) (g : string * string * string) :
  match_month_name (PyStr.strip line) = Some g ->
  PyStr.contains "JAN" (PyStr.upper (PyStr.strip line)) = false ->
  PyStr.contains "FEB" (PyStr.upper (PyStr.strip line)) = false ->
  parse_line today st line = st.
Proof.
  intros M J F. unfold parse_line.
  destruct (PyStr.is_empty (PyStr.strip line)); [reflexivity|].
  unfold date_patterns. cbn [first_match]. rewrite M.
  destruct g as [[g1 g2] g3].
  destruct (match_month_name_letters _ _ _ _ M) as (a & b & c & -> & A).
  unfold header_date. rewrite J, F. cbn [orb].
  assert (E1 : Cal.strptime_mdY
                 (String a (String b (String c EmptyString)) ++ "/" ++ g2 ++ "/" ++ g3) = None)
    by exact (proj1 (strptime_letter a _ A)).
  assert (E2 : Cal.strptime_Ymd
                 (String a (String b (String c EmptyString)) ++ "-" ++ g2 ++ "-" ++ g3) = None)
    by exact (proj2 (strptime_letter a _ A)).
  rewrite E1, E2.
  destruct (PyStr.contains "/" (PyStr.strip line)); reflexivity.
Qed.

(** C2, amended.  The line [PAYROLL DEPOSIT   5000.00] splits into two
    fields only, one short of the three a transaction line needs, so
    the input of the scenario yields no transaction.  With a third
    field between the description and the amount, parsing and grouping
    yield exactly one transaction: dated 2026-01-15, described as
    PAYROLL DEPOSIT, of amount 5000.00, a credit, of category payroll
    (the payroll rule applies; the transaction is alone in its bucket
    and gets no group). *)
Theorem payroll_scenario_needs_three_fields (today : Cal.date) :
  PyStr.re_split "PAYROLL DEPOSIT   5000.00" = ["PAYROLL DEPOSIT"; "5000.00"]
  /\ r_transactions (parse_bank_data today payroll_two_fields) = []
  /\ auto_categorize_transactions (r_transactions (parse_bank_data today payroll_two_fields))
     = ([], [])
  /\ exists txn : Txn,
       auto_categorize_transactions
         (r_transactions (parse_bank_data today payroll_three_fields)) = ([txn], [])
       /\ t_id txn = 1
       /\ t_date txn = Cal.mkdate 2026 1 15
       /\ t_description txn = "PAYROLL DEPOSIT"
       /\ (PyNum.val (t_amount txn) == 5000)%Q
       /\ t_type txn = "credit"
       /\ t_category_id txn = "payroll"
       /\ t_group_id txn = None.
Proof.
  split; [reflexivity|]. split; [reflexivity|]. split; [reflexivity|].
  eexists. split; [vm_compute; reflexivity|].
  repeat split.
Qed.

(** C2 as stated fails: the input of the scenario yields no
    transaction at all. *)
Lemma payroll_scenario_counterexample :
  r_transactions (parse_bank_data jan1 payroll_two_fields) = []
  /\ fst (auto_categorize_transactions
            (r_transactions (parse_bank_data jan1 payroll_two_fields))) = []
  /\ ~ (exists txn : Txn,
          fst (auto_categorize_transactions
                 (r_transactions (parse_bank_data jan1 payroll_two_fields))) = [txn]).
Proof.
  split; [reflexivity|]. split; [reflexivity|].
  intros (txn & E). vm_compute in E. discriminate E.
Qed.

(** C5 fails on the code for ten of the twelve months.  A header with
    a month name from MAR to DEC matches the month-name pattern, and so
    is not read as a transaction, but it leaves the date context as it
    was: the branch that reads month names is taken only when the line
    contains JAN or FEB.  A transaction under such a header is dated
    today, whereas under a JAN or FEB header it gets the date of the
    header. *)
Theorem month_headers_after_february_ignored :
  Forall (fun name : string =>
            first_match date_patterns (name ++ " 13, 2026") = Some (name, "13", "2026")
            /\ forall (today : Cal.date) (st : ParseState),
                 parse_line today st (name ++ " 13, 2026") = st)
         [ "MAR"; "APR"; "MAY"; "JUN"; "JUL"; "AUG"; "SEP"; "OCT"; "NOV"; "DEC" ]
  /\ (forall today : Cal.date,
        map t_date (r_transactions (parse_bank_data today (statement_under "MAR 13, 2026")))
        = [today])
  /\ (forall today : Cal.date,
        map t_date (r_transactions (parse_bank_data today (statement_under "JAN 13, 2026")))
        = [Cal.mkdate 2026 1 13])
  /\ (forall today : Cal.date,
        map t_date (r_transactions (parse_bank_data today (statement_under "FEB 13, 2026")))
        = [Cal.mkdate 2026 2 13]).
Proof.
  split.
  - repeat constructor; intros today st; destruct st; reflexivity.
  - repeat split; intros today; reflexivity.
Qed.

End StatementParser.

(** * Further properties *)

(** ** The parser *)

Section ParserProperties.

Lemma datetime_real (y m d : Z) (x : Cal.date) :
  Cal.datetime y m d = Some x -> real_date x.
Proof.
  unfold Cal.datetime, real_date. destruct (Cal.valid y m d) eqn:V; [|discriminate].
  intros E. injection E as <-. exact V.
Qed.

Lemma header_date_real (line : string) (g : string * string * string) (d : Cal.date) :
  header_date line g = Some d -> real_date d.
Proof.
  destruct g as [[g1 g2] g3]. unfold header_date, Cal.strptime_mdY, Cal.strptime_Ymd.
  repeat match goal with
         | |- context [if ?b then _ else _] => destruct b
         | |- context [match ?x with _ => _ end] => destruct x
         end; try discriminate; apply datetime_real.
Qed.

(** What one line does to the parser state. *)
Lemma parse_line_step (today : Cal.date) (st : ParseState) (line : string) :
  (parsed (parse_line today st line) = parsed st
   /\ (current_date (parse_line today st line) = current_date st
       \/ exists d, current_date (parse_line today st line) = Some d /\ real_date d))
  \/ (exists txn,
        parsed (parse_line today st line) = parsed st ++ [txn]
        /\ current_date (parse_line today st line) = current_date st
        /\ t_id txn = Z.of_nat (length (parsed st)) + 1
        /\ t_date txn = default today (current_date st)
        /\ t_group_id txn = None
        /\ t_category_id txn = "unassigned"
        /\ t_type txn = (if PyNum.gt (t_amount txn) (PyInt 0) then "credit" else "debit")).
Proof.
  unfold parse_line.
  destruct (PyStr.is_empty (PyStr.strip line)); [left; auto|].
  destruct (first_match date_patterns (PyStr.strip line)) as [g|].
  - left. destruct (header_date (PyStr.strip line) g) as [d|] eqn:H; [|auto].
    split; [reflexivity|]. right. exists d. split; [reflexivity|].
    eapply header_date_real, H.
  - destruct (3 <=? length (PyStr.re_split (PyStr.strip line)))%nat; [|left; auto].
    destruct (signed_amount (find_amounts (PyStr.re_split (PyStr.strip line))))
      as [amount|]; [|left; auto].
    right. eexists. split; [reflexivity|]. cbn.
    repeat split.
Qed.

Lemma numbered_snoc (txns : list Txn) (txn : Txn) :
  numbered txns -> t_id txn = Z.of_nat (length txns) + 1 -> numbered (txns ++ [txn]).
Proof.
  unfold numbered. intros H E.
  rewrite map_app, length_app, seq_app, map_app, H. simpl.
  rewrite E. f_equal. f_equal. lia.
Qed.

Lemma as_parsed_emitted (today : Cal.date) (c : option Cal.date) (txn : Txn) :
  date_context_ok c ->
  t_date txn = default today c ->
  t_group_id txn = None ->
  t_category_id txn = "unassigned" ->
  t_type txn = (if PyNum.gt (t_amount txn) (PyInt 0) then "credit" else "debit") ->
  as_parsed today txn.
Proof.
  intros C D G K T. unfold as_parsed. split; [exact G|]. split; [exact K|]. split.
  - rewrite T. unfold PyNum.gt.
    destruct (PyNum.Qlt_bool (PyNum.val (PyInt 0)) (PyNum.val (t_amount txn))) eqn:E.
    + left. split; [reflexivity|]. apply Qlt_bool_true in E. exact E.
    + right. split; [reflexivity|]. apply Qlt_bool_false in E. exact E.
  - rewrite D. destruct c as [d|]; [right; exact C | left; reflexivity].
Qed.

Lemma parse_line_invariant (today : Cal.date) (st : ParseState) (line : string) :
  parser_invariant today st -> parser_invariant today (parse_line today st line).
Proof.
  intros (N & F & C).
  destruct (parse_line_step today st line)
    as [(P & [D | (d & D & R)]) | (txn & P & D & I & Dt & G & K & T)];
    unfold parser_invariant; rewrite P, D.
  - auto.
  - auto.
  - split; [apply numbered_snoc; assumption|].
    split; [|exact C]. apply Forall_app. split; [exact F|].
    constructor; [|constructor]. eapply as_parsed_emitted; eassumption.
Qed.

Lemma parse_lines_invariant (today : Cal.date) (lines : list string) (st : ParseState) :
  parser_invariant today st ->
  parser_invariant today (fold_left (parse_line today) lines st).
Proof.
  revert st. induction lines as [|l rest IH]; intros st H; simpl; [exact H|].
  apply IH, parse_line_invariant, H.
Qed.

Lemma parse_bank_data_invariant (today : Cal.date) (raw_data : string) :
  numbered (r_transactions (parse_bank_data today raw_data))
  /\ Forall (as_parsed today) (r_transactions (parse_bank_data today raw_data)).
Proof.
  unfold parse_bank_data. cbn [r_transactions].
  destruct (parse_lines_invariant today
              (PyStr.split_char newline (PyStr.strip raw_data)) (mkParseState None []))
    as (N & F & _).
  - repeat split; constructor.
  - auto.
Qed.

(** X1.  The transactions of a parse are numbered 1, 2, 3, ... in the
    order of their lines, whatever the text. *)
Theorem parse_numbers_transactions (today : Cal.date) (raw_data : string) :
  map t_id (r_transactions (parse_bank_data today raw_data))
  = map Z.of_nat (seq 1 (length (r_transactions (parse_bank_data today raw_data)))).
Proof. apply parse_bank_data_invariant. Qed.

(** X2.  Every transaction of a parse has no group and the category
    unassigned; its type is credit when its amount is positive and
    debit otherwise (a zero amount is a debit); its date is a date of
    the calendar, or today when no header has set the date context. *)
Theorem parsed_transactions_are_fresh (today : Cal.date) (raw_data : string) (t : Txn) :
  In t (r_transactions (parse_bank_data today raw_data)) ->
  t_group_id t = None
  /\ t_category_id t = "unassigned"
  /\ (t_type t = "credit" /\ (0 < PyNum.val (t_amount t))%Q
      \/ t_type t = "debit" /\ (PyNum.val (t_amount t) <= 0)%Q)
  /\ (t_date t = today \/ real_date (t_date t)).
Proof.
  intros H. destruct (parse_bank_data_invariant today raw_data) as [_ F].
  rewrite List.Forall_forall in F. exact (F t H).
Qed.

Lemma parsed_transactions_are_fresh_witness :
  exists t : Txn,
    In t (r_transactions (parse_bank_data jan1 two_sections))
    /\ t_description t = "CLIENT PAYMENT"
    /\ t_group_id t = None
    /\ t_type t = "credit"
    /\ real_date (t_date t).
Proof.
  pose (t := nth 1 (r_transactions (parse_bank_data jan1 two_sections)) (on_day jan1)).
  assert (H : In t (r_transactions (parse_bank_data jan1 two_sections))).
  { vm_compute. right. left. reflexivity. }
  destruct (parsed_transactions_are_fresh jan1 two_sections t H) as (G & _).
  exists t. split; [exact H|]. split; [vm_compute; reflexivity|]. split; [exact G|].
  split; vm_compute; reflexivity.
Defined.








End ParserProperties.

(** ** The frequency detector *)

Section FrequencyProperties.

Lemma ascending_head (a : Z) (l : list Z) :
  ascending (a :: l) -> forall x, In x l -> a <= x.
Proof.
  revert a. induction l as [|b r IH]; intros a H x Hx; [destruct Hx|].
  destruct H as [Hab Hr]. destruct Hx as [<- | Hx]; [exact Hab|].
  pose proof (IH b Hr x Hx). lia.
Qed.

Lemma ascending_tail (a : Z) (l : list Z) : ascending (a :: l) -> ascending l.
Proof. destruct l; [intros; exact I | intros [_ H]; exact H]. Qed.

Lemma insert_sorted_ascending (x : Z) (l : list Z) :
  ascending l -> ascending (insert_sorted x l).
Proof.
  induction l as [|y r IH]; intros H; [exact I|].
  simpl. destruct (x <=? y) eqn:E.
  - apply Z.leb_le in E. split; assumption.
  - apply Z.leb_gt in E. pose proof (IH (ascending_tail y r H)) as A.
    destruct r as [|z r']; simpl in *.
    + split; [lia | exact I].
    + destruct (x <=? z) eqn:E'.
      * split; [lia | exact A].
      * split; [apply H | exact A].
Qed.

Lemma sorted_ascending (l : list Z) : ascending (sorted l).
Proof.
  unfold sorted. induction l as [|x r IH]; [exact I|].
  simpl. apply insert_sorted_ascending, IH.
Qed.

(** Two ascending lists with the same elements are the same list. *)
Lemma ascending_unique (l1 l2 : list Z) :
  ascending l1 -> ascending l2 -> Permutation l1 l2 -> l1 = l2.
Proof.
  revert l2. induction l1 as [|a r1 IH]; intros l2 A1 A2 P.
  - apply Permutation_nil in P. congruence.
  - destruct l2 as [|b r2]; [symmetry in P; apply Permutation_nil in P; discriminate P|].
    assert (a = b).
    { assert (In a (b :: r2)) as Ha by (eapply Permutation_in; [exact P | left; reflexivity]).
      assert (In b (a :: r1)) as Hb
          by (eapply Permutation_in; [symmetry; exact P | left; reflexivity]).
      destruct Ha as [Ha | Ha]; [congruence|].
      destruct Hb as [Hb | Hb]; [congruence|].
      pose proof (ascending_head a r1 A1 b Hb).
      pose proof (ascending_head b r2 A2 a Ha). lia. }
    subst b. f_equal. apply IH.
    + eapply ascending_tail, A1.
    + eapply ascending_tail, A2.
    + eapply Permutation_cons_inv, P.
Qed.

Lemma sorted_of_permutation (l1 l2 : list Z) :
  Permutation l1 l2 -> sorted l1 = sorted l2.
Proof.
  intros P. apply ascending_unique; try apply sorted_ascending.
  rewrite !sorted_perm. exact P.
Qed.

(** X5.  The label depends on the dates only, not on the order in
    which the transactions are listed. *)
Theorem detect_frequency_order_independent (txns txns' : list Txn) :
  Permutation txns txns' -> detect_frequency txns = detect_frequency txns'.
Proof.
  intros P. unfold detect_frequency, avg_gap.
  rewrite (Permutation_length P).
  rewrite (sorted_of_permutation
             (map (fun t => Cal.toordinal (t_date t)) txns)
             (map (fun t => Cal.toordinal (t_date t)) txns')); [reflexivity|].
  apply Permutation_map, P.
Qed.

Lemma detect_frequency_order_independent_witness :
  detect_frequency fortnightly = detect_frequency (rev fortnightly)
  /\ detect_frequency fortnightly = "semi-monthly".
Proof.
  split; [|reflexivity].
  apply detect_frequency_order_independent, Permutation_rev.
Defined.

Lemma sum_Z_from (l : list Z) (acc : Z) : fold_left Z.add l acc = acc + sum_Z l.
Proof.
  unfold sum_Z. revert acc. induction l as [|x r IH]; intros acc; cbn [fold_left]; [lia|].
  rewrite (IH (acc + x)), (IH (0 + x)). lia.
Qed.

Lemma last_default (b : Z) (r : list Z) (d d' : Z) :
  List.last (b :: r) d = List.last (b :: r) d'.
Proof.
  revert b. induction r as [|c r IH]; intros b; [reflexivity|].
  change (List.last (b :: c :: r) d) with (List.last (c :: r) d).
  change (List.last (b :: c :: r) d') with (List.last (c :: r) d').
  apply IH.
Qed.

(** The gaps of a list add up to the distance from its first to its
    last element. *)
Lemma gaps_telescope (a : Z) (l : list Z) :
  sum_Z (gaps_of (a :: l)) = List.last (a :: l) a - a
  /\ length (gaps_of (a :: l)) = length l.
Proof.
  revert a. induction l as [|b r IH]; intros a; [split; [simpl; unfold sum_Z; simpl; lia | reflexivity]|].
  destruct (IH b) as [S L].
  change (gaps_of (a :: b :: r)) with ((b - a) :: gaps_of (b :: r)).
  split.
  - unfold sum_Z in *. cbn [fold_left]. rewrite sum_Z_from. unfold sum_Z. rewrite S.
    change (List.last (a :: b :: r) a) with (List.last (b :: r) a).
    rewrite (last_default b r a b). lia.
  - cbn [length]. rewrite L. reflexivity.
Qed.

Lemma ascending_last (a : Z) (l : list Z) :
  ascending (a :: l) -> forall x, In x (a :: l) -> x <= List.last (a :: l) a.
Proof.
  revert a. induction l as [|b r IH]; intros a H x Hx.
  - destruct Hx as [<- | []]. simpl. lia.
  - destruct H as [Hab Hr].
    change (List.last (a :: b :: r) a) with (List.last (b :: r) a).
    rewrite (last_default b r a b).
    destruct Hx as [<- | Hx].
    + pose proof (IH b Hr b (or_introl eq_refl)). lia.
    + apply IH; assumption.
Qed.

Lemma last_in (a : Z) (l : list Z) : In (List.last (a :: l) a) (a :: l).
Proof.
  revert a. induction l as [|b r IH]; intros a; [left; reflexivity|].
  change (List.last (a :: b :: r) a) with (List.last (b :: r) a).
  rewrite (last_default b r a b). right. apply IH.
Qed.

(** X6.  The average gap is the span from the earliest to the latest
    date divided by the number of transactions less one: the dates in
    between play no part in the label. *)
Theorem avg_gap_is_span_over_count (txns : list Txn) (lo hi : Z) :
  (2 <= length txns)%nat ->
  In lo (ordinals txns) ->
  In hi (ordinals txns) ->
  (forall x, In x (ordinals txns) -> lo <= x <= hi) ->
  (avg_gap txns == inject_Z (hi - lo) / inject_Z (Z.of_nat (length txns - 1)))%Q
  /\ detect_frequency txns
     = frequency_of_gap (inject_Z (hi - lo) / inject_Z (Z.of_nat (length txns - 1)))%Q.
Proof.
  intros Hn Hlo Hhi Hb.
  assert (P : Permutation (sorted (ordinals txns)) (ordinals txns)) by apply sorted_perm.
  assert (A : ascending (sorted (ordinals txns))) by apply sorted_ascending.
  assert (Ln : length (sorted (ordinals txns)) = length txns).
  { rewrite (Permutation_length P). unfold ordinals. apply length_map. }
  assert (E : avg_gap txns
              = (inject_Z (hi - lo) / inject_Z (Z.of_nat (length txns - 1)))%Q).
  { unfold avg_gap. fold (ordinals txns).
    destruct (sorted (ordinals txns)) as [|a [|b r]] eqn:S;
      [simpl in Ln; lia | simpl in Ln; lia |].
    destruct (gaps_telescope a (b :: r)) as [Sum Len].
    assert (a = lo).
    { assert (In a (ordinals txns)) as Ha
          by (eapply Permutation_in; [exact P | left; reflexivity]).
      assert (In lo (a :: b :: r)) as Hl
          by (eapply Permutation_in; [symmetry; exact P | exact Hlo]).
      pose proof (Hb a Ha).
      destruct Hl as [Hl | Hl]; [congruence|].
      pose proof (ascending_head a (b :: r) A lo Hl). lia. }
    assert (List.last (a :: b :: r) a = hi).
    { assert (In (List.last (a :: b :: r) a) (ordinals txns)) as Hl
          by (eapply Permutation_in; [exact P | apply last_in]).
      assert (In hi (a :: b :: r)) as Hh
          by (eapply Permutation_in; [symmetry; exact P | exact Hhi]).
      pose proof (Hb _ Hl). pose proof (ascending_last a (b :: r) A hi Hh). lia. }
    destruct (gaps_of (a :: b :: r)) as [|g gs] eqn:G; [simpl in Len; discriminate Len|].
    rewrite Sum, Len. simpl in Ln.
    replace (length txns - 1)%nat with (length (b :: r)) by (simpl; lia).
    congruence. }
  split; [rewrite E; reflexivity|].
  rewrite <- E. apply detect_frequency_two_or_more, Hn.
Qed.

Lemma avg_gap_is_span_over_count_witness :
  (avg_gap fortnightly == 14)%Q /\ detect_frequency fortnightly = "semi-monthly".
Proof.
  destruct (avg_gap_is_span_over_count fortnightly
              (Cal.toordinal (Cal.mkdate 2026 1 1)) (Cal.toordinal (Cal.mkdate 2026 1 29)))
    as [E F].
  - simpl. lia.
  - right. left. reflexivity.
  - left. reflexivity.
  - intros x [<- | [<- | [<- | []]]]; vm_compute; split; discriminate.
  - split; [rewrite E; reflexivity | rewrite F; reflexivity].
Defined.

End FrequencyProperties.

(** ** The forecast *)

Section ForecastProperties.

Lemma simulate_within_row (today : Cal.date) (gs : list Group)
    (balance : pynum) (rows : list ForecastRow) (k : Z) :
  exists balance' r,
    simulate_within today gs (balance, rows) k = (balance', rows ++ [r])
    /\ row_date r = Cal.add_days today k
    /\ well_named r.
Proof.
  unfold simulate_within, forecast_day. eexists _, _. split; [reflexivity|]. split; reflexivity.
Qed.

Lemma simulate_rows (today : Cal.date) (gs : list Group) (offsets : list Z) :
  forall (balance : pynum) (rows : list ForecastRow),
  exists balance' new,
    fold_left (simulate_within today gs) offsets (balance, rows) = (balance', rows ++ new)
    /\ map row_date new = map (Cal.add_days today) offsets
    /\ Forall well_named new.
Proof.
  induction offsets as [|k rest IH]; intros balance rows; cbn [fold_left].
  - exists balance, []. rewrite app_nil_r. repeat split. constructor.
  - destruct (simulate_within_row today gs balance rows k) as (b1 & r & -> & D & N).
    destruct (IH b1 (rows ++ [r])) as (b2 & new & -> & Ds & Ns).
    exists b2, (r :: new). rewrite <- app_assoc. split; [reflexivity|].
    split; [simpl; rewrite D, Ds; reflexivity | constructor; assumption].
Qed.

(** The forecast of a tenant that has groups, over a horizon of one day
    or more. *)
Lemma forecast_structure (today : Cal.date) (st : Store) (company_id : string) (days : Z)
    (company : Company) (gs : list Group) :
  companies st !! company_id = Some company ->
  groups st !! company_id = Some gs ->
  gs <> [] ->
  1 <= days ->
  horizon_in_calendar today days ->
  exists final rows low high,
    fold_left (simulate_within today gs) (range days)
              (default (PyInt 0) (co_current_balance company), []) = (final, rows)
    /\ first_extreme PyNum.lt rows = Some low
    /\ first_extreme PyNum.gt rows = Some high
    /\ get_forecast today st company_id days
       = Ok (ForecastOf rows
               (mkForecastSummary (default (PyInt 0) (co_current_balance company))
                  (mkForecastPoint (row_balance low) (row_date low))
                  (mkForecastPoint (row_balance high) (row_date high))))
    /\ map row_date rows = map (Cal.add_days today) (range days)
    /\ Forall well_named rows.
Proof.
  intros Hc Hg Hne Hd Hcal. unfold get_forecast. rewrite Hc, Hg.
  destruct gs as [|g gs']; [congruence|].
  set (balance := default (PyInt 0) (co_current_balance company)).
  rewrite (simulate_horizon today (g :: gs') days (balance, []) Hcal).
  destruct (simulate_rows today (g :: gs') (range days) balance [])
    as (final & rows & E & D & N).
  cbn [app] in E. rewrite E.
  assert (Hrows : rows <> []).
  { intros ->. apply (f_equal (@length _)) in D.
    rewrite !length_map, range_length in D. simpl in D. lia. }
  destruct (first_extreme_some PyNum.lt rows Hrows) as [low L].
  destruct (first_extreme_some PyNum.gt rows Hrows) as [high H].
  exists final, rows, low, high. rewrite L, H.
  split; [reflexivity|]. split; [reflexivity|]. split; [reflexivity|].
  split; [reflexivity|]. split; assumption.
Qed.

(** Once a day has no date the loop is over. *)
Lemma simulate_raised (today : Cal.date) (gs : list Group) (offsets : list Z) :
  fold_left (simulate_day today gs) offsets None = None.
Proof. induction offsets as [|k rest IH]; [reflexivity | exact IH]. Qed.

Lemma simulate_beyond (today : Cal.date) (gs : list Group) (offsets : list Z) (k : Z) :
  In k offsets ->
  Cal.add_timedelta today k = None ->
  forall s, fold_left (simulate_day today gs) offsets (Some s) = None.
Proof.
  intros Hin Hk. induction offsets as [|k0 rest IH]; intros s; [destruct Hin|].
  cbn [fold_left]. unfold simulate_day at 2.
  destruct (Cal.add_timedelta today k0) as [d|] eqn:E.
  - destruct Hin as [-> | Hin]; [congruence | apply IH, Hin].
  - apply simulate_raised.
Qed.

Lemma range_last (n : Z) : 1 <= n -> In (n - 1) (range n).
Proof.
  intros H. unfold range. apply in_map_iff. exists (Z.to_nat (n - 1)).
  split; [lia|]. apply in_seq. lia.
Qed.

(** X7.  For a tenant that has groups and a horizon of one day or
    more: when the last day of the horizon is 9999-12-31 at the latest,
    the forecast has one row per day of the horizon, the rows are dated
    today, tomorrow, ... in order, each carries the name of the weekday
    of its date, and the summary repeats the stored balance (zero when
    none was set); when the horizon reaches beyond that day, the
    request ends in the uncaught [OverflowError] of the date
    arithmetic. *)
Theorem forecast_covers_horizon (today : Cal.date) (st : Store) (company_id : string)
    (days : Z) (company : Company) (gs : list Group) :
  companies st !! company_id = Some company ->
  groups st !! company_id = Some gs ->
  gs <> [] ->
  1 <= days ->
  1 <= Cal.toordinal today ->
  (Cal.toordinal today + days - 1 <= Cal.MAXORDINAL ->
   exists rows summary,
     get_forecast today st company_id days = Ok (ForecastOf rows summary)
     /\ length rows = Z.to_nat days
     /\ map row_date rows = map (Cal.add_days today) (range days)
     /\ Forall well_named rows
     /\ s_current_balance summary = default (PyInt 0) (co_current_balance company))
  /\ (Cal.MAXORDINAL < Cal.toordinal today + days - 1 ->
      get_forecast today st company_id days = Uncaught "OverflowError").
Proof.
  intros Hc Hg Hne Hd Ht. split.
  - intros Hm.
    destruct (forecast_structure today st company_id days company gs Hc Hg Hne Hd
                (conj Ht Hm))
      as (final & rows & low & high & _ & _ & _ & F & D & N).
    eexists _, _. split; [exact F|]. split.
    + apply (f_equal (@length _)) in D. rewrite !length_map, range_length in D. exact D.
    + auto.
  - intros Hm. unfold get_forecast. rewrite Hc, Hg.
    destruct gs as [|g gs']; [congruence|].
    rewrite (simulate_beyond today (g :: gs') (range days) (days - 1));
      [reflexivity | apply range_last, Hd |].
    apply add_timedelta_beyond. lia.
Qed.

Lemma forecast_covers_horizon_witness :
  (exists rows summary,
     get_forecast jan1 busy_store "acme" 3 = Ok (ForecastOf rows summary)
     /\ map row_date rows = [Cal.mkdate 2026 1 1; Cal.mkdate 2026 1 2; Cal.mkdate 2026 1 3]
     /\ map row_day_name rows = ["Thursday"; "Friday"; "Saturday"]
     /\ s_current_balance summary = PyFloat 1000)
  /\ get_forecast (Cal.mkdate 9999 12 30) busy_store "acme" 3 = Uncaught "OverflowError".
Proof.
  split.
  - destruct (forecast_covers_horizon jan1 busy_store "acme" 3 acme
                (default [] (groups busy_store !! "acme")))
      as [(rows & summary & F & L & D & N & B) _];
      [reflexivity | reflexivity | discriminate | lia | vm_compute; discriminate
      | vm_compute; discriminate |].
    exists rows, summary. split; [exact F|]. split; [exact D|]. split; [|exact B].
    assert (E : get_forecast jan1 busy_store "acme" 3 = get_forecast jan1 busy_store "acme" 3)
      by reflexivity.
    rewrite F in E at 1. vm_compute in E. injection E as -> _. reflexivity.
  - apply (forecast_covers_horizon (Cal.mkdate 9999 12 30) busy_store "acme" 3 acme
             (default [] (groups busy_store !! "acme")));
      [reflexivity | reflexivity | discriminate | lia | vm_compute; discriminate
      | vm_compute; reflexivity].
Defined.

End ForecastProperties.

(** The row [first_extreme] selects, for a comparison [beats] that
    decides a strict order [before] whose complement is [upto]. *)
Section Extremes.

Variable beats : pynum -> pynum -> bool.
Variables before upto : Q -> Q -> Prop.
Hypothesis beats_true :
  forall a b, beats a b = true -> before (PyNum.val a) (PyNum.val b).
Hypothesis beats_false :
  forall a b, beats a b = false -> upto (PyNum.val b) (PyNum.val a).
Hypothesis before_upto : forall x y, before x y -> upto x y.
Hypothesis upto_trans : forall x y z, upto x y -> upto y z -> upto x z.

Lemma first_extreme_spec (rows : list ForecastRow) (e : ForecastRow) :
  first_extreme beats rows = Some e ->
  exists earlier later,
    rows = earlier ++ e :: later
    /\ (forall r, In r earlier ->
          before (PyNum.val (row_balance e)) (PyNum.val (row_balance r)))
    /\ (forall r, In r later ->
          upto (PyNum.val (row_balance e)) (PyNum.val (row_balance r))).
Proof.
  revert e. induction rows as [|r rest IH]; intros e H; [discriminate H|].
  cbn [first_extreme] in H.
  destruct (first_extreme beats rest) as [e'|] eqn:E.
  - destruct (IH e' eq_refl) as (l1 & l2 & -> & B & U).
    destruct (beats (row_balance e') (row_balance r)) eqn:C; injection H as <-.
    + exists (r :: l1), l2. split; [reflexivity|]. split; [|exact U].
      intros x [<- | Hx]; [apply beats_true, C | apply B, Hx].
    + exists [], (l1 ++ e' :: l2). split; [reflexivity|]. split; [intros x []|].
      pose proof (beats_false _ _ C) as R.
      intros x Hx. apply in_app_or in Hx. destruct Hx as [Hx | [<- | Hx]].
      * eapply upto_trans; [exact R | apply before_upto, B, Hx].
      * exact R.
      * eapply upto_trans; [exact R | apply U, Hx].
  - injection H as <-. destruct rest as [|r' rest'].
    + exists [], []. split; [reflexivity|]. split; intros x [].
    + cbn [first_extreme] in E. destruct (first_extreme beats rest') as [e''|].
      * destruct (beats (row_balance e'') (row_balance r')); discriminate E.
      * discriminate E.
Qed.

End Extremes.

Section ForecastPoints.

Lemma lowest_row (rows : list ForecastRow) (e : ForecastRow) :
  first_extreme PyNum.lt rows = Some e ->
  exists earlier later,
    rows = earlier ++ e :: later
    /\ (forall r, In r earlier ->
          (PyNum.val (row_balance e) < PyNum.val (row_balance r))%Q)
    /\ (forall r, In r later ->
          (PyNum.val (row_balance e) <= PyNum.val (row_balance r))%Q).
Proof.
  apply (first_extreme_spec PyNum.lt Qlt Qle).
  - intros a b H. apply Qlt_bool_true, H.
  - intros a b H. apply Qlt_bool_false, H.
  - intros x y H. apply Qlt_le_weak, H.
  - intros x y z. apply Qle_trans.
Qed.

Lemma highest_row (rows : list ForecastRow) (e : ForecastRow) :
  first_extreme PyNum.gt rows = Some e ->
  exists earlier later,
    rows = earlier ++ e :: later
    /\ (forall r, In r earlier ->
          (PyNum.val (row_balance r) < PyNum.val (row_balance e))%Q)
    /\ (forall r, In r later ->
          (PyNum.val (row_balance r) <= PyNum.val (row_balance e))%Q).
Proof.
  apply (first_extreme_spec PyNum.gt (fun x y => (y < x)%Q) (fun x y => (y <= x)%Q)).
  - intros a b H. apply Qlt_bool_true, H.
  - intros a b H. apply Qlt_bool_false, H.
  - intros x y H. apply Qlt_le_weak, H.
  - intros x y z H1 H2. eapply Qle_trans; eassumption.
Qed.

(** X8.  The low point of the summary is the balance and date of a
    row whose balance no row undercuts, and the high point those of a
    row whose balance no row exceeds; among rows of equal balance the
    earliest is taken, that is, every earlier row is strictly above the
    low point, resp. strictly below the high point.  This is for a
    horizon of one day or more that ends on 9999-12-31 at the latest. *)
Theorem forecast_low_and_high_points (today : Cal.date) (st : Store)
    (company_id : string) (days : Z) (company : Company) (gs : list Group) :
  companies st !! company_id = Some company ->
  groups st !! company_id = Some gs ->
  gs <> [] ->
  1 <= days ->
  horizon_in_calendar today days ->
  exists rows summary low high before_low after_low before_high after_high,
    get_forecast today st company_id days = Ok (ForecastOf rows summary)
    /\ s_low_point summary = mkForecastPoint (row_balance low) (row_date low)
    /\ s_high_point summary = mkForecastPoint (row_balance high) (row_date high)
    /\ rows = before_low ++ low :: after_low
    /\ rows = before_high ++ high :: after_high
    /\ (forall r, In r before_low ->
          (PyNum.val (row_balance low) < PyNum.val (row_balance r))%Q)
    /\ (forall r, In r after_low ->
          (PyNum.val (row_balance low) <= PyNum.val (row_balance r))%Q)
    /\ (forall r, In r before_high ->
          (PyNum.val (row_balance r) < PyNum.val (row_balance high))%Q)
    /\ (forall r, In r after_high ->
          (PyNum.val (row_balance r) <= PyNum.val (row_balance high))%Q).
Proof.
  intros Hc Hg Hne Hd Hcal.
  destruct (forecast_structure today st company_id days company gs Hc Hg Hne Hd Hcal)
    as (final & rows & low & high & _ & L & H & F & _ & _).
  destruct (lowest_row rows low L) as (bl & al & El & Bl & Al).
  destruct (highest_row rows high H) as (bh & ah & Eh & Bh & Ah).
  eexists rows, _, low, high, bl, al, bh, ah.
  split; [exact F|]. cbn [s_low_point s_high_point].
  repeat (split; [first [reflexivity | assumption]|]). assumption.
Qed.

Lemma forecast_low_and_high_points_witness :
  exists rows summary,
    get_forecast jan1 busy_store "acme" 5 = Ok (ForecastOf rows summary)
    /\ s_low_point summary = mkForecastPoint (PyFloat 1050.00) (Cal.mkdate 2026 1 5)
    /\ s_high_point summary = mkForecastPoint (PyFloat 1200.00) (Cal.mkdate 2026 1 2).
Proof.
  destruct (forecast_low_and_high_points jan1 busy_store "acme" 5 acme
              (default [] (groups busy_store !! "acme")))
    as (rows & summary & low & high & bl & al & bh & ah & F & _);
    [reflexivity | reflexivity | discriminate | lia | split; vm_compute; discriminate |].
  exists rows, summary. split; [exact F|].
  assert (E : get_forecast jan1 busy_store "acme" 5 = get_forecast jan1 busy_store "acme" 5)
    by reflexivity.
  rewrite F in E at 1. vm_compute in E. injection E as _ ->. split; reflexivity.
Defined.

End ForecastPoints.

Section SilentGroups.

Lemma should_apply_unknown (freq : string) (d : Cal.date) :
  ~ In freq firing_labels -> should_apply freq d = false.
Proof.
  intros H. unfold should_apply.
  assert (N : forall s, In s firing_labels -> String.eqb freq s = false).
  { intros s Hs. apply String.eqb_neq. intros ->. exact (H Hs). }
  rewrite (N "daily"), (N "weekly"), (N "semi-monthly"), (N "monthly"), (N "quarterly");
    [reflexivity | | | | |]; unfold firing_labels; simpl; tauto.
Qed.

Lemma apply_silent (d : Cal.date) (gs : list Group) (acc : DayTotals) :
  Forall silent gs -> fold_left (apply_group d) gs acc = acc.
Proof.
  induction 1 as [|g rest Hg _ IH]; simpl; [reflexivity|].
  unfold apply_group at 2. destruct Hg as [Hg | Hg].
  - rewrite Hg. simpl. exact IH.
  - rewrite (should_apply_unknown _ d Hg). destruct (negb (g_confirmed g)); exact IH.
Qed.

Lemma same_num_refl (a : pynum) : same_num a a.
Proof. destruct a; simpl; reflexivity. Qed.

Lemma same_num_trans (a b c : pynum) : same_num a b -> same_num b c -> same_num a c.
Proof.
  destruct a, b, c; simpl; intros H1 H2; try contradiction; [congruence|].
  rewrite H1. exact H2.
Qed.

(** Adding and taking off nothing leaves the number as it is. *)
Lemma same_num_idle (a : pynum) :
  same_num (PyNum.sub (PyNum.add a (PyInt 0)) (PyInt 0)) a.
Proof.
  destruct a; simpl; [lia|]. change (inject_Z 0) with 0%Q. ring.
Qed.

Lemma round_same_num (a b : pynum) (ndigits : Z) :
  same_num a b -> PyNum.round a ndigits = PyNum.round b ndigits.
Proof.
  destruct a, b; simpl; intros H; try contradiction; [subst; reflexivity|].
  rewrite (round_half_even_compat (q * PyNum.pow10 ndigits) (q0 * PyNum.pow10 ndigits));
    [reflexivity|].
  rewrite H. reflexivity.
Qed.

(** With silent groups only, every day leaves the balance as it is. *)
Lemma simulate_silent (today : Cal.date) (gs : list Group) (start : pynum)
    (offsets : list Z) :
  Forall silent gs ->
  forall (balance : pynum) (rows : list ForecastRow),
    same_num balance start ->
    Forall (fun r => quiet_row r /\ row_balance r = PyNum.round start 2) rows ->
    Forall (fun r => quiet_row r /\ row_balance r = PyNum.round start 2)
           (snd (fold_left (simulate_within today gs) offsets (balance, rows))).
Proof.
  intros Hgs. induction offsets as [|k rest IH]; intros balance rows S R;
    cbn [fold_left]; [exact R|].
  unfold simulate_within at 2; unfold forecast_day. rewrite (apply_silent _ gs _ Hgs).
  cbn [daily_credits daily_debits transactions_today].
  apply IH.
  - eapply same_num_trans; [apply same_num_idle | exact S].
  - apply Forall_app. split; [exact R|]. constructor; [|constructor].
    split; [repeat split|]. cbn [row_balance].
    apply round_same_num. eapply same_num_trans; [apply same_num_idle | exact S].
Qed.

(** X9.  Groups that are not confirmed, and groups of a frequency
    without a calendar rule (uncommon, varies, or any other text),
    never enter the forecast.  For a tenant with such groups only, and
    a horizon of one day or more that ends on 9999-12-31 at the latest,
    every row has zero credits, zero debits, no transaction and the
    balance of the first row, which is the starting balance itself when
    that is an integer, and the low and the high point are both the
    first row. *)
Theorem silent_groups_leave_the_balance (today : Cal.date) (st : Store)
    (company_id : string) (days : Z) (company : Company) (gs : list Group) :
  companies st !! company_id = Some company ->
  groups st !! company_id = Some gs ->
  gs <> [] ->
  Forall silent gs ->
  1 <= days ->
  horizon_in_calendar today days ->
  exists first rest summary,
    get_forecast today st company_id days = Ok (ForecastOf (first :: rest) summary)
    /\ Forall (fun r => quiet_row r /\ row_balance r = row_balance first) (first :: rest)
    /\ (forall z, default (PyInt 0) (co_current_balance company) = PyInt z ->
          row_balance first = PyInt z)
    /\ s_low_point summary = mkForecastPoint (row_balance first) (row_date first)
    /\ s_high_point summary = mkForecastPoint (row_balance first) (row_date first).
Proof.
  intros Hc Hg Hne Hs Hd Hcal.
  destruct (forecast_structure today st company_id days company gs Hc Hg Hne Hd Hcal)
    as (final & rows & low & high & E & L & H & F & _ & _).
  pose proof (simulate_silent today gs (default (PyInt 0) (co_current_balance company))
                (range days) Hs _ [] (same_num_refl _) (List.Forall_nil _)) as Q.
  rewrite E in Q. cbn [snd] in Q. rewrite List.Forall_forall in Q.
  destruct (lowest_row rows low L) as (bl & al & El & Bl & _).
  destruct (highest_row rows high H) as (bh & ah & Eh & Bh & _).
  assert (In low rows) as Il by (rewrite El; apply in_or_app; right; left; reflexivity).
  assert (In high rows) as Ih by (rewrite Eh; apply in_or_app; right; left; reflexivity).
  assert (bl = []) as ->.
  { destruct bl as [|r bl']; [reflexivity|]. exfalso.
    assert (In r rows) as Ir by (rewrite El; left; reflexivity).
    pose proof (Bl r (or_introl eq_refl)) as C.
    rewrite (proj2 (Q r Ir)), (proj2 (Q low Il)) in C. exact (Qlt_irrefl _ C). }
  assert (bh = []) as ->.
  { destruct bh as [|r bh']; [reflexivity|]. exfalso.
    assert (In r rows) as Ir by (rewrite Eh; left; reflexivity).
    pose proof (Bh r (or_introl eq_refl)) as C.
    rewrite (proj2 (Q r Ir)), (proj2 (Q high Ih)) in C. exact (Qlt_irrefl _ C). }
  cbn [app] in El, Eh. assert (high = low) as -> by congruence.
  eexists low, al, _. rewrite <- El. split; [exact F|].
  split.
  { rewrite List.Forall_forall. intros r Hr. split; [apply (Q r Hr)|].
    rewrite (proj2 (Q r Hr)), (proj2 (Q low Il)). reflexivity. }
  split; [|split; reflexivity].
  intros z Hz. rewrite (proj2 (Q low Il)), Hz. reflexivity.
Qed.

Lemma silent_groups_leave_the_balance_witness :
  exists first rest summary,
    get_forecast jan1 silent_store "acme" 30 = Ok (ForecastOf (first :: rest) summary)
    /\ Forall (fun r => quiet_row r /\ row_balance r = row_balance first) (first :: rest)
    /\ s_low_point summary = mkForecastPoint (row_balance first) (row_date first)
    /\ s_high_point summary = mkForecastPoint (row_balance first) (row_date first).
Proof.
  destruct (silent_groups_leave_the_balance jan1 silent_store "acme" 30 acme
              (default [] (groups silent_store !! "acme")))
    as (first & rest & summary & F & Q & _ & L & H).
  - reflexivity.
  - reflexivity.
  - discriminate.
  - constructor; [left; reflexivity|]. constructor; [|constructor].
    right. unfold firing_labels. simpl. intros [H | [H | [H | [H | [H | []]]]]];
      discriminate H.
  - lia.
  - split; vm_compute; discriminate.
  - exists first, rest, summary. auto.
Defined.

(** X10.  Setting the balance of a company and then asking for its
    forecast: the groups and transactions of the store are untouched
    and the summary of the forecast starts from the balance that was
    set, zero when the request carried none.  This is for a tenant that
    has groups and a horizon of one day or more that ends on 9999-12-31
    at the latest. *)
Theorem set_balance_then_forecast (today : Cal.date) (st : Store) (company_id : string)
    (balance : option pynum) (days : Z) (company : Company) (gs : list Group) :
  companies st !! company_id = Some company ->
  groups st !! company_id = Some gs ->
  gs <> [] ->
  1 <= days ->
  horizon_in_calendar today days ->
  exists st' rows summary,
    set_balance st company_id balance = (st', Ok true)
    /\ transactions st' = transactions st
    /\ groups st' = groups st
    /\ get_forecast today st' company_id days = Ok (ForecastOf rows summary)
    /\ s_current_balance summary = default (PyInt 0) balance.
Proof.
  intros Hc Hg Hne Hd Hcal. unfold set_balance. rewrite Hc.
  eexists. 
  match goal with
  | |- exists rows summary, (?s, _) = _ /\ _ =>
      destruct (forecast_structure today s company_id days
                  (set_current_balance (default (PyInt 0) balance) company) gs)
        as (final & rows & low & high & _ & _ & _ & F & _ & _);
      [apply lookup_insert_eq | exact Hg | exact Hne | exact Hd | exact Hcal |]
  end.
  eexists rows, _. split; [reflexivity|]. split; [reflexivity|]. split; [reflexivity|].
  split; [exact F | reflexivity].
Qed.

Lemma set_balance_then_forecast_witness :
  exists st' rows summary,
    set_balance busy_store "acme" (Some (PyFloat 250.5)) = (st', Ok true)
    /\ get_forecast jan1 st' "acme" 2 = Ok (ForecastOf rows summary)
    /\ s_current_balance summary = PyFloat 250.5.
Proof.
  destruct (set_balance_then_forecast jan1 busy_store "acme" (Some (PyFloat 250.5)) 2 acme
              (default [] (groups busy_store !! "acme")))
    as (st' & rows & summary & S & _ & _ & F & B);
    [reflexivity | reflexivity | discriminate | lia | split; vm_compute; discriminate |].
  exists st', rows, summary. auto.
Defined.

End SilentGroups.

(** ** Missing companies *)

Section MissingCompany.

(** X11.  A company id the store does not know: the move of
    transactions, the group update and the balance update check
    nothing and end in an uncaught [KeyError] where the group detail
    answers with the HTTP error 404; none of them changes the store. *)
Theorem unknown_company_raises_key_error (st : Store) (company_id : string) :
  companies st !! company_id = None ->
  transactions st !! company_id = None ->
  groups st !! company_id = None ->
  (forall req, move_transactions st company_id req = (st, Uncaught "KeyError"))
  /\ (forall group_id req, update_group st company_id group_id req
                           = (st, Uncaught "KeyError"))
  /\ (forall balance, set_balance st company_id balance = (st, Uncaught "KeyError"))
  /\ (forall group_id, get_group_detail st company_id group_id
                       = HTTPException 404 "Company not found").
Proof.
  intros Hc Ht Hg. repeat split.
  - intros req. unfold move_transactions. rewrite Hg.
    destruct (truthy_str (m_new_group_name req)); [reflexivity|].
    rewrite Ht. reflexivity.
  - intros gid req. unfold update_group. rewrite Hg. reflexivity.
  - intros b. unfold set_balance. rewrite Hc. reflexivity.
  - intros gid. unfold get_group_detail. rewrite Hg. reflexivity.
Qed.

Lemma unknown_company_raises_key_error_witness :
  move_transactions empty_store "acme" move_to_unknown
  = (empty_store, Uncaught "KeyError")
  /\ set_balance empty_store "acme" (Some (PyInt 100))
     = (empty_store, Uncaught "KeyError").
Proof.
  destruct (unknown_company_raises_key_error empty_store "acme")
    as (M & _ & B & _); [reflexivity | reflexivity | reflexivity |].
  split; [apply M | apply B].
Defined.

End MissingCompany.

(** ** Weekly totals *)

Section WeeklyTotals.

Lemma total_app (xs ys : list Q) : (total (xs ++ ys) == total xs + total ys)%Q.
Proof.
  induction xs as [|x xs IH]; simpl; [ring|]. rewrite IH. ring.
Qed.

Lemma total_perm (xs ys : list Q) : Permutation xs ys -> (total xs == total ys)%Q.
Proof.
  induction 1 as [| x l l' _ IH | x y l | l l' l'' _ IH1 _ IH2]; simpl.
  - reflexivity.
  - rewrite IH. reflexivity.
  - ring.
  - rewrite IH1. exact IH2.
Qed.

(** An update that adds [delta] to a field adds [delta] to the total
    of that field over the weeks. *)
Lemma week_update_total (field : WeekTotals -> pynum) (delta : Q) (week : Z)
    (f : WeekTotals -> WeekTotals) (wt : WeeklyTotals) :
  (PyNum.val (field zero_totals) == 0)%Q ->
  (forall tot, (PyNum.val (field (f tot)) == PyNum.val (field tot) + delta)%Q) ->
  (total (map (fun e => PyNum.val (field (snd e))) (week_update week f wt))
   == total (map (fun e => PyNum.val (field (snd e))) wt) + delta)%Q.
Proof.
  intros Z0 Hf. induction wt as [|[w tot] rest IH]; simpl.
  - rewrite Hf, Z0. ring.
  - destruct (w =? week); simpl.
    + rewrite Hf. ring.
    + rewrite IH. ring.
Qed.

Lemma add_txn_totals (wt : WeeklyTotals) (txn : Txn) :
  (total (map week_credits (add_txn wt txn))
   == total (map week_credits wt) + credit_part txn)%Q
  /\ (total (map week_debits (add_txn wt txn))
      == total (map week_debits wt) + debit_part txn)%Q.
Proof.
  unfold add_txn, credit_part, debit_part, week_credits, week_debits.
  destruct (PyNum.gt (t_amount txn) (PyInt 0)); split.
  - apply (week_update_total w_credits); [reflexivity|].
    intros tot. cbn [w_credits]. apply val_add.
  - apply (week_update_total w_debits); [reflexivity|].
    intros tot. cbn [w_debits]. ring.
  - apply (week_update_total w_credits); [reflexivity|].
    intros tot. cbn [w_credits]. ring.
  - apply (week_update_total w_debits); [reflexivity|].
    intros tot. cbn [w_debits]. apply val_add.
Qed.

Lemma fold_add_txn_totals (txns : list Txn) (wt : WeeklyTotals) :
  (total (map week_credits (fold_left add_txn txns wt))
   == total (map week_credits wt) + total (map credit_part txns))%Q
  /\ (total (map week_debits (fold_left add_txn txns wt))
      == total (map week_debits wt) + total (map debit_part txns))%Q.
Proof.
  revert wt. induction txns as [|t rest IH]; intros wt; simpl.
  - split; ring.
  - destruct (IH (add_txn wt t)) as [C D]. destruct (add_txn_totals wt t) as [C1 D1].
    rewrite C, D, C1, D1. split; ring.
Qed.

(** Reading a dictionary without repeated keys back key by key. *)
Lemma week_get_entries (wt : WeeklyTotals) :
  List.NoDup (map fst wt) ->
  map (fun w => (w, week_get wt w)) (map fst wt) = wt.
Proof.
  induction wt as [|[w tot] rest IH]; intros H; [reflexivity|].
  inversion H as [|? ? Hnotin Hrest]; subst. simpl.
  rewrite Z.eqb_refl. f_equal.
  rewrite <- (IH Hrest) at 2. apply map_ext_in.
  intros w' Hin. destruct (w =? w') eqn:E; [|reflexivity].
  apply Z.eqb_eq in E. subst w'. contradiction.
Qed.

Lemma weekly_data_weeks (txns : list Txn) :
  map fst (tr_weekly_data (analyze_trends txns)) = weeks_of txns.
Proof.
  unfold analyze_trends. cbn [tr_weekly_data]. rewrite map_map. simpl. apply map_id.
Qed.

Lemma weekly_data_perm (txns : list Txn) :
  Permutation (tr_weekly_data (analyze_trends txns)) (weekly_totals_of txns).
Proof.
  unfold analyze_trends. cbn [tr_weekly_data]. unfold weeks_of.
  eapply Permutation_trans; [apply Permutation_map, sorted_perm|].
  rewrite week_get_entries; [reflexivity|].
  apply fold_add_txn_distinct. constructor.
Qed.

(** X12.  The weekly data list every ISO week number that occurs among
    the transactions exactly once, in ascending order (transactions of
    the same week number share one entry, whatever their year). *)
Theorem weekly_data_ascending (txns : list Txn) :
  ascending (map fst (tr_weekly_data (analyze_trends txns)))
  /\ List.NoDup (map fst (tr_weekly_data (analyze_trends txns)))
  /\ (forall w, In w (map fst (tr_weekly_data (analyze_trends txns)))
                <-> exists txn, In txn txns /\ Cal.isoweek (t_date txn) = w).
Proof.
  rewrite weekly_data_weeks. split; [apply sorted_ascending|]. apply weeks_of_spec.
Qed.

Lemma half_sum_val (field : WeekTotals -> pynum) (wt : WeeklyTotals) (ws : list Z) :
  (PyNum.val (half_sum field wt ws)
   == total (map (fun w => PyNum.val (field (week_get wt w))) ws))%Q.
Proof.
  unfold half_sum. rewrite val_sum, map_map. reflexivity.
Qed.

Lemma halves_total (field : WeekTotals -> pynum) (txns : list Txn) :
  (PyNum.val (half_sum field (weekly_totals_of txns) (first_half (weeks_of txns)))
   + PyNum.val (half_sum field (weekly_totals_of txns) (second_half (weeks_of txns)))
   == total (map (fun e => PyNum.val (field (snd e)))
                 (tr_weekly_data (analyze_trends txns))))%Q.
Proof.
  rewrite !half_sum_val, <- total_app, <- map_app.
  unfold first_half, second_half. rewrite take_drop.
  unfold analyze_trends. cbn [tr_weekly_data]. rewrite map_map. reflexivity.
Qed.

(** X13.  In exact arithmetic, nothing is lost in the weekly totals:
    the credits of all the weeks add up to the sum of the positive
    amounts, and the debits to the sum of the absolute values of the
    other amounts; the first-half and second-half sums that the trend
    compares add up to the same totals. *)
Theorem weekly_totals_conserve_amounts (txns : list Txn) :
  (total (map week_credits (tr_weekly_data (analyze_trends txns)))
   == total (map credit_part txns))%Q
  /\ (total (map week_debits (tr_weekly_data (analyze_trends txns)))
      == total (map debit_part txns))%Q
  /\ (PyNum.val (first_half_credits txns) + PyNum.val (second_half_credits txns)
      == total (map credit_part txns))%Q
  /\ (PyNum.val (first_half_debits txns) + PyNum.val (second_half_debits txns)
      == total (map debit_part txns))%Q.
Proof.
  destruct (fold_add_txn_totals txns []) as [C D]. simpl in C, D.
  fold (weekly_totals_of txns) in C, D.
  assert (Pc : (total (map week_credits (tr_weekly_data (analyze_trends txns)))
                == total (map credit_part txns))%Q).
  { rewrite (total_perm _ (map week_credits (weekly_totals_of txns)));
      [rewrite C; ring | apply Permutation_map, weekly_data_perm]. }
  assert (Pd : (total (map week_debits (tr_weekly_data (analyze_trends txns)))
                == total (map debit_part txns))%Q).
  { rewrite (total_perm _ (map week_debits (weekly_totals_of txns)));
      [rewrite D; ring | apply Permutation_map, weekly_data_perm]. }
  split; [exact Pc|]. split; [exact Pd|]. split.
  - unfold first_half_credits, second_half_credits.
    rewrite (halves_total w_credits txns). exact Pc.
  - unfold first_half_debits, second_half_debits.
    rewrite (halves_total w_debits txns). exact Pd.
Qed.

End WeeklyTotals.

(** ** Review operations *)

Section ReviewProperties.

(** A successful move in full: the store it leaves. *)
Lemma move_transactions_inv (st st' : Store) (company_id : string) (req : MoveRequest)
    (resp : MoveResponse) :
  move_transactions st company_id req = (st', Ok resp) ->
  exists (txns0 txns : list Txn) (gs0 gs : list Group),
    transactions st !! company_id = Some txns0
    /\ groups st !! company_id = Some gs0
    /\ move_loop (m_transaction_ids req) (move_target st company_id req) txns0
                 (groups_before_move st company_id req) 0
       = (txns, gs, m_moved resp)
    /\ companies st' = companies st
    /\ transactions st' = <[company_id := txns]> (transactions st)
    /\ groups st' = <[company_id := map (recalculate txns) gs]> (groups st).
Proof.
  unfold move_transactions, groups_before_move, move_target. intros H.
  destruct (truthy_str (m_new_group_name req)).
  - destruct (groups st !! company_id) as [gs0|] eqn:G; [|discriminate H].
    cbn [transactions groups with_groups default] in H |- *.
    rewrite lookup_insert_eq in H.
    destruct (transactions st !! company_id) as [txns0|]; [|discriminate H].
    match type of H with
    | context [move_loop ?a ?b ?c ?d ?e] =>
        destruct (move_loop a b c d e) as [[txns gs] moved] eqn:L
    end.
    injection H as <- <-.
    exists txns0, txns, gs0, gs.
    cbn [companies transactions groups with_groups with_transactions m_moved].
    rewrite insert_insert_eq. auto 10.
  - destruct (transactions st !! company_id) as [txns0|]; [|discriminate H].
    destruct (groups st !! company_id) as [gs0|] eqn:G.
    + match type of H with
      | context [move_loop ?a ?b ?c ?d ?e] =>
          destruct (move_loop a b c d e) as [[txns gs] moved] eqn:L
      end.
      injection H as <- <-.
      exists txns0, txns, gs0, gs.
      cbn [companies transactions groups with_groups with_transactions m_moved].
      auto 10.
    + destruct (mark_first (m_transaction_ids req) (m_target_group_id req) txns0);
        discriminate H.
Qed.

(** The transactions the loop leaves, and its counter. *)
Lemma move_loop_transactions (txn_ids : list Z) (target : option string)
    (txns : list Txn) :
  forall (gs : list Group) (moved : Z),
    fst (fst (move_loop txn_ids target txns gs moved)) = map (moved_txn txn_ids target) txns
    /\ snd (move_loop txn_ids target txns gs moved)
       = moved + Z.of_nat (length (List.filter (fun t => mem_Z (t_id t) txn_ids) txns)).
Proof.
  induction txns as [|t rest IH]; intros gs moved; simpl; [split; [reflexivity | lia]|].
  unfold moved_txn at 1. destruct (mem_Z (t_id t) txn_ids).
  - match goal with
    | |- context [move_loop txn_ids target rest ?g ?m] =>
        destruct (IH g m) as [T M]; destruct (move_loop txn_ids target rest g m)
          as [[rest' gs'] moved']
    end.
    simpl in *. subst. split; [reflexivity | lia].
  - destruct (IH gs moved) as [T M].
    destruct (move_loop txn_ids target rest gs moved) as [[rest' gs'] moved'].
    simpl in *. subst. split; [reflexivity | lia].
Qed.

(** X14.  A successful move gives the target group id to exactly the
    stored transactions whose id is in the request, and leaves every
    other transaction, and every field but the group id, as it was;
    the count it reports is the number of those transactions.  The
    companies are not touched. *)
Theorem move_reassigns_the_requested (st st' : Store) (company_id : string)
    (req : MoveRequest) (resp : MoveResponse) :
  move_transactions st company_id req = (st', Ok resp) ->
  exists txns0 : list Txn,
    transactions st !! company_id = Some txns0
    /\ transactions st' !! company_id
       = Some (map (moved_txn (m_transaction_ids req) (move_target st company_id req)) txns0)
    /\ m_moved resp
       = Z.of_nat (length (List.filter (fun t => mem_Z (t_id t) (m_transaction_ids req))
                                       txns0))
    /\ companies st' = companies st
    /\ (forall other, other <> company_id ->
          transactions st' !! other = transactions st !! other
          /\ groups st' !! other = groups st !! other).
Proof.
  intros H.
  destruct (move_transactions_inv st st' company_id req resp H)
    as (txns0 & txns & gs0 & gs & Ht & Hg & L & Ec & Et & Eg).
  destruct (move_loop_transactions (m_transaction_ids req)
              (move_target st company_id req) txns0
              (groups_before_move st company_id req) 0) as [T M].
  rewrite L in T, M. cbn [fst snd] in T, M.
  exists txns0. split; [exact Ht|].
  split; [rewrite Et, lookup_insert_eq, T; reflexivity|].
  split; [rewrite M; lia|]. split; [exact Ec|].
  intros other Hne. rewrite Et, Eg. split; apply lookup_insert_ne; congruence.
Qed.

Lemma move_reassigns_the_requested_witness :
  exists st' : Store,
    move_transactions review_store "acme" move_third_to_new
    = (st', Ok (mkMoveResponse true 1))
    /\ map t_group_id (default [] (transactions st' !! "acme"))
       = [Some "grp_1"; Some "grp_1"; Some "grp_3"].
Proof.
  destruct (move_transactions review_store "acme" move_third_to_new) as [st' out] eqn:E.
  assert (O : out = Ok (mkMoveResponse true 1)).
  { apply (f_equal snd) in E. simpl in E. rewrite <- E. vm_compute. reflexivity. }
  subst out. exists st'. split; [reflexivity|].
  destruct (move_reassigns_the_requested review_store st' "acme" move_third_to_new _ E)
    as (txns0 & T0 & T & _).
  rewrite T. vm_compute in T0. injection T0 as <-. reflexivity.
Defined.

(** *** Counts and member lists *)

Lemma remove_first_length (x : Z) (l : list Z) :
  mem_Z x l = true -> length l = S (length (remove_first x l)).
Proof.
  unfold mem_Z. induction l as [|y r IH]; simpl; [discriminate|].
  destruct (y =? x) eqn:E; [reflexivity|].
  rewrite (Z.eqb_sym x y), E. simpl. intros H. rewrite (IH H). reflexivity.
Qed.

Lemma alter_forall {A : Type} (P : A -> Prop) (f : A -> A) (i : nat) (l : list A) :
  (forall x, l !! i = Some x -> P x -> P (f x)) ->
  Forall P l -> Forall P (alter f i l).
Proof.
  revert i. induction l as [|x l IH]; intros i Hf H; [exact H|].
  inversion H as [|? ? Hx Hl]; subst.
  destruct i as [|i]; simpl.
  - constructor; [apply Hf; [reflexivity | exact Hx] | exact Hl].
  - constructor; [exact Hx|]. apply IH; [|exact Hl].
    intros y Hy. apply Hf. exact Hy.
Qed.

Lemma update_old_group_counted (old : option string) (tid : Z) (gs : list Group) :
  Forall counted gs -> Forall counted (update_old_group old tid gs).
Proof.
  intros H. unfold update_old_group.
  destruct (truthy_str old); [|exact H].
  destruct (find_group gs old) as [i|]; [|exact H].
  destruct (gs !! i) as [g|] eqn:G; [|exact H].
  destruct (mem_Z tid (g_transaction_ids g)) eqn:M; [|exact H].
  apply alter_forall; [|exact H].
  intros x Hx C. assert (x = g) as -> by congruence.
  unfold counted in *. cbn [drop_member g_transaction_count g_transaction_ids].
  rewrite C, (remove_first_length tid _ M). lia.
Qed.

Lemma update_new_group_counted (target : option string) (tid : Z) (gs : list Group) :
  Forall counted gs -> Forall counted (update_new_group target tid gs).
Proof.
  intros H. unfold update_new_group.
  destruct (find_group gs target) as [j|]; [|exact H].
  apply alter_forall; [|exact H].
  intros x _ C. unfold counted in *.
  cbn [add_member g_transaction_count g_transaction_ids].
  rewrite C, length_app. simpl. lia.
Qed.

Lemma move_loop_counted (txn_ids : list Z) (target : option string) (txns : list Txn) :
  forall (gs : list Group) (moved : Z),
    Forall counted gs ->
    Forall counted (snd (fst (move_loop txn_ids target txns gs moved))).
Proof.
  induction txns as [|t rest IH]; intros gs moved H; simpl; [exact H|].
  destruct (mem_Z (t_id t) txn_ids).
  - match goal with
    | |- context [move_loop txn_ids target rest ?g ?m] =>
        pose proof (IH g m) as C; destruct (move_loop txn_ids target rest g m)
          as [[rest' gs'] moved']
    end.
    simpl in *. apply C, update_new_group_counted, update_old_group_counted, H.
  - pose proof (IH gs moved H) as C.
    destruct (move_loop txn_ids target rest gs moved) as [[rest' gs'] moved'].
    exact C.
Qed.

Lemma recalculate_counted (txns : list Txn) (g : Group) :
  counted g -> counted (recalculate txns g).
Proof.
  unfold recalculate. destruct (assigned_to txns g); intros H; exact H.
Qed.

(** X15.  A move keeps the count of every group equal to the length of
    its member list: a member id is taken off the old group, and its
    count lowered, only when the id is in that list, and the target
    group gets the id and one more count together. *)
Theorem move_keeps_counts (st st' : Store) (company_id : string)
    (req : MoveRequest) (resp : MoveResponse) (gs0 : list Group) :
  move_transactions st company_id req = (st', Ok resp) ->
  groups st !! company_id = Some gs0 ->
  Forall counted gs0 ->
  exists gs : list Group,
    groups st' !! company_id = Some gs /\ Forall counted gs.
Proof.
  intros H Hg C.
  destruct (move_transactions_inv st st' company_id req resp H)
    as (txns0 & txns & gs0' & gs & _ & _ & L & _ & _ & Eg).
  exists (map (recalculate txns) gs). split; [rewrite Eg; apply lookup_insert_eq|].
  assert (B : Forall counted (groups_before_move st company_id req)).
  { unfold groups_before_move. rewrite Hg.
    destruct (truthy_str (m_new_group_name req)); [|exact C].
    apply Forall_app. split; [exact C|]. constructor; [reflexivity | constructor]. }
  pose proof (move_loop_counted (m_transaction_ids req) (move_target st company_id req)
                txns0 _ 0 B) as M.
  rewrite L in M. cbn [fst snd] in M.
  rewrite List.Forall_forall in M. apply List.Forall_forall.
  intros g Hin. apply in_map_iff in Hin. destruct Hin as (g1 & <- & Hin).
  apply recalculate_counted, M, Hin.
Qed.

Lemma move_keeps_counts_witness :
  exists (st' : Store) (gs : list Group),
    move_transactions review_store "acme" move_all_to_second
    = (st', Ok (mkMoveResponse true 2))
    /\ groups st' !! "acme" = Some gs
    /\ Forall counted gs.
Proof.
  destruct (move_transactions review_store "acme" move_all_to_second) as [st' out] eqn:E.
  assert (O : out = Ok (mkMoveResponse true 2)).
  { apply (f_equal snd) in E. simpl in E. rewrite <- E. vm_compute. reflexivity. }
  subst out.
  destruct (move_keeps_counts review_store st' "acme" move_all_to_second _
              (default [] (groups review_store !! "acme")) E) as (gs & G & C).
  - reflexivity.
  - repeat constructor.
  - exists st', gs. auto.
Defined.

(** *** What a move leaves alone *)

Lemma update_old_group_keeps {B : Type} (p : Group -> B) (old : option string) (tid : Z)
    (gs : list Group) :
  (forall g, p (drop_member tid g) = p g) ->
  map p (update_old_group old tid gs) = map p gs.
Proof.
  intros Hp. unfold update_old_group.
  destruct (truthy_str old); [|reflexivity].
  destruct (find_group gs old) as [i|]; [|reflexivity].
  destruct (gs !! i) as [g|]; [|reflexivity].
  destruct (mem_Z tid (g_transaction_ids g)); [|reflexivity].
  apply alter_keeps, Hp.
Qed.

Lemma update_new_group_keeps {B : Type} (p : Group -> B) (target : option string) (tid : Z)
    (gs : list Group) :
  (forall g, p (add_member tid g) = p g) ->
  map p (update_new_group target tid gs) = map p gs.
Proof.
  intros Hp. unfold update_new_group.
  destruct (find_group gs target) as [j|]; [|reflexivity].
  apply alter_keeps, Hp.
Qed.

Lemma move_loop_profiles (txn_ids : list Z) (target : option string) (txns : list Txn) :
  forall (gs : list Group) (moved : Z),
    map profile (snd (fst (move_loop txn_ids target txns gs moved))) = map profile gs.
Proof.
  induction txns as [|t rest IH]; intros gs moved; simpl; [reflexivity|].
  destruct (mem_Z (t_id t) txn_ids).
  - specialize (IH (update_new_group target (t_id t)
                      (update_old_group (t_group_id t) (t_id t) gs)) (moved + 1)).
    destruct (move_loop txn_ids target rest _ (moved + 1)) as [[rest' gs'] moved'].
    simpl in *. rewrite IH, update_new_group_keeps, update_old_group_keeps; reflexivity.
  - specialize (IH gs moved).
    destruct (move_loop txn_ids target rest gs moved) as [[rest' gs'] moved'].
    exact IH.
Qed.

Lemma recalculate_profile (txns : list Txn) (g : Group) :
  profile (recalculate txns g) = profile g.
Proof. unfold recalculate. destruct (assigned_to txns g); reflexivity. Qed.

(** X16.  A move changes member lists, counts and averages only: the
    groups it leaves are the groups it found, followed by the new group
    when the request names one, with the same ids, names, categories,
    frequencies and confirmation flags, in the same order.  In
    particular a move never confirms a group and never removes one. *)
Theorem move_keeps_group_profiles (st st' : Store) (company_id : string)
    (req : MoveRequest) (resp : MoveResponse) :
  move_transactions st company_id req = (st', Ok resp) ->
  exists gs : list Group,
    groups st' !! company_id = Some gs
    /\ map profile gs = map profile (groups_before_move st company_id req).
Proof.
  intros H.
  destruct (move_transactions_inv st st' company_id req resp H)
    as (txns0 & txns & gs0 & gs & _ & _ & L & _ & _ & Eg).
  exists (map (recalculate txns) gs). split; [rewrite Eg; apply lookup_insert_eq|].
  pose proof (move_loop_profiles (m_transaction_ids req) (move_target st company_id req)
                txns0 (groups_before_move st company_id req) 0) as M.
  rewrite L in M. cbn [fst snd] in M. rewrite <- M, map_map.
  apply map_ext. intros g. apply recalculate_profile.
Qed.

Lemma move_keeps_group_profiles_witness :
  exists (st' : Store) (gs : list Group),
    move_transactions review_store "acme" move_third_to_new
    = (st', Ok (mkMoveResponse true 1))
    /\ groups st' !! "acme" = Some gs
    /\ map profile gs
       = [ ("grp_1", "Group 1", "unassigned", "daily", false);
           ("grp_2", "Group 2", "unassigned", "uncommon", false);
           ("grp_3", "Bakery", "daily_ops", "varies", false) ].
Proof.
  destruct (move_transactions review_store "acme" move_third_to_new) as [st' out] eqn:E.
  assert (O : out = Ok (mkMoveResponse true 1)).
  { apply (f_equal snd) in E. simpl in E. rewrite <- E. vm_compute. reflexivity. }
  subst out.
  destruct (move_keeps_group_profiles review_store st' "acme" move_third_to_new _ E)
    as (gs & G & P).
  exists st', gs. split; [reflexivity|]. split; [exact G|]. rewrite P. reflexivity.
Defined.

(** *** Group update *)

Lemma find_group_some (gs : list Group) (gid : option string) (i : nat) :
  find_group gs gid = Some i ->
  exists g, gs !! i = Some g /\ Some (g_id g) = gid.
Proof.
  revert i. induction gs as [|g rest IH]; intros i H; [discriminate H|].
  simpl in H. destruct (bool_decide (Some (g_id g) = gid)) eqn:D.
  - injection H as <-. apply bool_decide_eq_true in D. exists g. split; [reflexivity | exact D].
  - destruct (find_group rest gid) as [j|]; [|discriminate H].
    injection H as <-. destruct (IH j eq_refl) as (g' & L & E). exists g'. auto.
Qed.

Lemma alter_lookup {A : Type} (f : A -> A) (i : nat) (l : list A) (x : A) :
  l !! i = Some x -> In (f x) (alter f i l).
Proof.
  revert i. induction l as [|y l IH]; intros i H; [discriminate H|].
  destruct i as [|i]; simpl in *.
  - injection H as ->. left. reflexivity.
  - right. apply IH, H.
Qed.

(** X17.  A group update rewrites the name, the category, the frequency
    and the confirmation flag the request carries, on the first group
    that has the id, and nothing else: the ids, averages, counts and
    member lists of all groups, the transactions and the companies stay
    as they were.  An id that no group has is answered with the HTTP
    error 404 and leaves the store unchanged. *)
Theorem update_group_changes_labels_only (st : Store) (company_id group_id : string)
    (req : UpdateRequest) (gs : list Group) :
  groups st !! company_id = Some gs ->
  (find_group gs (Some group_id) = None ->
   update_group st company_id group_id req = (st, HTTPException 404 "Group not found"))
  /\ (forall i, find_group gs (Some group_id) = Some i ->
        exists g st',
          gs !! i = Some g
          /\ g_id g = group_id
          /\ update_group st company_id group_id req = (st', Ok (apply_update req g))
          /\ companies st' = companies st
          /\ transactions st' = transactions st
          /\ groups st' = <[company_id := alter (apply_update req) i gs]> (groups st)
          /\ In (apply_update req g) (alter (apply_update req) i gs)
          /\ map membership (alter (apply_update req) i gs) = map membership gs
          /\ g_name (apply_update req g) = default (g_name g) (u_name req)
          /\ g_category_id (apply_update req g) = default (g_category_id g) (u_category_id req)
          /\ g_frequency (apply_update req g) = default (g_frequency g) (u_frequency req)
          /\ g_confirmed (apply_update req g) = default (g_confirmed g) (u_confirmed req)).
Proof.
  intros Hg. unfold update_group. rewrite Hg. split.
  - intros ->. reflexivity.
  - intros i F. rewrite F. destruct (find_group_some gs _ i F) as (g & L & E).
    rewrite L. injection E as E. eexists g, _.
    split; [reflexivity|]. split; [exact E|]. split; [reflexivity|].
    cbn [companies transactions groups with_groups].
    repeat (split; [reflexivity|]).
    split; [apply alter_lookup, L|].
    split; [apply alter_keeps; reflexivity|].
    repeat split.
Qed.

Lemma update_group_changes_labels_only_witness :
  exists st' : Store,
    update_group review_store "acme" "grp_2"
      (mkUpdateRequest (Some "Bakery") None (Some "weekly") (Some true))
    = (st', Ok (mkGroup "grp_2" "Bakery" "unassigned" "weekly" (PyFloat (-10)) 1 [3] true))
    /\ transactions st' = transactions review_store
    /\ update_group review_store "acme" "grp_9"
         (mkUpdateRequest None None None (Some true))
       = (review_store, HTTPException 404 "Group not found").
Proof.
  assert (G : groups review_store !! "acme"
              = Some (default [] (groups review_store !! "acme"))) by reflexivity.
  destruct (update_group_changes_labels_only review_store "acme" "grp_2"
              (mkUpdateRequest (Some "Bakery") None (Some "weekly") (Some true)) _ G)
    as [_ U].
  destruct (U 1%nat) as (g & st' & L & _ & E & _ & T & _); [reflexivity|].
  assert (g = mkGroup "grp_2" "Group 2" "unassigned" "uncommon" (PyFloat (-10)) 1 [3] false)
    as ->.
  { vm_compute in L. injection L as <-. reflexivity. }
  destruct (update_group_changes_labels_only review_store "acme" "grp_9"
              (mkUpdateRequest None None None (Some true)) _ G) as [N _].
  exists st'. split; [exact E|]. split; [exact T|]. apply N. reflexivity.
Defined.

End ReviewProperties.

(** ** The grouping *)

Section AlterAll.

Context {A : Type}.
Variable f : A -> A.

Lemma filter_alter_same (Q : A -> bool) (i : nat) (l : list A) :
  (forall x, l !! i = Some x -> Q x = false /\ Q (f x) = false) ->
  List.filter Q (alter f i l) = List.filter Q l.
Proof.
  revert i. induction l as [|y l IH]; intros i H; [reflexivity|].
  destruct i as [|i].
  - change (alter f 0%nat (y :: l)) with (f y :: l). cbn [List.filter].
    destruct (H y eq_refl) as [-> ->]. reflexivity.
  - change (alter f (S i) (y :: l)) with (y :: alter f i l). cbn [List.filter].
    rewrite (IH i); [reflexivity|]. intros x Hx. apply H. exact Hx.
Qed.

Lemma filter_alter_new (P : A -> bool) (i : nat) (l : list A) (x : A) :
  l !! i = Some x -> P x = false -> P (f x) = true ->
  Permutation (List.filter P (alter f i l)) (f x :: List.filter P l).
Proof.
  revert i. induction l as [|y l IH]; intros i H Px Pfx; [discriminate H|].
  destruct i as [|i].
  - change (alter f 0%nat (y :: l)) with (f y :: l). cbn [List.filter].
    injection H as ->. rewrite Px, Pfx. reflexivity.
  - change (alter f (S i) (y :: l)) with (y :: alter f i l). cbn [List.filter].
    change ((y :: l) !! S i) with (l !! i) in H.
    destruct (P y).
    + rewrite (IH i H Px Pfx). apply perm_swap.
    + apply IH; assumption.
Qed.

Lemma alter_all_lookup_other (idxs : list nat) (l : list A) (j : nat) :
  ~ In j idxs -> alter_all f idxs l !! j = l !! j.
Proof.
  unfold alter_all. revert l. induction idxs as [|i r IH]; intros l H; [reflexivity|].
  simpl. rewrite IH; [|intros C; apply H; right; exact C].
  apply list_lookup_alter_ne. intros ->. apply H. left. reflexivity.
Qed.

Lemma alter_all_length (idxs : list nat) (l : list A) :
  length (alter_all f idxs l) = length l.
Proof.
  unfold alter_all. revert l. induction idxs as [|i r IH]; intros l; [reflexivity|].
  simpl. rewrite IH. apply length_alter.
Qed.

Lemma alter_all_keeps {B : Type} (p : A -> B) (idxs : list nat) (l : list A) :
  (forall x, p (f x) = p x) -> map p (alter_all f idxs l) = map p l.
Proof.
  intros H. unfold alter_all. revert l.
  induction idxs as [|i r IH]; intros l; [reflexivity|].
  simpl. rewrite IH. apply alter_keeps, H.
Qed.

Lemma alter_all_filter_same (Q : A -> bool) (idxs : list nat) (l : list A) :
  (forall x, Q x = false -> Q (f x) = false) ->
  (forall i x, In i idxs -> l !! i = Some x -> Q x = false) ->
  List.filter Q (alter_all f idxs l) = List.filter Q l.
Proof.
  intros Hf. unfold alter_all. revert l.
  induction idxs as [|i r IH]; intros l H; [reflexivity|].
  simpl. rewrite IH.
  - apply filter_alter_same. intros x Hx.
    pose proof (H i x (or_introl eq_refl) Hx) as Qx. split; [exact Qx | apply Hf, Qx].
  - intros j y Hj Hy. rewrite list_lookup_alter in Hy.
    destruct (decide (i = j)) as [<- | Hne].
    + destruct (l !! i) as [x|] eqn:E; [|discriminate Hy].
      simpl in Hy. injection Hy as <-. apply Hf, (H i x); [left; reflexivity | exact E].
    + apply (H j y); [right; exact Hj | exact Hy].
Qed.

Lemma omap_lookup_alter (i : nat) (r : list nat) (l : list A) :
  ~ In i r -> omap (fun j => alter f i l !! j) r = omap (fun j => l !! j) r.
Proof.
  induction r as [|j r IH]; intros H; [reflexivity|].
  assert (E : alter f i l !! j = l !! j).
  { apply list_lookup_alter_ne. intros ->. apply H. left. reflexivity. }
  change (omap (fun j => alter f i l !! j) (j :: r))
    with (match alter f i l !! j with
          | Some x => x :: omap (fun j => alter f i l !! j) r
          | None => omap (fun j => alter f i l !! j) r
          end).
  change (omap (fun j => l !! j) (j :: r))
    with (match l !! j with
          | Some x => x :: omap (fun j => l !! j) r
          | None => omap (fun j => l !! j) r
          end).
  rewrite E, IH; [reflexivity|]. intros C. apply H. right. exact C.
Qed.

Lemma alter_all_filter_new (P : A -> bool) (idxs : list nat) (l : list A) :
  List.NoDup idxs ->
  (forall i, In i idxs -> exists x, l !! i = Some x /\ P x = false) ->
  (forall x, P (f x) = true) ->
  Permutation (List.filter P (alter_all f idxs l))
              (map f (omap (fun i => l !! i) idxs) ++ List.filter P l).
Proof.
  intros N H Pf. unfold alter_all. revert l H.
  induction N as [|i r Hnotin N IH]; intros l H; [reflexivity|].
  destruct (H i (or_introl eq_refl)) as (x & Hx & Px).
  cbn [fold_left]. rewrite IH.
  - rewrite (omap_lookup_alter i r l Hnotin).
    rewrite (filter_alter_new P i l x Hx Px (Pf x)).
    cbn [omap list_omap]. rewrite Hx. cbn [map app].
    symmetry. apply Permutation_middle.
  - intros j Hj. destruct (H j (or_intror Hj)) as (y & Hy & Py).
    exists y. split; [|exact Py].
    rewrite list_lookup_alter_ne; [exact Hy|]. intros ->. contradiction.
Qed.

Lemma alter_in (i : nat) (l : list A) (t : A) :
  In t (alter f i l) -> In t l \/ exists x, In x l /\ t = f x.
Proof.
  revert i. induction l as [|y l IH]; intros i H; [destruct H|].
  destruct i as [|i]; simpl in H.
  - destruct H as [<- | H]; [right; exists y; split; [left|]; reflexivity|].
    left. right. exact H.
  - destruct H as [<- | H]; [left; left; reflexivity|].
    destruct (IH i H) as [Hl | (x & Hx & ->)]; [left; right; exact Hl|].
    right. exists x. split; [right; exact Hx | reflexivity].
Qed.

Lemma alter_all_in (idxs : list nat) (l : list A) (t : A) :
  (forall x, f (f x) = f x) ->
  In t (alter_all f idxs l) -> In t l \/ exists x, In x l /\ t = f x.
Proof.
  intros Hf. unfold alter_all. revert l.
  induction idxs as [|i r IH]; intros l H; [left; exact H|].
  simpl in H. destruct (IH _ H) as [H1 | (y & Hy & ->)].
  - apply (alter_in i l t H1).
  - destruct (alter_in i l y Hy) as [Hl | (x & Hx & ->)].
    + right. exists y. auto.
    + right. exists x. rewrite Hf. auto.
Qed.

End AlterAll.

Section GroupingInvariant.

Lemma to_uint_nonnil (n : nat) : Nat.to_uint n <> Decimal.Nil.
Proof.
  rewrite DecimalNat.Unsigned.to_uint_alt. intros H.
  apply DecimalFacts.rev_nil_inv in H.
  destruct n as [|n]; simpl in H; [discriminate H|].
  destruct (DecimalNat.Unsigned.to_lu n); discriminate H.
Qed.

Lemma of_nat_inj (a b : nat) : PyStr.of_nat a = PyStr.of_nat b -> a = b.
Proof.
  unfold PyStr.of_nat. intros H. apply DecimalNat.Unsigned.to_uint_inj.
  assert (E : Some (Nat.to_uint a) = Some (Nat.to_uint b)).
  { rewrite <- (NilZero.usu (Nat.to_uint a)) by apply to_uint_nonnil.
    rewrite <- (NilZero.usu (Nat.to_uint b)) by apply to_uint_nonnil.
    rewrite H. reflexivity. }
  injection E as E. exact E.
Qed.

(** Different numbers give different group ids. *)
Lemma group_name_inj (a b : nat) : group_name_of a = group_name_of b -> a = b.
Proof.
  unfold group_name_of. intros H. apply of_nat_inj.
  exact (String.app_inj "grp_" _ _ H).
Qed.

Lemma numbered_group (gs : list Group) (g : Group) :
  map g_id gs = map group_name_of (seq 1 (length gs)) ->
  In g gs ->
  exists k, (1 <= k <= length gs)%nat /\ g_id g = group_name_of k.
Proof.
  intros Hids Hin.
  assert (In (g_id g) (map group_name_of (seq 1 (length gs)))) as H.
  { rewrite <- Hids. apply in_map, Hin. }
  apply in_map_iff in H. destruct H as (k & E & Hk). apply in_seq in Hk.
  exists k. split; [lia | symmetry; exact E].
Qed.

Lemma filter_none {A : Type} (P : A -> bool) (l : list A) :
  (forall x, In x l -> P x = false) -> List.filter P l = [].
Proof.
  induction l as [|x l IH]; intros H; [reflexivity|].
  simpl. rewrite (H x (or_introl eq_refl)). apply IH.
  intros y Hy. apply H. right. exact Hy.
Qed.

Lemma exact_mean_perm (xs ys : list Q) :
  Permutation xs ys -> (exact_mean xs == exact_mean ys)%Q.
Proof.
  intros P. unfold exact_mean.
  rewrite (total_perm xs ys P), (Permutation_length P). reflexivity.
Qed.

Lemma member_total_snoc (gs : list Group) (g : Group) :
  member_total (gs ++ [g]) = (member_total gs + length (g_transaction_ids g))%nat.
Proof.
  unfold member_total. rewrite map_app, list_sum_app. simpl. lia.
Qed.

(** One bucket of two members or more, all of them without a group:
    the new group and the transactions it marks keep the references
    matched. *)
Lemma materialize_ok (store : list Txn) (gs : list Group) (key : BucketKey)
    (idxs : list nat) :
  grouping_ok store gs ->
  List.NoDup idxs ->
  (forall i, In i idxs -> exists t, store !! i = Some t /\ t_group_id t = None) ->
  grouping_ok (fst (materialize (store, gs) (key, idxs)))
              (snd (materialize (store, gs) (key, idxs))).
Proof.
  intros OK N Hidx. unfold materialize. cbn [snd].
  set (members := members_of store idxs).
  destruct (2 <=? length members)%nat eqn:E; [|exact OK].
  apply Nat.leb_le in E.
  set (gid := ("grp_" ++ PyStr.of_nat (length gs + 1))%string).
  cbn [fst snd].
  match goal with |- grouping_ok _ (gs ++ [?g]) => set (grp := g) end.
  set (store' := alter_all (set_group (Some gid)) idxs store).
  change (grouping_ok store' (gs ++ [grp])).
  destruct OK as [Hids Hmem Havg Hshape Hrefs Hpart].
  assert (Egid : gid = group_name_of (length gs + 1)) by reflexivity.
  assert (Fresh : forall t, In t store -> t_group_id t <> Some gid).
  { intros t Ht C. destruct (Hrefs t gid Ht C) as (g & Hg & Eg).
    destruct (numbered_group gs g Hids Hg) as (k & Hk & Ek).
    assert (k = (length gs + 1)%nat) by (apply group_name_inj; congruence). lia. }
  assert (Old : forall g, In g gs -> assigned_to store' g = assigned_to store g).
  { intros g Hg. unfold assigned_to, store'.
    destruct (numbered_group gs g Hids Hg) as (k & Hk & Ek).
    assert (Hne : g_id g <> gid).
    { intros C. assert (k = (length gs + 1)%nat) by (apply group_name_inj; congruence).
      lia. }
    apply alter_all_filter_same.
    - intros x _. apply bool_decide_eq_false. simpl. congruence.
    - intros i x Hi Hx. destruct (Hidx i Hi) as (t & Ht & Hnone).
      apply bool_decide_eq_false. assert (x = t) as -> by congruence.
      rewrite Hnone. discriminate. }
  assert (New : Permutation (assigned_to store' grp) (map (set_group (Some gid)) members)).
  { unfold assigned_to, store'. cbn [g_id grp].
    rewrite (alter_all_filter_new (set_group (Some gid))
               (fun t => bool_decide (t_group_id t = Some gid)) idxs store N).
    - rewrite (filter_none _ store), app_nil_r; [reflexivity|].
      intros x Hx. apply bool_decide_eq_false, Fresh, Hx.
    - intros i Hi. destruct (Hidx i Hi) as (t & Ht & Hnone).
      exists t. split; [exact Ht|]. apply bool_decide_eq_false. rewrite Hnone. discriminate.
    - intros x. apply bool_decide_eq_true. reflexivity. }
  constructor.
  - rewrite map_app, length_app. cbn [length map g_id grp].
    rewrite seq_app, map_app, Hids. cbn [seq map]. rewrite Egid.
    replace (1 + length gs)%nat with (length gs + 1)%nat by lia. reflexivity.
  - intros g Hg. apply in_app_or in Hg. destruct Hg as [Hg | [<- | []]].
    + rewrite (Old g Hg). apply Hmem, Hg.
    + rewrite New. cbn [g_transaction_ids grp]. rewrite map_map. reflexivity.
  - intros g Hg. apply in_app_or in Hg. destruct Hg as [Hg | [<- | []]].
    + rewrite (Old g Hg). apply Havg, Hg.
    + cbn [g_avg_amount grp]. rewrite recalculated_average.
      apply exact_mean_perm. unfold signed_amounts.
      rewrite New, map_map. reflexivity.
  - intros g Hg. apply in_app_or in Hg. destruct Hg as [Hg | [<- | []]].
    + apply Hshape, Hg.
    + unfold counted. cbn [g_transaction_count g_transaction_ids g_confirmed grp].
      rewrite length_map. auto.
  - intros t g' Ht Hgid.
    destruct (alter_all_in (set_group (Some gid)) idxs store t (fun x => eq_refl) Ht)
      as [Hs | (x & Hx & ->)].
    + destruct (Hrefs t g' Hs Hgid) as (g & Hg & Eg).
      exists g. split; [apply in_or_app; left; exact Hg | exact Eg].
    + exists grp. split; [apply in_or_app; right; left; reflexivity|].
      simpl in Hgid. injection Hgid as <-. reflexivity.
  - rewrite member_total_snoc. cbn [g_transaction_ids grp]. rewrite length_map.
    assert (P : Permutation (List.filter has_group store')
                  (map (set_group (Some gid)) members ++ List.filter has_group store)).
    { apply (alter_all_filter_new (set_group (Some gid)) has_group idxs store N).
      - intros i Hi. destruct (Hidx i Hi) as (t & Ht & Hnone).
        exists t. split; [exact Ht|]. unfold has_group. rewrite Hnone. reflexivity.
      - intros x. reflexivity. }
    rewrite (Permutation_length P), length_app, length_map, Hpart. lia.
Qed.

Lemma materialize_other (store : list Txn) (gs : list Group) (key : BucketKey)
    (idxs : list nat) (j : nat) :
  ~ In j idxs -> fst (materialize (store, gs) (key, idxs)) !! j = store !! j.
Proof.
  intros H. unfold materialize. cbn [snd].
  destruct (2 <=? length (members_of store idxs))%nat; [|reflexivity].
  cbn [fst]. apply (alter_all_lookup_other _ idxs store j H).
Qed.

Lemma nodup_app_disjoint {A : Type} (l k : list A) :
  List.NoDup (l ++ k) -> forall x, In x l -> ~ In x k.
Proof.
  induction l as [|y l IH]; intros N x Hx; [destruct Hx|].
  simpl in N. inversion N as [|? ? Hnotin N']; subst.
  destruct Hx as [<- | Hx].
  - intros C. apply Hnotin, in_or_app. right. exact C.
  - apply IH; assumption.
Qed.

Lemma materialize_all_ok (buckets : Buckets) :
  forall (store : list Txn) (gs : list Group),
    grouping_ok store gs ->
    List.NoDup (concat (map snd buckets)) ->
    (forall i, In i (concat (map snd buckets)) ->
               exists t, store !! i = Some t /\ t_group_id t = None) ->
    grouping_ok (fst (fold_left materialize buckets (store, gs)))
                (snd (fold_left materialize buckets (store, gs))).
Proof.
  induction buckets as [|[key idxs] rest IH]; intros store gs OK N Hidx; [exact OK|].
  cbn [fold_left]. cbn [map concat snd] in N, Hidx.
  pose proof (NoDup_app_remove_r _ _ N) as N1.
  pose proof (NoDup_app_remove_l _ _ N) as N2.
  pose proof (nodup_app_disjoint _ _ N) as Ndis.
  pose proof (materialize_ok store gs key idxs OK N1
                (fun i Hi => Hidx i (in_or_app _ _ _ (or_introl Hi)))) as OK1.
  pose proof (materialize_other store gs key idxs) as Oth.
  destruct (materialize (store, gs) (key, idxs)) as [store1 gs1].
  apply IH; [exact OK1 | exact N2 |].
  intros i Hi. cbn [fst] in Oth. rewrite Oth.
  - apply Hidx, in_or_app. right. exact Hi.
  - intros C. exact (Ndis i C Hi).
Qed.

End GroupingInvariant.

Section GroupingProperties.

Lemma classify_keeps (t : Txn) :
  core (fst (classify t)) = core t /\ t_group_id (fst (classify t)) = t_group_id t.
Proof.
  unfold classify.
  destruct (match_rule patterns (PyStr.upper (t_description t))) as [[cat_id cat_name]|];
    split; reflexivity.
Qed.

Lemma bucket_append_members (key : BucketKey) (i : nat) (b : Buckets) :
  Permutation (concat (map snd (bucket_append key i b))) (concat (map snd b) ++ [i]).
Proof.
  induction b as [|[k members] rest IH]; simpl; [reflexivity|].
  destruct (key_eqb key k); simpl.
  - rewrite <- !app_assoc. apply Permutation_app_head, Permutation_app_comm.
  - rewrite IH, app_assoc. reflexivity.
Qed.

Lemma classify_all_spec (txns : list Txn) :
  forall (i : nat) (b : Buckets),
    fst (classify_all i txns b) = map (fun t => fst (classify t)) txns
    /\ Permutation (concat (map snd (snd (classify_all i txns b))))
                   (concat (map snd b) ++ seq i (length txns)).
Proof.
  induction txns as [|t rest IH]; intros i b; simpl.
  - rewrite app_nil_r. split; reflexivity.
  - destruct (classify t) as [t' key] eqn:C.
    destruct (IH (S i) (bucket_append key i b)) as [Sf P].
    destruct (classify_all (S i) rest (bucket_append key i b)) as [rest' b'].
    simpl in *. subst rest'. split; [reflexivity|].
    rewrite P, bucket_append_members, <- app_assoc. reflexivity.
Qed.

(** The grouping of transactions that have no group leaves every
    reference matched. *)
Lemma auto_categorize_ok (txns : list Txn) :
  ungrouped txns ->
  grouping_ok (fst (auto_categorize_transactions txns))
              (snd (auto_categorize_transactions txns)).
Proof.
  intros U. unfold auto_categorize_transactions.
  destruct (classify_all_spec txns 0 []) as [Sf P].
  destruct (classify_all 0 txns []) as [store buckets]. cbn [fst snd] in Sf, P.
  simpl in P.
  assert (None_store : forall t, In t store -> t_group_id t = None).
  { intros t Ht. subst store. apply in_map_iff in Ht. destruct Ht as (t0 & <- & Ht0).
    rewrite (proj2 (classify_keeps t0)).
    unfold ungrouped in U. rewrite List.Forall_forall in U. apply U, Ht0. }
  apply materialize_all_ok.
  - constructor.
    + reflexivity.
    + intros g [].
    + intros g [].
    + intros g [].
    + intros t gid Ht Hg. rewrite (None_store t Ht) in Hg. discriminate Hg.
    + rewrite filter_none; [reflexivity|].
      intros t Ht. unfold has_group. rewrite (None_store t Ht). reflexivity.
  - eapply Permutation_NoDup; [symmetry; exact P | apply seq_NoDup].
  - intros i Hi. eapply Permutation_in in Hi; [|exact P]. apply in_seq in Hi.
    assert (Hlt : (i < length store)%nat) by (subst store; rewrite length_map; lia).
    apply lookup_lt_is_Some in Hlt. destruct Hlt as [t Ht].
    exists t. split; [exact Ht|]. apply None_store.
    apply list_elem_of_In. eapply list_elem_of_lookup_2. exact Ht.
Qed.

Lemma materialize_core (st : list Txn * list Group) (bucket : BucketKey * list nat) :
  map core (fst (materialize st bucket)) = map core (fst st).
Proof.
  destruct st as [store gs]. unfold materialize.
  destruct (2 <=? length (members_of store (snd bucket)))%nat; [|reflexivity].
  cbn [fst]. apply (alter_all_keeps _ core (snd bucket) store). reflexivity.
Qed.

Lemma materialize_all_core (buckets : Buckets) (st : list Txn * list Group) :
  map core (fst (fold_left materialize buckets st)) = map core (fst st).
Proof.
  revert st. induction buckets as [|b rest IH]; intros st; [reflexivity|].
  simpl. rewrite IH. apply materialize_core.
Qed.

Lemma auto_categorize_core (txns : list Txn) :
  map core (fst (auto_categorize_transactions txns)) = map core txns.
Proof.
  unfold auto_categorize_transactions.
  destruct (classify_all_spec txns 0 []) as [Sf _].
  destruct (classify_all 0 txns []) as [store buckets]. cbn [fst] in Sf.
  rewrite materialize_all_core. cbn [fst]. subst store. rewrite map_map.
  apply map_ext. intros t. apply classify_keeps.
Qed.

Lemma auto_categorize_length (txns : list Txn) :
  length (fst (auto_categorize_transactions txns)) = length txns.
Proof.
  pose proof (auto_categorize_core txns) as C.
  apply (f_equal (@length _)) in C. rewrite !length_map in C. exact C.
Qed.

(** X18.  The grouping writes nothing into a transaction but its
    category and its group: the transactions come back in the same
    number and order, each with its id, date, description, amount and
    type. *)
Theorem grouping_keeps_the_transactions (txns : list Txn) :
  map core (fst (auto_categorize_transactions txns)) = map core txns
  /\ length (fst (auto_categorize_transactions txns)) = length txns.
Proof.
  split; [apply auto_categorize_core | apply auto_categorize_length].
Qed.

(** X19.  After the grouping of transactions that had no group, the
    groups are numbered grp_1, grp_2, ... in the order of their
    creation; each has two members or more, a count equal to the length
    of its member list, and is not confirmed; its member list holds the
    ids of exactly the transactions that carry its id.  Every group id
    on a transaction is the id of a group that lists the transaction,
    and the members of all groups together with the transactions left
    without a group are all the transactions. *)
Theorem grouping_matches_references (txns : list Txn) :
  ungrouped txns ->
  let txns' := fst (auto_categorize_transactions txns) in
  let gs := snd (auto_categorize_transactions txns) in
  map g_id gs = map group_name_of (seq 1 (length gs))
  /\ Forall auto_group gs
  /\ (forall g, In g gs ->
        Permutation (g_transaction_ids g) (map t_id (assigned_to txns' g)))
  /\ (forall t gid, In t txns' -> t_group_id t = Some gid ->
        exists g, In g gs /\ g_id g = gid /\ In (t_id t) (g_transaction_ids g))
  /\ (member_total gs + length (List.filter (fun t => negb (has_group t)) txns')
      = length txns)%nat.
Proof.
  intros U txns' gs.
  destruct (auto_categorize_ok txns U) as [Hids Hmem Havg Hshape Hrefs Hpart].
  fold txns' gs in Hids, Hmem, Havg, Hshape, Hrefs, Hpart.
  split; [exact Hids|]. split; [apply List.Forall_forall; exact Hshape|].
  split; [exact Hmem|]. split.
  - intros t gid Ht Hg. destruct (Hrefs t gid Ht Hg) as (g & Hin & Eg).
    exists g. split; [exact Hin|]. split; [exact Eg|].
    eapply Permutation_in; [symmetry; apply Hmem, Hin|].
    apply in_map. unfold assigned_to. apply filter_In. split; [exact Ht|].
    apply bool_decide_eq_true. congruence.
  - rewrite <- Hpart, filter_length. apply auto_categorize_length.
Qed.

Lemma grouping_matches_references_witness :
  map g_id (snd (auto_categorize_transactions five_payments)) = ["grp_1"; "grp_2"]
  /\ Forall auto_group (snd (auto_categorize_transactions five_payments))
  /\ (member_total (snd (auto_categorize_transactions five_payments)) + 1 = 5)%nat.
Proof.
  assert (U : ungrouped five_payments) by (repeat constructor).
  pose proof (grouping_matches_references five_payments U) as H. cbv zeta in H.
  destruct H as (I & A & _ & _ & T).
  split; [|split; [exact A|]].
  - rewrite I. vm_compute. reflexivity.
  - transitivity (length five_payments); [|reflexivity].
    rewrite <- T. vm_compute. reflexivity.
Defined.

End GroupingProperties.

Section ImportedData.

Lemma parsed_ungrouped (today : Cal.date) (raw_data : string) :
  ungrouped (r_transactions (parse_bank_data today raw_data)).
Proof.
  destruct (parse_bank_data_invariant today raw_data) as [_ F].
  unfold ungrouped. eapply List.Forall_impl; [|exact F].
  intros t P. apply P.
Qed.

Lemma dates_readable_core (xs ys : list Txn) :
  map core xs = map core ys -> dates_readable xs = dates_readable ys.
Proof.
  revert ys. induction xs as [|x xs IH]; intros [|y ys] H; try discriminate H;
    [reflexivity|].
  cbn [map] in H. unfold core at 1 3 in H. injection H as _ Hd _ _ _ Hr.
  unfold dates_readable in *. cbn [forallb].
  rewrite (IH ys Hr), Hd. reflexivity.
Qed.

Lemma members_of_in (store : list Txn) (idxs : list nat) (t : Txn) :
  In t (members_of store idxs) -> In t store.
Proof.
  unfold members_of. induction idxs as [|i rest IH]; [intros []|].
  change (omap (fun i => store !! i) (i :: rest))
    with (match store !! i with
          | Some x => x :: omap (fun i => store !! i) rest
          | None => omap (fun i => store !! i) rest
          end).
  destruct (store !! i) as [x|] eqn:E; [|exact IH].
  intros [<- | H]; [|exact (IH H)].
  apply list_elem_of_In. eapply list_elem_of_lookup_2. exact E.
Qed.

(** On transactions whose dates read back, the second loop runs to its
    end. *)
Lemma materialize_all_readable (buckets : Buckets) :
  forall st : list Txn * list Group,
    dates_readable (fst st) = true ->
    materialize_all buckets st
    = (fst (fold_left materialize buckets st), Some (snd (fold_left materialize buckets st))).
Proof.
  induction buckets as [|b rest IH]; intros st R; [reflexivity|].
  cbn [materialize_all fold_left].
  assert (M : forallb (fun t => Cal.readable (t_date t)) (members_of (fst st) (snd b)) = true).
  { apply forallb_forall. intros t Ht. apply members_of_in in Ht.
    unfold dates_readable in R. rewrite forallb_forall in R. apply R, Ht. }
  rewrite M, andb_false_r. apply IH.
  rewrite (dates_readable_core _ (fst st)); [exact R | apply materialize_core].
Qed.

Lemma auto_categorize_readable (txns : list Txn) :
  dates_readable txns = true ->
  auto_categorize_checked txns
  = (fst (auto_categorize_transactions txns), Some (snd (auto_categorize_transactions txns))).
Proof.
  intros R. unfold auto_categorize_checked, auto_categorize_transactions.
  destruct (classify_all_spec txns 0 []) as [Sf _].
  destruct (classify_all 0 txns []) as [store buckets]. cbn [fst] in Sf.
  apply materialize_all_readable. cbn [fst].
  rewrite (dates_readable_core store txns); [exact R|].
  subst store. rewrite map_map. apply map_ext. intros t. apply classify_keeps.
Qed.

Lemma import_data_store (today : Cal.date) (st : Store) (company_id raw_data : string)
    (company : Company) :
  companies st !! company_id = Some company ->
  dates_readable (r_transactions (parse_bank_data today raw_data)) = true ->
  let r := auto_categorize_transactions (r_transactions (parse_bank_data today raw_data)) in
  import_data today st company_id raw_data
  = (mkStore (alter (set_setup_step "categorization") company_id (companies st))
             (<[company_id := fst r]> (transactions st))
             (<[company_id := snd r]> (groups st)),
     Ok (mkImportResponse (length (fst r)) (length (snd r))
           (r_start_date (parse_bank_data today raw_data))
           (r_end_date (parse_bank_data today raw_data)))).
Proof.
  intros Hc R r. unfold import_data. rewrite Hc, (auto_categorize_readable _ R).
  reflexivity.
Qed.

Lemma group_ids_nodup (gs : list Group) :
  map g_id gs = map group_name_of (seq 1 (length gs)) -> List.NoDup (map g_id gs).
Proof.
  intros H. rewrite H. apply Finite.Injective_map_NoDup; [|apply seq_NoDup].
  intros a b. apply group_name_inj.
Qed.

Lemma find_group_unique (gs : list Group) (g : Group) :
  List.NoDup (map g_id gs) -> In g gs ->
  exists i, find_group gs (Some (g_id g)) = Some i /\ gs !! i = Some g.
Proof.
  induction gs as [|h rest IH]; intros N Hin; [destruct Hin|].
  simpl in N. inversion N as [|x l Hnot Hrest]; subst.
  simpl. destruct (bool_decide (Some (g_id h) = Some (g_id g))) eqn:D.
  - exists 0%nat. split; [reflexivity|]. simpl.
    destruct Hin as [->|Hin]; [reflexivity|].
    apply bool_decide_eq_true in D. injection D as D.
    exfalso. apply Hnot. rewrite D. apply in_map, Hin.
  - destruct Hin as [->|Hin].
    + apply bool_decide_eq_false in D. congruence.
    + destruct (IH Hrest Hin) as (i & F & L). exists (S i). rewrite F. auto.
Qed.

(** X20.  In exact arithmetic, the average amount of a group made by
    the grouping is the mean of the signed amounts of the transactions
    that carry its id once the grouping is over. *)
Theorem group_average_is_mean_of_members (txns : list Txn) (g : Group) :
  ungrouped txns ->
  In g (snd (auto_categorize_transactions txns)) ->
  (PyNum.val (g_avg_amount g)
   == exact_mean (signed_amounts (assigned_to (fst (auto_categorize_transactions txns)) g)))%Q.
Proof.
  intros U Hin. apply (ok_average _ _ (auto_categorize_ok txns U)), Hin.
Qed.

Lemma group_average_is_mean_of_members_witness :
  (PyNum.val (g_avg_amount (nth 0 (snd (auto_categorize_transactions five_payments))
                                unconfirmed_group))
   == 5100)%Q.
Proof.
  rewrite (group_average_is_mean_of_members five_payments).
  - vm_compute. reflexivity.
  - repeat constructor.
  - vm_compute. left. reflexivity.
Defined.

(** X21.  After an import into a known company of a statement whose
    transactions are all dated in the year 1000 or later, the listing
    shows the groups the import counted, and the detail of each of them
    answers with the group itself and with the stored transactions of
    the group: as many as the group counts, their ids those of its
    member list. *)
Theorem imported_groups_open_with_their_members (today : Cal.date) (st : Store)
    (company_id raw_data : string) (company : Company) :
  companies st !! company_id = Some company ->
  dates_readable (r_transactions (parse_bank_data today raw_data)) = true ->
  exists st' resp gs,
    import_data today st company_id raw_data = (st', Ok resp)
    /\ get_groups st' company_id = Ok gs
    /\ i_groups_detected resp = length gs
    /\ forall g, In g gs ->
         exists txns,
           get_group_detail st' company_id (g_id g) = Ok (g, txns)
           /\ Permutation (map t_id txns) (g_transaction_ids g)
           /\ Z.of_nat (length txns) = g_transaction_count g.
Proof.
  intros Hc R. rewrite (import_data_store today st company_id raw_data company Hc R).
  set (r := auto_categorize_transactions (r_transactions (parse_bank_data today raw_data))).
  pose proof (auto_categorize_ok _ (parsed_ungrouped today raw_data)) as OK. fold r in OK.
  eexists _, _, (snd r). split; [reflexivity|]. split.
  { unfold get_groups. cbn [companies groups].
    rewrite lookup_alter_eq, Hc, lookup_insert_eq. reflexivity. }
  split; [reflexivity|].
  intros g Hin.
  destruct (find_group_unique (snd r) g (group_ids_nodup _ (ok_ids _ _ OK)) Hin)
    as (i & F & L).
  exists (assigned_to (fst r) g). split.
  - unfold get_group_detail. cbn [groups transactions].
    rewrite !lookup_insert_eq, F, L. reflexivity.
  - pose proof (ok_members _ _ OK g Hin) as M. split; [symmetry; exact M|].
    destruct (ok_shape _ _ OK g Hin) as (C & _). rewrite C.
    rewrite (Permutation_length M), length_map. reflexivity.
Qed.

Lemma imported_groups_open_with_their_members_witness :
  exists st' resp gs,
    import_data jan1 new_store "acme" payroll_statement = (st', Ok resp)
    /\ get_groups st' "acme" = Ok gs
    /\ i_groups_detected resp = length gs
    /\ forall g, In g gs ->
         exists txns,
           get_group_detail st' "acme" (g_id g) = Ok (g, txns)
           /\ Permutation (map t_id txns) (g_transaction_ids g)
           /\ Z.of_nat (length txns) = g_transaction_count g.
Proof.
  apply (imported_groups_open_with_their_members jan1 new_store "acme" payroll_statement
           new_company).
  - reflexivity.
  - vm_compute. reflexivity.
Defined.

(** X22.  Right after an import no group is confirmed, so the forecast
    of the company shows no movement: for a statement whose
    transactions are all dated in the year 1000 or later and a horizon
    of one day or more that ends on 9999-12-31 at the latest, either
    the import found no group and the forecast answers that no groups
    are defined, or the forecast has one row per day, each with zero
    credits, zero debits and no transaction, and all with the same
    balance. *)
Theorem forecast_after_import_is_flat (today : Cal.date) (st : Store)
    (company_id raw_data : string) (company : Company) (days : Z) :
  companies st !! company_id = Some company ->
  dates_readable (r_transactions (parse_bank_data today raw_data)) = true ->
  1 <= days ->
  horizon_in_calendar today days ->
  let st' := fst (import_data today st company_id raw_data) in
  get_forecast today st' company_id days = Ok (ErrorBody no_groups_message)
  \/ exists rows summary,
       get_forecast today st' company_id days = Ok (ForecastOf rows summary)
       /\ length rows = Z.to_nat days
       /\ flat rows.
Proof.
  intros Hc R Hd Hcal. rewrite (import_data_store today st company_id raw_data company Hc R).
  set (r := auto_categorize_transactions (r_transactions (parse_bank_data today raw_data))).
  pose proof (auto_categorize_ok _ (parsed_ungrouped today raw_data)) as OK. fold r in OK.
  cbn [fst]. set (st' := mkStore _ _ _).
  assert (Hc' : companies st' !! company_id
                = Some (set_setup_step "categorization" company)).
  { unfold st'. cbn [companies]. rewrite lookup_alter_eq, Hc. reflexivity. }
  assert (Hg' : groups st' !! company_id = Some (snd r)).
  { unfold st'. cbn [groups]. apply lookup_insert_eq. }
  destruct (snd r) as [|g gs] eqn:E.
  - left. unfold get_forecast. rewrite Hc', Hg'. reflexivity.
  - right.
    assert (Hs : Forall silent (g :: gs)).
    { apply List.Forall_forall. intros x Hx. left. apply (ok_shape _ _ OK x Hx). }
    destruct (forecast_structure today st' company_id days _ (g :: gs) Hc' Hg')
      as (final & rows & low & high & Ef & _ & _ & F & D & _);
      [discriminate | exact Hd | exact Hcal |].
    exists rows. eexists. split; [exact F|]. split.
    + apply (f_equal (@length _)) in D. rewrite !length_map, range_length in D. exact D.
    + pose proof (simulate_silent today (g :: gs)
                    (default (PyInt 0) (co_current_balance company))
                    (range days) Hs _ [] (same_num_refl _) (List.Forall_nil _)) as Q.
      cbn [set_setup_step co_current_balance] in Ef. rewrite Ef in Q. cbn [snd] in Q.
      rewrite List.Forall_forall in Q. split.
      * apply List.Forall_forall. intros x Hx. apply (Q x Hx).
      * intros x y Hx Hy. rewrite (proj2 (Q x Hx)), (proj2 (Q y Hy)). reflexivity.
Qed.

Lemma forecast_after_import_is_flat_witness :
  exists rows summary,
    get_forecast jan1 (fst (import_data jan1 new_store "acme" payroll_statement)) "acme" 3
    = Ok (ForecastOf rows summary)
    /\ length rows = 3%nat
    /\ flat rows.
Proof.
  destruct (forecast_after_import_is_flat jan1 new_store "acme" payroll_statement
              new_company 3) as [H|H].
  - reflexivity.
  - vm_compute. reflexivity.
  - lia.
  - split; vm_compute; discriminate.
  - exfalso. vm_compute in H. discriminate H.
  - exact H.
Defined.

End ImportedData.

Section CompanyProfile.

(** X23.  Creating a company never fails and never refuses a name: the
    answer carries the derived id and its first six characters as access
    code, and after it the store holds under that id a profile at the
    step of the data upload with no balance, no transactions and no
    groups, whatever it held there before; the forecast of the id
    answers that no groups are defined and its trends are empty and
    stable.  The entries of every other id are as before. *)
Theorem create_company_starts_empty (st : Store) (name : option string) :
  exists st' cid,
    create_company st name = (st', Ok (mkCreateResponse true cid (prefix_of 6 cid)))
    /\ cid = company_id_of name (size (companies st))
    /\ get_company st' cid
       = Ok (mkCompany cid (default "My Company" name) "data_upload" None)
    /\ get_groups st' cid = Ok []
    /\ get_trends st' cid = Ok (mkTrends [] "stable" "stable")
    /\ (forall today days,
          get_forecast today st' cid days = Ok (ErrorBody no_groups_message))
    /\ (forall other, other <> cid ->
          companies st' !! other = companies st !! other
          /\ transactions st' !! other = transactions st !! other
          /\ groups st' !! other = groups st !! other).
Proof.
  unfold create_company. set (cid := company_id_of name (size (companies st))).
  eexists _, cid. split; [reflexivity|]. split; [reflexivity|].
  split. { unfold get_company. cbn [companies]. rewrite lookup_insert_eq. reflexivity. }
  split. { unfold get_groups. cbn [companies groups]. rewrite !lookup_insert_eq. reflexivity. }
  split. { unfold get_trends. cbn [transactions]. rewrite lookup_insert_eq. reflexivity. }
  split.
  { intros today days. unfold get_forecast. cbn [companies groups].
    rewrite !lookup_insert_eq. reflexivity. }
  intros other Hne. cbn [companies transactions groups].
  rewrite !lookup_insert_ne by congruence. auto.
Qed.

Lemma id_char_of_shaped (c : ascii) : id_char (id_char_of c) = true.
Proof. destruct c as [[] [] [] [] [] [] [] []]; reflexivity. Qed.

Lemma id_char_of_idem (c : ascii) : id_char_of (id_char_of c) = id_char_of c.
Proof. destruct c as [[] [] [] [] [] [] [] []]; reflexivity. Qed.

Lemma id_chars (s : string) :
  spaces_to_underscores (lower s)
  = string_of_list_ascii (map id_char_of (list_ascii_of_string s)).
Proof.
  induction s as [|c s IH]; [reflexivity|].
  simpl. rewrite IH. reflexivity.
Qed.

Lemma prefix_chars (n : nat) (s : string) :
  list_ascii_of_string (String.substring 0 n s) = firstn n (list_ascii_of_string s).
Proof.
  revert n. induction s as [|c s IH]; intros [|n]; simpl; try reflexivity.
  rewrite IH. reflexivity.
Qed.

Lemma string_length_chars (s : string) :
  String.length s = length (list_ascii_of_string s).
Proof. induction s as [|c s IH]; [reflexivity|]. simpl. rewrite IH. reflexivity. Qed.

Lemma prefix_not_empty (name : string) :
  name <> "" ->
  PyStr.is_empty (String.substring 0 20 (spaces_to_underscores (lower name))) = false.
Proof. destruct name as [|c rest]; [congruence|]. reflexivity. Qed.

Lemma company_id_chars (name : string) (existing : nat) :
  name <> "" ->
  list_ascii_of_string (company_id_of (Some name) existing)
  = firstn 20 (map id_char_of (list_ascii_of_string name)).
Proof.
  intros Hne. unfold company_id_of, prefix_of. cbn [from_option id]. cbv zeta.
  rewrite (prefix_not_empty name Hne).
  rewrite prefix_chars, id_chars, list_ascii_of_string_of_list_ascii. reflexivity.
Qed.

(** X24.  The id made from a name that is not empty has at most twenty
    characters, none of them a blank or a capital letter, and it is a
    name that gives itself as id: a creation under the id as name
    addresses the same tenant, however many companies exist by then. *)
Theorem company_id_of_name (name : string) (existing later : nat) :
  name <> "" ->
  id_shaped (company_id_of (Some name) existing)
  /\ company_id_of (Some (company_id_of (Some name) existing)) later
     = company_id_of (Some name) existing.
Proof.
  intros Hne.
  pose proof (company_id_chars name existing Hne) as E.
  assert (Hid : company_id_of (Some name) existing <> "").
  { intros H. rewrite H in E. destruct name as [|c rest]; [congruence|].
    discriminate E. }
  split; [split|].
  - rewrite string_length_chars, E. apply firstn_le_length.
  - rewrite E. apply Forall_take, List.Forall_forall. intros c Hc.
    apply in_map_iff in Hc. destruct Hc as (c0 & <- & _). apply id_char_of_shaped.
  - rewrite <- (string_of_list_ascii_of_string (company_id_of (Some _) later)).
    rewrite <- (string_of_list_ascii_of_string (company_id_of (Some name) existing)) at 2.
    f_equal. rewrite (company_id_chars _ later Hid), E.
    rewrite <- firstn_map, take_idemp, map_map.
    rewrite (map_ext _ id_char_of id_char_of_idem). reflexivity.
Qed.

Lemma company_id_of_name_witness :
  id_shaped (company_id_of (Some "Acme Hardware and Garden Supplies") 0)
  /\ company_id_of (Some (company_id_of (Some "Acme Hardware and Garden Supplies") 0)) 1
     = company_id_of (Some "Acme Hardware and Garden Supplies") 0.
Proof.
  apply (company_id_of_name "Acme Hardware and Garden Supplies" 0 1). discriminate.
Defined.

End CompanyProfile.
